(** * AIL scenario-script disassembler: a shallow embedding and its properties

    The development follows the Python sources module by module:
    - [Utilities.py]: the shared [GlobalBuffer], the cursor reads, [read_C_string];
    - [Disassemble.py]: header parsing and buffer set-up;
    - [Fake_Stack.py]: the expression VM and the bit-field extraction;
    - [NormalOpcodeTable.py]: the name cache and the inner dispatcher;
    - [SysCallTable.py]: the outer dispatcher and the switch/case handler.

    Python [int] is [Z]; [bytes] is [list byte]; [str] is [string] (the
    UTF-8 bytes of the text); a [dict] with integer keys is a [gmap Z];
    [print] appends a [Line] to the standard output kept in the [World]. *)

From Stdlib Require Import ZArith List Bool Strings.Byte String Lia.
From stdpp Require Import base option list gmap.

Local Open Scope Z_scope.

(** ** Python sequences *)

Module Py.

(** [len(l)] *)
Definition len {A : Type} (l : list A) : Z := Z.of_nat (List.length l).

(** [l[i]], a negative index counting from the end; [None] is [IndexError]. *)
Definition getitem {A : Type} (l : list A) (i : Z) : option A :=
  if i <? 0
  then (if 0 <=? len l + i then List.nth_error l (Z.to_nat (len l + i)) else None)
  else List.nth_error l (Z.to_nat i).

(** How a slice bound is clamped into [0 .. len]. *)
Definition clamp (n i : Z) : Z :=
  if i <? 0 then Z.max 0 (n + i) else Z.min i n.

(** [l[lo:hi]] *)
Definition slice {A : Type} (l : list A) (lo hi : Z) : list A :=
  let lo' := clamp (len l) lo in
  let hi' := clamp (len l) hi in
  List.firstn (Z.to_nat (hi' - lo')) (List.skipn (Z.to_nat lo') l).

(** [l[:hi]] and [l[lo:]] *)
Definition slice_to {A : Type} (l : list A) (hi : Z) : list A := slice l 0 hi.

(** [l[-1]] *)
Definition last {A : Type} (l : list A) : option A := getitem l (-1).

(** [l.pop()] on a non-empty list: the list that remains. *)
Definition pop {A : Type} (l : list A) : list A := List.removelast l.

(** [l[-1] = x] on a non-empty list. *)
Definition set_last {A : Type} (l : list A) (x : A) : list A :=
  match l with
  | [] => []
  | _ => List.removelast l ++ [x]
  end.

(** [l.append(x)] *)
Definition append {A : Type} (l : list A) (x : A) : list A := l ++ [x].

(** The value of a byte as an [int]. *)
Definition ord (b : byte) : Z := Z.of_N (Byte.to_N b).

(** [bytes([...])] for literals; a value outside [0..255] gives byte 0. *)
Definition byte_of (z : Z) : byte :=
  match Byte.of_N (Z.to_N z) with Some b => b | None => x00 end.
Definition bytes (l : list Z) : list byte := List.map byte_of l.

End Py.

(** ** Exceptions, results and the state monad of the program *)

(** The messages of [DisassemblerError] in [Disassemble.py]. *)
Inductive DisassemblerError_msg : Type :=
| FileIsEmpty
| FileTooSmallForHeader
| FileSizeSmallerThanRequired (file_size required_size : Z).

(** The messages of [SysCallOpcodeDisassemblerError] in [SysCallTable.py]. *)
Inductive SysCallError_msg : Type :=
| UnexpectedEndReadingByte
| UnexpectedEndReadingWord.

(** The exceptions of the program. The two messages of
    [NormalOpcodeDisassemblerException] are
    [Unknown opcode: {opcode} (0x..) at offset {current_offset}] and
    [Error processing commands: {e}]. *)
Inductive exn : Type :=
| TypeError
| IndexError
| StructError
| UnicodeDecodeError
| DisassemblerError (m : DisassemblerError_msg)
| SysCallOpcodeDisassemblerError (m : SysCallError_msg)
| NormalOpcodeDisassemblerException (m : NormalError_msg)
with NormalError_msg : Type :=
| UnknownOpcode (opcode current_offset : Z)
| ErrorProcessingCommands (e : exn).

(** What a call produces: a value, a raised exception, or no answer within
    the iteration budget of a loop. *)
Inductive result (A : Type) : Type :=
| Ok (a : A)
| Raise (e : exn)
| Diverge.
Arguments Ok {A} a.
Arguments Raise {A} e.
Arguments Diverge {A}.

(** ** The objects of the program *)

(** [Utilities.GlobalBuffer]: class attributes used as the shared buffers. *)
Record GlobalBuffer : Type := mkGlobalBuffer {
  command_data : list byte;
  text_data : list byte;
  command_data_offset : Z;
  text_data_offset : Z
}.

(** [Utilities.FileHeader] *)
Record FileHeader : Type := mkFileHeader {
  reserved1 : Z;
  command_block_size : Z;
  command_block_for_text_size : Z;
  string_table_size : Z;
  reserved2 : Z
}.

(** [NormalOpcodeTable.NameCache] *)
Record NameCache : Type := mkNameCache {
  cache : gmap Z string;
  last_saved_name : string;
  last_saved_name_offset : option Z;
  NameCache_debug : bool
}.

(** [NormalOpcodeDisassembler]: its handler table is the constant
    [opcode_handlers] below. *)
Record NormalOpcodeDisassembler : Type := mkNormalOpcodeDisassembler {
  Normal_debug : bool;
  name_cache : NameCache
}.

(** [SysCallOpcodeDisassembler] *)
Record SysCallOpcodeDisassembler : Type := mkSysCallOpcodeDisassembler {
  normal_opcode_disassembler : NormalOpcodeDisassembler;
  SysCall_debug : bool
}.

(** The three texts that [_handle_string_opcode] can put in [cache_info]. *)
Inductive CacheInfo : Type :=
| CachedFromOffset (text_offset : Z) (actual_string : string)
| CachedLast (actual_string : string) (last_offset : option Z)
| NoCacheAvailable.

(** One constructor for each [print] of the program, with the values it
    interpolates. *)
Inductive Line : Type :=
(* Utilities.py *)
| DecodeFallback
(* SysCallTable.py *)
| SysAtOffset (current_offset opcode : Z)
| SysVMError (e : exn)
| SysUnexpectedError (e : exn)
| SysUnknownAdjusted (adjusted_opcode opcode : Z)
| SysUnhandledOpcode (opcode current_offset : Z)
| SysConditionalJump (current_offset condition jump_target : Z)
| SysReturn (current_offset : Z)
| SysScenarioCall (current_offset scenario_id return_point extra_param : Z)
| SysEndProcessing (current_offset : Z)
| SysConditionalSkip (current_offset jump_target : Z)
| SysMainInterpreter (current_offset : Z)
| SysAudioOperation (current_offset : Z)
| SysJumpResult (jump_result : Z)
| SysSimpleJump (current_offset jump_target : Z)
| SwitchOperation (current_offset : Z)
| SwitchRaw (switch_param_raw switch_value : Z)
| SwitchProcessed (processed_switch_param : Z)
| SwitchComparing (processed_switch_param case_count default_target : Z)
| SwitchCase (i case_value case_target : Z)
| SwitchMatchFound (processed_switch_param case_value : Z)
| SwitchTargetWouldBe (case_target : Z)
| SwitchNoMatch (processed_switch_param default_target : Z)
| SysCallTo (target return_addr : Z)
| SysPlayWav (param wav_id expression : Z)
| SysAudioOp (param audio_id jump_result : Z)
| SysLoadScenario (scenario_id : Z)
(* NormalOpcodeTable.py *)
| NameCached (name : string) (offset : Z)
| NormalNoneOpcode
| NormalAt (current_offset opcode : Z)
| NormalErrorSingle (e : exn)
| NormalErrorAll (e : exn)
| NormalExecuting (what : string) (current_offset : Z)
| NormalVMResult (r : Z)
| NormalVMResults (results : list Z)
| NormalStringEOF (current_offset max_offset : Z)
| NormalTextCached (text_offset v252 get_string_flag length : Z) (info : CacheInfo)
| NormalText (text_offset v252 get_string_flag length : Z) (text : string)
| NormalInvalidTextOffset (text_offset max_offset : Z)
| NormalNewline (current_offset : Z)
| NormalPlayMPG (video_name_string : string) (current_offset : Z)
| NormalScenarioEmpty (current_offset : Z)
| NormalScenarioString (current_offset : Z) (scenario_string : string)
| NormalScenarioTextStart (scenario_txt_start_offset : option Z)
| NormalHintString (hint_string : string)
| NormalScenarioText (length : Z) (text : string)
| NormalImageNo (image_no : Z)
| NormalString (text : string)
| NormalUnknownOpcode (opcode current_offset : Z).

(** Everything a decode run reads and writes: the global buffers, the
    dispatcher objects and the standard output (oldest line first). *)
Record World : Type := mkWorld {
  GB : GlobalBuffer;
  sys_call_executer : SysCallOpcodeDisassembler;
  stdout : list Line
}.

Definition with_GB (w : World) (g : GlobalBuffer) : World :=
  mkWorld g (sys_call_executer w) (stdout w).

Definition with_offset (w : World) (off : Z) : World :=
  with_GB w (mkGlobalBuffer (command_data (GB w)) (text_data (GB w)) off
                            (text_data_offset (GB w))).

Definition with_stdout (w : World) (out : list Line) : World :=
  mkWorld (GB w) (sys_call_executer w) out.

Definition the_normal (w : World) : NormalOpcodeDisassembler :=
  normal_opcode_disassembler (sys_call_executer w).

Definition with_name_cache (w : World) (nc : NameCache) : World :=
  mkWorld (GB w)
          (mkSysCallOpcodeDisassembler
             (mkNormalOpcodeDisassembler (Normal_debug (the_normal w)) nc)
             (SysCall_debug (sys_call_executer w)))
          (stdout w).

(** [NameCache()], [NormalOpcodeDisassembler()], [SysCallOpcodeDisassembler()]:
    every [debug] flag is [True] after construction. *)
Definition NameCache_init (debug : bool) : NameCache :=
  mkNameCache ∅ EmptyString None debug.
Definition NormalOpcodeDisassembler_init (debug : bool) : NormalOpcodeDisassembler :=
  mkNormalOpcodeDisassembler debug (NameCache_init debug).
Definition SysCallOpcodeDisassembler_init : SysCallOpcodeDisassembler :=
  mkSysCallOpcodeDisassembler (NormalOpcodeDisassembler_init true) true.

(** The world of a fresh process with the given buffers. *)
Definition World_init (g : GlobalBuffer) : World :=
  mkWorld g SysCallOpcodeDisassembler_init [].

(** A computation of the program: it reads and changes the world, and
    returns, raises or diverges. The world at a [Raise] is the one the
    exception handler sees. *)
Definition M (A : Type) : Type := World -> result A * World.

Definition ret {A : Type} (a : A) : M A := fun w => (Ok a, w).

Definition bind {A B : Type} (m : M A) (k : A -> M B) : M B :=
  fun w =>
    match m w with
    | (Ok a, w') => k a w'
    | (Raise e, w') => (Raise e, w')
    | (Diverge, w') => (Diverge, w')
    end.

Definition raise {A : Type} (e : exn) : M A := fun w => (Raise e, w).
Definition diverge {A : Type} : M A := fun w => (Diverge, w).

(** [try: m  except Exception as e: handler e] *)
Definition try_except {A : Type} (m : M A) (handler : exn -> M A) : M A :=
  fun w =>
    match m w with
    | (Raise e, w') => handler e w'
    | r => r
    end.

Definition get_world : M World := fun w => (Ok w, w).
Definition get_GB : M GlobalBuffer := fun w => (Ok (GB w), w).
Definition set_command_data_offset (off : Z) : M unit :=
  fun w => (Ok tt, with_offset w off).
Definition set_name_cache (nc : NameCache) : M unit :=
  fun w => (Ok tt, with_name_cache w nc).
Definition print (l : Line) : M unit :=
  fun w => (Ok tt, with_stdout w (stdout w ++ [l])).
Definition lift {A : Type} (r : result A) : M A := fun w => (r, w).

(** [if flag: m] *)
Definition when (flag : bool) (m : M unit) : M unit :=
  if flag then m else ret tt.

Declare Scope py_scope.
Delimit Scope py_scope with py.
Notation "'let*' x ':=' m 'in' k" := (bind m (fun x => k))
  (at level 10, x pattern, m at level 100, k at level 200) : py_scope.
Notation "m ';;;' k" := (bind m (fun _ => k))
  (at level 100, k at level 200, right associativity) : py_scope.
Local Open Scope py_scope.

(** Sequencing of calls that have no effect on the world. *)
Definition rbind {A B : Type} (r : result A) (k : A -> result B) : result B :=
  match r with
  | Ok a => k a
  | Raise e => Raise e
  | Diverge => Diverge
  end.
Notation "'let+' x ':=' r 'in' k" := (rbind r (fun x => k))
  (at level 10, x pattern, r at level 100, k at level 200) : py_scope.

(** ** Utilities.py *)

(** [struct.unpack_from('<H', data, 0)]: [struct.error] on fewer than two bytes. *)
Definition read_uint16 (data : list byte) : result Z :=
  match data with
  | b0 :: b1 :: _ => Ok (Py.ord b0 + 256 * Py.ord b1)
  | _ => Raise StructError
  end.

(** [struct.unpack_from('<I', data, 0)] *)
Definition read_uint32 (data : list byte) : result Z :=
  match data with
  | b0 :: b1 :: b2 :: b3 :: _ =>
      Ok (Py.ord b0 + 256 * Py.ord b1 + 65536 * Py.ord b2 + 16777216 * Py.ord b3)
  | _ => Raise StructError
  end.

(** [get_next_byte]: [None] at the end of the command data. *)
Definition get_next_byte : M (option Z) :=
  let* g := get_GB in
  if Py.len (command_data g) <=? command_data_offset g then ret None
  else
    match Py.getitem (command_data g) (command_data_offset g) with
    | None => raise IndexError
    | Some byte_value =>
        set_command_data_offset (command_data_offset g + 1) ;;;
        ret (Some (Py.ord byte_value))
    end.

(** [read_next_opcode] *)
Definition read_next_opcode : M (option Z) := get_next_byte.

(** [get_next_word]: [None] when fewer than two bytes are left. *)
Definition get_next_word : M (option Z) :=
  let* g := get_GB in
  if Py.len (command_data g) <=? command_data_offset g + 1 then ret None
  else
    let* word := lift (read_uint16 (Py.slice (command_data g) (command_data_offset g)
                                             (command_data_offset g + 2))) in
    set_command_data_offset (command_data_offset g + 2) ;;;
    ret (Some word).

(** [int.from_bytes(l, 'little')] on a list of byte values. *)
Fixpoint int_from_bytes_little (l : list Z) : Z :=
  match l with
  | [] => 0
  | b :: rest => b + 256 * int_from_bytes_little rest
  end.

(** The loop of [sub_42164D]: [v2] runs over the table in steps of 4. *)
Fixpoint sub_42164D_loop (fuel : nat) (data : list Z) (table_size a1 v2 : Z) : Z :=
  match fuel with
  | O => 0
  | S fuel' =>
      if v2 <? table_size - 1 then
        let search_value := int_from_bytes_little (Py.slice data v2 (v2 + 2)) in
        if search_value =? a1
        then int_from_bytes_little (Py.slice data (v2 + 2) (v2 + 4))
        else sub_42164D_loop fuel' data table_size a1 (v2 + 4)
      else 0
  end.

(** [sub_42164D]: the jump-target lookup over a table of 0xee zero bytes;
    60 iterations reach the end of the table. *)
Definition sub_42164D (a1 : Z) : Z :=
  let table_size := 238 in
  let data := List.repeat 0 (Z.to_nat table_size) in
  if 0 <? table_size - 1 then sub_42164D_loop 60 data table_size a1 0 else 0.

(** [while temp & 1 == 0: count += 1; temp >>= 1], giving the final
    [(count, temp)]; [None] when the budget of iterations runs out. *)
Fixpoint while_low_bit_clear (fuel : nat) (temp count : Z) : option (Z * Z) :=
  match fuel with
  | O => None
  | S fuel' =>
      if Z.land temp 1 =? 0
      then while_low_bit_clear fuel' (Z.shiftr temp 1) (count + 1)
      else Some (count, temp)
  end.

(** [while temp & 1 != 0: count += 1; temp >>= 1] *)
Fixpoint while_low_bit_set (fuel : nat) (temp count : Z) : option (Z * Z) :=
  match fuel with
  | O => None
  | S fuel' =>
      if negb (Z.land temp 1 =? 0)
      then while_low_bit_set fuel' (Z.shiftr temp 1) (count + 1)
      else Some (count, temp)
  end.

(** Iterations granted to the two bit loops on a pattern: more than its
    number of binary digits, which is all they can use on a positive
    pattern. *)
Definition bit_budget (pattern : Z) : nat := S (S (Z.to_nat (Z.log2 pattern))).

(** [_sub_414FE6(a1, a2)] of [Utilities.py], whose table value is the
    constant 0. *)
Definition _sub_414FE6 (a1 a2 : Z) : result Z :=
  if a2 =? 0 then Ok a2
  else
    let temp_a2 := Z.land a2 65535 in
    match while_low_bit_clear (bit_budget temp_a2) temp_a2 0 with
    | None => Diverge
    | Some (i, temp_a2) =>
        match while_low_bit_set (bit_budget temp_a2) temp_a2 0 with
        | None => Diverge
        | Some (v4, _) =>
            let mask := Z.shiftl 1 v4 - 1 in
            let value := 0 in
            Ok (Z.land (Z.shiftr value i) mask)
        end
    end.

(** ** Disassemble.py *)

(** [Disassembler._parse_header] *)
Definition _parse_header (data : list byte) : result FileHeader :=
  if Py.len data <? 12 then Raise (DisassemblerError FileTooSmallForHeader)
  else
    let header_data := Py.slice_to data 12 in
    let+ r1 := read_uint32 (Py.slice_to header_data 4) in
    let+ cbs := read_uint16 (Py.slice header_data 4 6) in
    let+ cbts := read_uint16 (Py.slice header_data 6 8) in
    let+ sts := read_uint16 (Py.slice header_data 8 10) in
    let+ r2 := read_uint16 (Py.slice header_data 10 12) in
    Ok (mkFileHeader r1 cbs cbts sts r2).

(** [Disassembler._setup_global_buffers]: the three assignments to the
    attributes of [GlobalBuffer] happen only after the size check. *)
Definition _setup_global_buffers (data : list byte) (header : FileHeader) : M unit :=
  let offset := 12 in
  let required_size := 12 + command_block_size header
                       + command_block_for_text_size header
                       + string_table_size header in
  if Py.len data <? required_size then
    raise (DisassemblerError (FileSizeSmallerThanRequired (Py.len data) required_size))
  else
    let offset := offset + command_block_size header in
    let command_end := offset + command_block_for_text_size header in
    let new_command_data := Py.slice data offset command_end in
    let offset := command_end in
    let text_end := offset + string_table_size header in
    let new_text_data := Py.slice data offset text_end in
    fun w => (Ok tt, with_GB w (mkGlobalBuffer new_command_data new_text_data 0
                                               (text_data_offset (GB w)))).

(** ** Fake_Stack.py *)

(** The global [word_table = [0] * 256]. *)
Definition word_table : list Z := List.repeat 0 256.

(** [read_next_byte]: the marker 0xFF at the end of the command data. *)
Definition read_next_byte : M (option Z) :=
  let* g := get_GB in
  if Py.len (command_data g) <=? command_data_offset g then ret (Some 255)
  else get_next_byte.

(** [create_mask] *)
Definition create_mask (bit_count : Z) : Z :=
  if bit_count <=? 0 then 0 else Z.shiftl 1 bit_count - 1.

(** [extract_bit_field] over a given table. An argument is [None] when the
    read that produced it returned [None]; using it in arithmetic or in an
    ordering comparison is a [TypeError]. *)
Definition extract_bit_field_in (table : list Z)
    (table_index bit_pattern : option Z) : result (option Z) :=
  match bit_pattern with
  | None => Raise TypeError
  | Some pattern =>
      if pattern =? 0 then Ok bit_pattern
      else
        match while_low_bit_clear (bit_budget pattern) pattern 0 with
        | None => Diverge
        | Some (leading_zeros, temp_pattern) =>
            match while_low_bit_set (bit_budget pattern) temp_pattern 0 with
            | None => Diverge
            | Some (ones_count, _) =>
                match table_index with
                | None => Raise TypeError
                | Some index =>
                    let word_value :=
                      if index <? Py.len table then Py.getitem table index else Some 0 in
                    match word_value with
                    | None => Raise IndexError
                    | Some word_value =>
                        let shifted_value := Z.shiftr word_value leading_zeros in
                        let mask := create_mask ones_count in
                        Ok (Some (Z.land shifted_value mask))
                    end
                end
            end
        end
  end.

(** [extract_bit_field], on the global [word_table]. *)
Definition extract_bit_field (table_index bit_pattern : option Z) : result (option Z) :=
  extract_bit_field_in word_table table_index bit_pattern.

(** [read_processed_value] *)
Definition read_processed_value : M Z :=
  let* table_index := read_next_byte in
  let* bit_pattern := get_next_word in
  let* bit_pattern :=
    (if negb (bool_decide (table_index = Some 255))
     then lift (extract_bit_field table_index bit_pattern)
     else ret bit_pattern) in
  match bit_pattern with
  | None => raise TypeError
  | Some pattern => ret (Z.land pattern 65535)
  end.

(** The two stacks of [execute_vm_code], bottom first as the Python lists. *)
Definition Stacks : Type := (list Z * list Z)%type.

(** [1 if c else 0] *)
Definition flag (c : bool) : Z := if c then 1 else 0.

(** The shape shared by the binary operators:
    [[
      if len(value_stack) >= 1 and len(flag_stack) >= 1:
          val = value_stack.pop()
          flag_stack[-1] = f(flag_stack[-1], val)
          flag_stack.pop()
    ]] *)
Definition binary_operator (f : Z -> Z -> Z) (value_stack flag_stack : list Z) : Stacks :=
  match Py.last value_stack, Py.last flag_stack with
  | Some val, Some top =>
      let value_stack := Py.pop value_stack in
      let flag_stack := Py.set_last flag_stack (f top val) in
      (value_stack, Py.pop flag_stack)
  | _, _ => (value_stack, flag_stack)
  end.

Definition op_add (top val : Z) : Z := Z.land (top + val) 4294967295.
Definition op_sub (top val : Z) : Z := Z.land (top - val) 4294967295.
Definition op_mul (top val : Z) : Z := Z.land (top * val) 4294967295.
Definition op_div (top divisor : Z) : Z := if divisor =? 0 then 0 else top / divisor.
Definition op_mod (top divisor : Z) : Z := if divisor =? 0 then 0 else top mod divisor.

(** Operation 12, the logical NOT of the arithmetic group. *)
Definition logical_not_12 (value_stack flag_stack : list Z) : Stacks :=
  match Py.last flag_stack with
  | Some top =>
      let flag_stack :=
        if negb (top =? 0) then Py.set_last flag_stack 1
        else
          match Py.last value_stack with
          | Some v => if negb (v =? 0) then Py.set_last flag_stack 1
                      else Py.set_last flag_stack 0
          | None => Py.set_last flag_stack 0
          end in
      let value_stack :=
        if 1 <=? Py.len value_stack then Py.pop value_stack else value_stack in
      let flag_stack :=
        if 2 <=? Py.len flag_stack then Py.pop flag_stack else flag_stack in
      (value_stack, flag_stack)
  | None => (value_stack, flag_stack)
  end.

(** Operation 11, the logical NOT of the comparison group. *)
Definition logical_not_11 (value_stack flag_stack : list Z) : Stacks :=
  match Py.last flag_stack with
  | Some top => (value_stack, Py.set_last flag_stack (flag (top =? 0)))
  | None => (value_stack, flag_stack)
  end.

(** Operation 10, the zero check on the value stack. *)
Definition zero_check_10 (value_stack flag_stack : list Z) : Stacks :=
  match Py.last value_stack with
  | Some top => (Py.set_last value_stack (flag (top =? 0)), flag_stack)
  | None => (value_stack, flag_stack)
  end.

(** Phase 2 of [execute_vm_code]: the effect of one operation code on the
    stacks. Codes without a branch leave them as they are. *)
Definition apply_operation (operation : Z) (value_stack flag_stack : list Z) : Stacks :=
  if 11 <? operation then
    let op_type := operation - 12 in
    if op_type =? 0 then logical_not_12 value_stack flag_stack
    else if op_type =? 8 then binary_operator op_add value_stack flag_stack
    else if op_type =? 9 then binary_operator op_sub value_stack flag_stack
    else if op_type =? 10 then binary_operator op_mul value_stack flag_stack
    else if op_type =? 11 then binary_operator op_div value_stack flag_stack
    else if op_type =? 12 then binary_operator op_mod value_stack flag_stack
    else (value_stack, flag_stack)
  else
    if operation =? 11 then logical_not_11 value_stack flag_stack
    else if operation =? 0 then
      binary_operator (fun top val => flag (val <? top)) value_stack flag_stack
    else if operation =? 1 then
      binary_operator (fun top val => flag (top <=? val)) value_stack flag_stack
    else if operation =? 2 then
      binary_operator (fun top val => flag (negb (top =? val))) value_stack flag_stack
    else if operation =? 3 then
      binary_operator (fun top val => flag (val =? top)) value_stack flag_stack
    else if operation =? 4 then
      binary_operator (fun top val => flag (val <=? top)) value_stack flag_stack
    else if operation =? 5 then
      binary_operator (fun top val => flag (top <? val)) value_stack flag_stack
    else if operation =? 10 then zero_check_10 value_stack flag_stack
    else (value_stack, flag_stack).

(** What one turn of the interpreter loop does: it returns from
    [execute_vm_code], or goes on with new stacks. *)
Inductive VMTurn : Type :=
| VMReturn (v : Z)
| VMContinue (value_stack flag_stack : list Z).

(** [value_stack[0] if value_stack else 0] *)
Definition bottom_or_zero (value_stack : list Z) : Z :=
  match value_stack with
  | [] => 0
  | v :: _ => v
  end.

(** What a turn does with the byte it has read in phase 1: 255 returns;
    0 pushes an operand and stays in phase 1; any other byte leaves phase 1,
    and phase 2 reads the operation and applies it, after which the outer
    loop enters phase 1 again. *)
Definition vm_turn_on (next_byte : option Z) (value_stack flag_stack : list Z)
    : M VMTurn :=
  if bool_decide (next_byte = Some 255) then
    ret (VMReturn (bottom_or_zero value_stack))
  else if bool_decide (next_byte = Some 0) then
    let* value := read_processed_value in
    ret (VMContinue (Py.append value_stack value) (Py.append flag_stack 0))
  else
    let* operation := read_next_byte in
    match operation with
    | None => raise TypeError
    | Some operation =>
        let (value_stack, flag_stack) :=
          apply_operation operation value_stack flag_stack in
        ret (VMContinue value_stack flag_stack)
    end.

(** One turn of the loops of [execute_vm_code]: a byte is read and acted on. *)
Definition vm_turn (value_stack flag_stack : list Z) : M VMTurn :=
  let* next_byte := read_next_byte in
  vm_turn_on next_byte value_stack flag_stack.

(** The [while True] loops, one turn per unit of budget. *)
Fixpoint vm_loop (fuel : nat) (value_stack flag_stack : list Z) : M Z :=
  match fuel with
  | O => diverge
  | S fuel' =>
      let* t := vm_turn value_stack flag_stack in
      match t with
      | VMReturn v => ret v
      | VMContinue value_stack flag_stack => vm_loop fuel' value_stack flag_stack
      end
  end.

(** Turns that [execute_vm_code] can need: each turn that does not return
    consumes a byte, and at the end of the data the marker returns. *)
Definition vm_budget (w : World) : nat :=
  S (Z.to_nat (Py.len (command_data (GB w)) - command_data_offset (GB w))).

(** [execute_vm_code] *)
Definition execute_vm_code : M Z :=
  fun w => vm_loop (vm_budget w) [] [] w.

(** ** Strings *)

Definition str_reverse (s : string) : string :=
  string_of_list_ascii (List.rev (list_ascii_of_string s)).

(** [s.startswith(p)] and [s.endswith(p)] *)
Definition startswith (p s : string) : bool := String.prefix p s.
Definition endswith (p s : string) : bool :=
  String.prefix (str_reverse p) (str_reverse s).

Fixpoint lstrip_nul (s : string) : string :=
  match s with
  | String c rest => if Ascii.eqb c Ascii.zero then lstrip_nul rest else s
  | EmptyString => EmptyString
  end.

(** [s.strip('\x00')] *)
Definition strip_nul (s : string) : string :=
  str_reverse (lstrip_nul (str_reverse (lstrip_nul s))).

(** The truth value of a [str]: false for the empty string only. *)
Definition str_truthy (s : string) : bool :=
  match s with
  | EmptyString => false
  | String _ _ => true
  end.

(** ** NormalOpcodeTable.py: the name cache and the handler table *)

(** [NameCache._is_japanese_name_bracket] *)
Definition _is_japanese_name_bracket (text : string) : bool :=
  startswith "【" text && endswith "】" text.

(** [NameCache.get_name] *)
Definition get_name (nc : NameCache) (offset : Z) : option string :=
  cache nc !! offset.

(** [NameCache.get_last_saved_name] *)
Definition get_last_saved_name (nc : NameCache) : string * option Z :=
  (last_saved_name nc, last_saved_name_offset nc).

(** [NameCache.cache_name] *)
Definition cache_name (offset : Z) (name : string) : M unit :=
  let* w := get_world in
  let nc := name_cache (the_normal w) in
  if _is_japanese_name_bracket name then
    set_name_cache (mkNameCache (<[offset := name]> (cache nc)) name (Some offset)
                                (NameCache_debug nc)) ;;;
    when (NameCache_debug nc) (print (NameCached name offset))
  else ret tt.

(** The handler functions that [_build_opcode_handlers] puts in the table;
    a [lambda] of the source is the handler with its label. *)
Inductive Handler : Type :=
| H_string_opcode
| H_newline
| H_simple_execution (opcode_name : string)
| H_simple_vm_execution (opcode_name : string)
| H_double_vm_execution (opcode_name : string)
| H_play_mpg_video
| H_scenario_vm
| H_get_choice_hints
| H_unk_0x09
| H_show_images
| H_show_standstills
| H_unk_0x46
| H_unk_0xAC
| H_unk_0xA6
| H_unk_0xB4
| H_unk_0x6C
| H_unk_0xF1.

(** A [dict] display: the entries are inserted in the order written, so a
    later entry with the same key replaces an earlier one. *)
Definition dict_of {V : Type} (entries : list (Z * V)) : gmap Z V :=
  List.fold_left (fun d kv => <[fst kv := snd kv]> d) entries ∅.

(** The entries of [handlers] in [_build_opcode_handlers], in source order
    (the key 0xB3 occurs twice). *)
Definition opcode_handler_entries : list (Z * Handler) :=
  [
    (0, H_string_opcode);
    (1, H_string_opcode);
    (4, H_newline);
    (2, (H_simple_vm_execution "0x02"));
    (5, (H_simple_execution "0x05"));
    (9, H_unk_0x09);
    (10, (H_double_vm_execution "0x0A"));
    (11, (H_simple_execution "0x0B"));
    (16, (H_simple_vm_execution "0x10"));
    (18, (H_simple_vm_execution "0x12"));
    (19, (H_simple_execution "0x13"));
    (21, H_show_images);
    (23, (H_simple_vm_execution "0x17"));
    (24, (H_simple_vm_execution "0x18"));
    (30, H_show_standstills);
    (31, (H_double_vm_execution "0x1F"));
    (40, (H_double_vm_execution "0x28"));
    (48, (H_double_vm_execution "0x30"));
    (50, (H_simple_vm_execution "0x32"));
    (51, (H_simple_vm_execution "0x33"));
    (52, (H_simple_vm_execution "0x34"));
    (53, (H_simple_vm_execution "0x35"));
    (56, (H_double_vm_execution "0x38"));
    (58, (H_double_vm_execution "0x3A"));
    (61, (H_simple_vm_execution "0x3D"));
    (97, (H_simple_vm_execution "0x61"));
    (65, (H_simple_vm_execution "0x41"));
    (79, (H_simple_vm_execution "0x4F"));
    (113, (H_simple_vm_execution "0x71"));
    (114, (H_simple_vm_execution "0x72"));
    (121, (H_simple_vm_execution "0x79"));
    (162, (H_simple_vm_execution "0xA2"));
    (166, H_unk_0xA6);
    (168, (H_simple_execution "0xA8"));
    (173, (H_simple_vm_execution "0xAD"));
    (179, (H_simple_vm_execution "0xB3"));
    (180, H_unk_0xB4);
    (227, (H_simple_vm_execution "0xE3"));
    (238, (H_simple_vm_execution "0xEE"));
    (242, (H_simple_vm_execution "0xF2"));
    (246, (H_simple_vm_execution "0xF6"));
    (247, (H_simple_vm_execution "0xF7"));
    (248, (H_simple_vm_execution "0xF8"));
    (68, (H_double_vm_execution "PLAY_WAV"));
    (69, (H_simple_vm_execution "0x45"));
    (70, H_unk_0x46);
    (71, (H_simple_vm_execution "0x47"));
    (72, (H_double_vm_execution "PLAY_VOICELINES"));
    (78, (H_simple_vm_execution "0x4E"));
    (88, (H_simple_vm_execution "0x58"));
    (91, (H_simple_vm_execution "0x5B"));
    (93, (H_simple_vm_execution "0x5D"));
    (94, (H_simple_vm_execution "0x5E"));
    (96, (H_double_vm_execution "0x60"));
    (102, (H_double_vm_execution "0x66"));
    (108, H_unk_0x6C);
    (110, H_scenario_vm);
    (118, (H_simple_execution "0x76"));
    (122, (H_double_vm_execution "0x7A"));
    (120, (H_simple_vm_execution "SET_DELAY"));
    (130, (H_simple_vm_execution "0x82"));
    (138, H_play_mpg_video);
    (139, (H_simple_vm_execution "0x8B"));
    (140, (H_simple_vm_execution "0x8C"));
    (141, (H_simple_vm_execution "0x8D"));
    (142, (H_simple_vm_execution "0x8E"));
    (147, (H_simple_execution "0x93"));
    (149, (H_double_vm_execution "0x95"));
    (150, (H_simple_vm_execution "0x96"));
    (152, (H_double_vm_execution "0x98"));
    (169, (H_simple_vm_execution "0xA9"));
    (172, H_unk_0xAC);
    (179, (H_simple_execution "0xB3"));
    (198, (H_double_vm_execution "0xC6"));
    (202, (H_simple_execution "0xCA"));
    (214, (H_simple_vm_execution "0xD6"));
    (215, H_get_choice_hints);
    (216, (H_simple_execution "0xD8"));
    (226, (H_simple_execution "0xE2"));
    (240, (H_simple_vm_execution "0xF0"));
    (241, H_unk_0xF1);
    (252, (H_simple_vm_execution "0xFC"));
    (255, (H_simple_execution "0xFF"))
  ].

Definition opcode_handlers : gmap Z Handler := dict_of opcode_handler_entries.

(** [VMExecutor.execute_multiple]: the results of [count] evaluations. *)
Fixpoint execute_multiple (count : nat) : M (list Z) :=
  match count with
  | O => ret []
  | S count' =>
      let* r := execute_vm_code in
      let* rest := execute_multiple count' in
      ret (r :: rest)
  end.

(** [VMExecutor.execute_single] *)
Definition execute_single : M Z := execute_vm_code.

(** [self.debug] of the normal dispatcher. *)
Definition normal_debug : M bool := fun w => (Ok (Normal_debug (the_normal w)), w).

Section Codec.

(** The two codecs of the Python runtime that [read_C_string] calls:
    [bytes.decode('shift_jis')] and [bytes.decode('cp932')], [None] for
    [UnicodeDecodeError]. *)
Variable decode_shift_jis : list byte -> option string.
Variable decode_cp932 : list byte -> option string.

(** *** Utilities.read_C_string *)

(** The [while] loop of [read_C_string], giving the final
    [(result, current_offset)]. *)
Fixpoint read_C_string_loop (fuel : nat) (data : list byte)
    (acc : list byte) (current_offset : Z) : result (list byte * Z) :=
  match fuel with
  | O => Diverge
  | S fuel' =>
      if current_offset <? Py.len data then
        match Py.getitem data current_offset with
        | None => Raise IndexError
        | Some current_byte =>
            if Py.ord current_byte =? 0 then
              if current_offset + 1 <? Py.len data then
                match Py.getitem data (current_offset + 1) with
                | None => Raise IndexError
                | Some next =>
                    if Py.ord next =? 0
                    then Ok (acc, current_offset + 2)
                    else Ok (acc, current_offset + 1)
                end
              else Ok (acc, current_offset + 1)
            else
              let acc := Py.append acc current_byte in
              let current_offset := current_offset + 1 in
              if 5000 <? Py.len acc then Ok (acc, current_offset)
              else read_C_string_loop fuel' data acc current_offset
        end
      else Ok (acc, current_offset)
  end.

(** [read_C_string(data, txt_offset)]; the offset is [None] when the word
    read that produced it returned [None]. *)
Definition read_C_string (data : list byte) (txt_offset : option Z) : M (Z * string) :=
  match txt_offset with
  | None => raise TypeError
  | Some txt_offset =>
      let budget := S (Z.to_nat (Py.len data - txt_offset)) in
      let* (acc, current_offset) :=
        lift (read_C_string_loop budget data [] txt_offset) in
      let* decoded_string :=
        match decode_shift_jis acc with
        | Some s => ret (strip_nul s)
        | None =>
            print DecodeFallback ;;;
            match decode_cp932 acc with
            | Some s => ret (strip_nul s)
            | None => raise UnicodeDecodeError
            end
        end in
      let bytes_read := current_offset - txt_offset in
      ret (bytes_read, decoded_string)
  end.

(** *** NormalOpcodeDisassembler: the handlers *)

Definition _handle_simple_execution (current_offset : Z) (opcode_name : string) : M unit :=
  let* debug := normal_debug in
  when debug (print (NormalExecuting ("opcode " ++ opcode_name) current_offset)).

Definition _handle_simple_vm_execution (current_offset : Z) (opcode_name : string) : M unit :=
  let* r := execute_single in
  let* debug := normal_debug in
  when debug (print (NormalExecuting ("opcode " ++ opcode_name) current_offset) ;;;
              print (NormalVMResult r)).

Definition _handle_double_vm_execution (current_offset : Z) (opcode_name : string) : M unit :=
  let* results := execute_multiple 2 in
  let* debug := normal_debug in
  when debug (print (NormalExecuting ("opcode " ++ opcode_name) current_offset) ;;;
              print (NormalVMResults results)).

(** The branch of [_handle_string_opcode] taken when [length == 0] and
    [get_string_flag == 1]: the string and the [cache_info] it resolves to. *)
Definition resolve_cached_name (nc : NameCache) (text_offset : Z) : string * CacheInfo :=
  match get_name nc text_offset with
  | Some cached_name =>
      if str_truthy cached_name
      then (cached_name, CachedFromOffset text_offset cached_name)
      else
        let '(last_name, last_offset) := get_last_saved_name nc in
        if str_truthy last_name then (last_name, CachedLast last_name last_offset)
        else (EmptyString, NoCacheAvailable)
  | None =>
      let '(last_name, last_offset) := get_last_saved_name nc in
      if str_truthy last_name then (last_name, CachedLast last_name last_offset)
      else (EmptyString, NoCacheAvailable)
  end.

(** [_handle_string_opcode]. The local [actual_string] is returned here, as
    the value the handler resolved ([None] where the source assigns none);
    the source uses it in its output only. *)
Definition _handle_string_opcode (current_offset : Z) : M (option string) :=
  let* g := get_GB in
  let* opcode := match Py.getitem (command_data g) current_offset with
                 | Some b => ret (Py.ord b)
                 | None => raise IndexError
                 end in
  let v252 := flag (opcode =? 0) in
  let* text_offset := get_next_word in
  let get_string_flag := flag (v252 =? 0) in
  match text_offset with
  | None =>
      print (NormalStringEOF current_offset (Py.len (command_data g))) ;;;
      ret None
  | Some text_offset =>
      let* debug := normal_debug in
      if text_offset <? Py.len (text_data g) then
        let* (length, text) := read_C_string (text_data g) (Some text_offset) in
        if (length =? 0) && (get_string_flag =? 1) then
          let* w := get_world in
          let '(actual_string, cache_info) :=
            resolve_cached_name (name_cache (the_normal w)) text_offset in
          when debug (print (NormalTextCached text_offset v252 get_string_flag
                                              length cache_info)) ;;;
          ret (Some actual_string)
        else
          let actual_string := text in
          when debug (print (NormalText text_offset v252 get_string_flag length text)) ;;;
          cache_name text_offset text ;;;
          ret (Some actual_string)
      else
        when debug (print (NormalInvalidTextOffset text_offset (Py.len (text_data g)))) ;;;
        ret None
  end.

Definition _handle_newline (current_offset : Z) : M unit :=
  let* debug := normal_debug in
  when debug (print (NormalNewline current_offset)).

Definition _handle_play_mpg_video (current_offset : Z) : M unit :=
  let* video_name_string_offset := get_next_word in
  let* g := get_GB in
  let* (_, video_name_string) := read_C_string (text_data g) video_name_string_offset in
  let* debug := normal_debug in
  when debug (print (NormalPlayMPG video_name_string current_offset)).

Definition _handle_scenario_vm (current_offset : Z) : M unit :=
  let* scenario_txt_start_offset := get_next_word in
  let* g := get_GB in
  let* (length, scenario_string) := read_C_string (text_data g) scenario_txt_start_offset in
  let* debug := normal_debug in
  (if length =? 0
   then when debug (print (NormalScenarioEmpty current_offset))
   else when debug (print (NormalScenarioString current_offset scenario_string))) ;;;
  let* r := execute_single in
  when debug (print (NormalVMResult r) ;;;
              print (NormalScenarioTextStart scenario_txt_start_offset)).

Definition _handle_get_choice_hints (current_offset : Z) : M unit :=
  let* text_offset := get_next_word in
  let* g := get_GB in
  let* (_, hint_string) := read_C_string (text_data g) text_offset in
  let* debug := normal_debug in
  when debug (print (NormalExecuting "OPCODE_GET_CHOICE_HINTS" current_offset) ;;;
              print (NormalHintString hint_string)).

Definition _handle_unk_0x09 (current_offset : Z) : M unit :=
  let* results := execute_multiple 4 in
  let* scn_txt_offset := get_next_word in
  let* g := get_GB in
  let* (length, text) := read_C_string (text_data g) scn_txt_offset in
  let* debug := normal_debug in
  when debug (print (NormalExecuting "opcode 0x09" current_offset) ;;;
              print (NormalVMResults results) ;;;
              print (NormalScenarioText length text)).

Definition _handle_show_images (current_offset : Z) : M unit :=
  let* image_no := execute_single in
  let* debug := normal_debug in
  when debug (print (NormalExecuting "show image" current_offset) ;;;
              print (NormalImageNo image_no)).

(** The handlers that evaluate [count] expressions and print them. *)
Definition _handle_vm_results (count : nat) (what : string) (current_offset : Z) : M unit :=
  let* results := execute_multiple count in
  let* debug := normal_debug in
  when debug (print (NormalExecuting what current_offset) ;;;
              print (NormalVMResults results)).

Definition _handle_show_standstills : Z -> M unit :=
  _handle_vm_results 3 "OPCODE_SHOW_STANDSTILLS 0x1E".
Definition _handle_unk_0x46 : Z -> M unit := _handle_vm_results 3 "opcode 0x46".
Definition _handle_unk_0xAC : Z -> M unit := _handle_vm_results 4 "opcode 0xAC".
Definition _handle_unk_0xB4 : Z -> M unit := _handle_vm_results 9 "opcode 0xB4".
Definition _handle_unk_0xF1 : Z -> M unit := _handle_vm_results 10 "opcode 0xF1".

Definition _handle_unk_0xA6 (current_offset : Z) : M unit :=
  let* debug := normal_debug in
  when debug (print (NormalExecuting "opcode 0xA6" current_offset)).

Definition _handle_unk_0x6C (current_offset : Z) : M unit :=
  let* results := execute_multiple 4 in
  let* string_offset := get_next_word in
  let* g := get_GB in
  let* (_, text) := read_C_string (text_data g) string_offset in
  let* debug := normal_debug in
  when debug (print (NormalExecuting "opcode 0x6C" current_offset) ;;;
              print (NormalVMResults results) ;;;
              print (NormalString text)).

(** [_handle_unknown_opcode]: it prints and raises. *)
Definition _handle_unknown_opcode (opcode current_offset : Z) : M unit :=
  let* debug := normal_debug in
  when debug (print (NormalUnknownOpcode opcode current_offset)) ;;;
  raise (NormalOpcodeDisassemblerException (UnknownOpcode opcode current_offset)).

(** The call [handler(current_offset)] of an entry of the table. *)
Definition call_handler (h : Handler) (current_offset : Z) : M unit :=
  match h with
  | H_string_opcode => _handle_string_opcode current_offset ;;; ret tt
  | H_newline => _handle_newline current_offset
  | H_simple_execution n => _handle_simple_execution current_offset n
  | H_simple_vm_execution n => _handle_simple_vm_execution current_offset n
  | H_double_vm_execution n => _handle_double_vm_execution current_offset n
  | H_play_mpg_video => _handle_play_mpg_video current_offset
  | H_scenario_vm => _handle_scenario_vm current_offset
  | H_get_choice_hints => _handle_get_choice_hints current_offset
  | H_unk_0x09 => _handle_unk_0x09 current_offset
  | H_show_images => _handle_show_images current_offset
  | H_show_standstills => _handle_show_standstills current_offset
  | H_unk_0x46 => _handle_unk_0x46 current_offset
  | H_unk_0xAC => _handle_unk_0xAC current_offset
  | H_unk_0xA6 => _handle_unk_0xA6 current_offset
  | H_unk_0xB4 => _handle_unk_0xB4 current_offset
  | H_unk_0x6C => _handle_unk_0x6C current_offset
  | H_unk_0xF1 => _handle_unk_0xF1 current_offset
  end.

(** [process_single_command]: 0 for success, -1 for the end of the data or
    an error; no exception leaves it. *)
Definition process_single_command : M Z :=
  try_except
    (let* g := get_GB in
     if Py.len (command_data g) <=? command_data_offset g then ret (-1)
     else
       let current_offset := command_data_offset g in
       let* opcode := read_next_opcode in
       let* debug := normal_debug in
       match opcode with
       | None => when debug (print NormalNoneOpcode) ;;; ret (-1)
       | Some opcode =>
           when debug (print (NormalAt current_offset opcode)) ;;;
           match opcode_handlers !! opcode with
           | Some handler => call_handler handler current_offset ;;; ret 0
           | None => _handle_unknown_opcode opcode current_offset ;;; ret (-1)
           end
       end)
    (fun e =>
       let* debug := normal_debug in
       when debug (print (NormalErrorSingle e)) ;;;
       ret (-1)).

(** The [while] loop of [process_all_commands]. *)
Fixpoint process_all_commands_loop (fuel : nat) : M unit :=
  match fuel with
  | O => diverge
  | S fuel' =>
      let* g := get_GB in
      if command_data_offset g <? Py.len (command_data g) then
        let* r := process_single_command in
        if r =? -1 then ret tt else process_all_commands_loop fuel'
      else ret tt
  end.

(** Commands that a pass can process: each one that does not stop the
    loop consumes its opcode byte. *)
Definition pass_budget (w : World) : nat :=
  S (Z.to_nat (Py.len (command_data (GB w)) - command_data_offset (GB w))).

(** [process_all_commands] *)
Definition process_all_commands : M unit :=
  try_except
    (fun w => process_all_commands_loop (pass_budget w) w)
    (fun e =>
       let* debug := normal_debug in
       when debug (print (NormalErrorAll e)) ;;;
       raise (NormalOpcodeDisassemblerException (ErrorProcessingCommands e))).

(** *** SysCallTable.py *)

(** [self.debug] of the outer dispatcher. *)
Definition sys_debug : M bool := fun w => (Ok (SysCall_debug (sys_call_executer w)), w).

(** [SysCallOpcodeDisassembler._get_next_byte] *)
Definition _get_next_byte : M (option Z) :=
  let* g := get_GB in
  if Py.len (command_data g) <=? command_data_offset g then ret None
  else
    match Py.getitem (command_data g) (command_data_offset g) with
    | None => raise IndexError
    | Some byte_val =>
        set_command_data_offset (command_data_offset g + 1) ;;;
        ret (Some (Py.ord byte_val))
    end.

(** [SysCallOpcodeDisassembler._get_next_word] *)
Definition _get_next_word : M (option Z) :=
  let* g := get_GB in
  if Py.len (command_data g) <=? command_data_offset g + 1 then ret None
  else
    match Py.getitem (command_data g) (command_data_offset g),
          Py.getitem (command_data g) (command_data_offset g + 1) with
    | Some low_byte, Some high_byte =>
        set_command_data_offset (command_data_offset g + 2) ;;;
        ret (Some (Z.lor (Py.ord low_byte) (Z.shiftl (Py.ord high_byte) 8)))
    | _, _ => raise IndexError
    end.

Definition _safe_get_next_byte : M Z :=
  let* byte_val := _get_next_byte in
  match byte_val with
  | None => raise (SysCallOpcodeDisassemblerError UnexpectedEndReadingByte)
  | Some v => ret v
  end.

Definition _safe_get_next_word : M Z :=
  let* word_val := _get_next_word in
  match word_val with
  | None => raise (SysCallOpcodeDisassemblerError UnexpectedEndReadingWord)
  | Some v => ret v
  end.

Definition _evaluate_expression : M Z := execute_vm_code.

Definition _main_interpreter : M Z := process_single_command.

Definition _handle_conditional_jump (current_offset : Z) : M unit :=
  let* condition := _evaluate_expression in
  let jump_target := sub_42164D condition in
  let* debug := sys_debug in
  when debug (print (SysConditionalJump current_offset condition jump_target)).

Definition _handle_return (current_offset : Z) : M unit :=
  let* debug := sys_debug in
  when debug (print (SysReturn current_offset)).

Definition _handle_scenario_call (current_offset : Z) : M unit :=
  let* scenario_id := _evaluate_expression in
  let* return_point := _evaluate_expression in
  let* extra_param := _evaluate_expression in
  let* debug := sys_debug in
  when debug (print (SysScenarioCall current_offset scenario_id return_point extra_param)).

Definition _handle_end_processing (current_offset : Z) : M unit :=
  let* debug := sys_debug in
  when debug (print (SysEndProcessing current_offset)).

Definition _handle_conditional_skip (current_offset : Z) : M unit :=
  let* condition := _evaluate_expression in
  if condition =? 0 then
    let* jump_target := _safe_get_next_word in
    let* debug := sys_debug in
    when debug (print (SysConditionalSkip current_offset jump_target))
  else ret tt.

Definition _handle_basic_operation (current_offset : Z) : M unit :=
  let* debug := sys_debug in
  when debug (print (SysMainInterpreter current_offset)) ;;;
  _main_interpreter ;;;
  ret tt.

Definition _handle_play_wav (param wav_id expression : Z) : M unit :=
  let* debug := sys_debug in
  when debug (print (SysPlayWav param wav_id expression)).

Definition _handle_play_wav_opcode (current_offset : Z) : M unit :=
  let* wav_param := _safe_get_next_byte in
  let* wav_id := _safe_get_next_word in
  let* expression_result := _evaluate_expression in
  _handle_play_wav wav_param wav_id expression_result.

Definition _handle_audio_op (param audio_id jump_result : Z) : M unit :=
  let* debug := sys_debug in
  when debug (print (SysAudioOp param audio_id jump_result)).

Definition _handle_audio_operation (current_offset : Z) : M unit :=
  let* debug := sys_debug in
  when debug (print (SysAudioOperation current_offset)) ;;;
  let* audio_param := _safe_get_next_byte in
  let* audio_id := _safe_get_next_word in
  let* jump_result := _main_interpreter in
  when debug (print (SysJumpResult jump_result)) ;;;
  _handle_audio_op audio_param audio_id jump_result.

Definition _handle_simple_jump (current_offset : Z) : M unit :=
  let* jump_target := _safe_get_next_word in
  let* debug := sys_debug in
  when debug (print (SysSimpleJump current_offset jump_target)).

(** The test of the [for] loop of [_handle_switch_case]:
    [case_value == 255 or processed_switch_param == case_value]. *)
Definition case_matches (processed_switch_param case_value : Z) : bool :=
  (case_value =? 255) || (processed_switch_param =? case_value).

(** The loop [for i in range(case_count)] of [_handle_switch_case], from
    index [i] with [remaining] cases to go; it returns [found_match]. *)
Fixpoint switch_case_loop (remaining : nat) (i processed_switch_param : Z)
    (found_match : bool) : M bool :=
  match remaining with
  | O => ret found_match
  | S remaining' =>
      let* case_value := _safe_get_next_byte in
      let* case_target := _safe_get_next_word in
      let* debug := sys_debug in
      when debug (print (SwitchCase i case_value case_target)) ;;;
      if case_matches processed_switch_param case_value then
        when debug (print (SwitchMatchFound processed_switch_param case_value) ;;;
                    print (SwitchTargetWouldBe case_target)) ;;;
        switch_case_loop remaining' (i + 1) processed_switch_param true
      else
        switch_case_loop remaining' (i + 1) processed_switch_param found_match
  end.

(** What [_handle_switch_case] does once [processed_switch_param] is known. *)
Definition switch_case_scan (processed_switch_param case_count default_target : Z) : M unit :=
  let* debug := sys_debug in
  when debug (print (SwitchProcessed processed_switch_param) ;;;
              print (SwitchComparing processed_switch_param case_count default_target)) ;;;
  let* found_match :=
    switch_case_loop (Z.to_nat case_count) 0 processed_switch_param false in
  if negb found_match && debug
  then print (SwitchNoMatch processed_switch_param default_target)
  else ret tt.

(** [_handle_switch_case] *)
Definition _handle_switch_case (current_offset : Z) : M unit :=
  let* debug := sys_debug in
  when debug (print (SwitchOperation current_offset)) ;;;
  let* switch_param_raw := _safe_get_next_byte in
  let* switch_value := _safe_get_next_word in
  let* default_target := _safe_get_next_word in
  let* case_count := _safe_get_next_byte in
  when debug (print (SwitchRaw switch_param_raw switch_value)) ;;;
  let* processed_switch_param := lift (_sub_414FE6 switch_param_raw switch_value) in
  switch_case_scan processed_switch_param case_count default_target.

Definition _handle_scenario_load (scenario_id : Z) : M unit :=
  let* debug := sys_debug in
  when debug (print (SysLoadScenario scenario_id)).

(** The loop of [_handle_scenario_load_opcode] that skips zero bytes:
    [while next_byte == 0 and next_byte is not None]. *)
Fixpoint skip_zero_padding (fuel : nat) (next_byte : option Z) : M unit :=
  match fuel with
  | O => diverge
  | S fuel' =>
      if bool_decide (next_byte = Some 0) then
        let* next_byte := _get_next_byte in
        match next_byte with
        | None => ret tt
        | Some _ => skip_zero_padding fuel' next_byte
        end
      else ret tt
  end.

Definition _handle_scenario_load_opcode (current_offset : Z) : M unit :=
  let* scenario_id := _evaluate_expression in
  _handle_scenario_load scenario_id ;;;
  let* next_byte := _get_next_byte in
  fun w => skip_zero_padding (pass_budget w) next_byte w.

Definition _handle_call_operation (target return_addr : Z) : M bool :=
  let* debug := sys_debug in
  when debug (print (SysCallTo target return_addr)) ;;;
  ret true.

Definition _handle_call_operation_opcode (current_offset : Z) : M unit :=
  let* target_offset := _evaluate_expression in
  let* return_address := _evaluate_expression in
  _handle_call_operation target_offset return_address ;;;
  ret tt.

(** The bound methods stored in the two local handler dictionaries. *)
Inductive SysHandler : Type :=
| S_conditional_jump
| S_return
| S_scenario_call
| S_end_processing
| S_conditional_skip
| S_basic_operation
| S_play_wav_opcode
| S_audio_operation
| S_simple_jump
| S_switch_case
| S_scenario_load_opcode
| S_call_operation_opcode.

Definition call_sys_handler (h : SysHandler) (current_offset : Z) : M unit :=
  match h with
  | S_conditional_jump => _handle_conditional_jump current_offset
  | S_return => _handle_return current_offset
  | S_scenario_call => _handle_scenario_call current_offset
  | S_end_processing => _handle_end_processing current_offset
  | S_conditional_skip => _handle_conditional_skip current_offset
  | S_basic_operation => _handle_basic_operation current_offset
  | S_play_wav_opcode => _handle_play_wav_opcode current_offset
  | S_audio_operation => _handle_audio_operation current_offset
  | S_simple_jump => _handle_simple_jump current_offset
  | S_switch_case => _handle_switch_case current_offset
  | S_scenario_load_opcode => _handle_scenario_load_opcode current_offset
  | S_call_operation_opcode => _handle_call_operation_opcode current_offset
  end.

(** [opcode_handlers] of [_process_extended_opcode], keyed by [opcode - 12]. *)
Definition extended_opcode_handlers : gmap Z SysHandler :=
  dict_of [ (0, S_conditional_jump); (1, S_return); (4, S_scenario_call);
            (5, S_end_processing); (6, S_conditional_skip) ].

(** [opcode_handlers] of [_process_basic_opcode], keyed by [SysCallOpcodes]. *)
Definition basic_opcode_handlers : gmap Z SysHandler :=
  dict_of [ (0, S_basic_operation); (4, S_play_wav_opcode); (5, S_audio_operation);
            (8, S_simple_jump); (9, S_switch_case); (10, S_scenario_load_opcode);
            (11, S_call_operation_opcode) ].

Definition _process_extended_opcode (opcode current_offset : Z) : M unit :=
  let adjusted_opcode := opcode - 12 in
  match extended_opcode_handlers !! adjusted_opcode with
  | Some handler => call_sys_handler handler current_offset
  | None => print (SysUnknownAdjusted adjusted_opcode opcode)
  end.

Definition _process_basic_opcode (opcode current_offset : Z) : M unit :=
  match basic_opcode_handlers !! opcode with
  | Some handler => call_sys_handler handler current_offset
  | None => print (SysUnhandledOpcode opcode current_offset)
  end.

Definition _process_opcode (opcode current_offset : Z) : M unit :=
  if 11 <? opcode
  then _process_extended_opcode opcode current_offset
  else _process_basic_opcode opcode current_offset.

(** The [while] loop of [process_sys_calls]. *)
Fixpoint process_sys_calls_loop (fuel : nat) : M unit :=
  match fuel with
  | O => diverge
  | S fuel' =>
      let* g := get_GB in
      if command_data_offset g <? Py.len (command_data g) then
        let current_offset := command_data_offset g in
        let* opcode := _get_next_byte in
        match opcode with
        | None => ret tt
        | Some opcode =>
            let* debug := sys_debug in
            when debug (print (SysAtOffset current_offset opcode)) ;;;
            _process_opcode opcode current_offset ;;;
            process_sys_calls_loop fuel'
        end
      else ret tt
  end.

(** [process_sys_calls]: both [except] clauses print and end the run. *)
Definition process_sys_calls : M unit :=
  try_except
    (fun w => process_sys_calls_loop (pass_budget w) w)
    (fun e =>
       match e with
       | SysCallOpcodeDisassemblerError _ => print (SysVMError e)
       | _ => print (SysUnexpectedError e)
       end).

End Codec.

(** ** Utilities.py: the struct readers and writers *)

(** The four formats the module uses: ['<H'], ['<I'], ['<h'] and ['<i']. *)
Inductive StructFormat : Type := fmt_H | fmt_I | fmt_h | fmt_i.

(** [struct.calcsize(fmt)] *)
Definition calcsize (fmt : StructFormat) : Z :=
  match fmt with
  | fmt_H | fmt_h => 2
  | fmt_I | fmt_i => 4
  end.

Definition format_signed (fmt : StructFormat) : bool :=
  match fmt with
  | fmt_h | fmt_i => true
  | fmt_H | fmt_I => false
  end.

(** The least and the greatest number a format holds. *)
Definition format_min (fmt : StructFormat) : Z :=
  if format_signed fmt then - 2 ^ (8 * calcsize fmt - 1) else 0.

Definition format_max (fmt : StructFormat) : Z :=
  if format_signed fmt then 2 ^ (8 * calcsize fmt - 1) - 1
  else 2 ^ (8 * calcsize fmt) - 1.

(** The unsigned little-endian number of a byte string. *)
Definition uint_of_bytes (raw : list byte) : Z :=
  int_from_bytes_little (List.map Py.ord raw).

(** The number that the bytes [raw] of a format stand for: two's complement
    for the signed formats. *)
Definition struct_value (fmt : StructFormat) (raw : list byte) : Z :=
  let u := uint_of_bytes raw in
  if format_signed fmt && (format_max fmt <? u)
  then u - 2 ^ (8 * calcsize fmt)
  else u.

(** [struct.unpack_from(fmt, data, offset)[0]]: a negative offset counts from
    the end; [struct.error] when the offset is out of range or fewer bytes
    than the format needs are left. *)
Definition unpack_from (fmt : StructFormat) (data : list byte) (offset : Z) : result Z :=
  let size := calcsize fmt in
  if (offset <? 0) && (0 <? offset + size) then Raise StructError
  else if (offset <? 0) && (offset + Py.len data <? 0) then Raise StructError
  else
    let offset := if offset <? 0 then offset + Py.len data else offset in
    if Py.len data - offset <? size then Raise StructError
    else Ok (struct_value fmt (Py.slice data offset (offset + size))).

(** [_read_struct(fmt, data, offset)] on a [bytes] or [bytearray] object. *)
Definition _read_struct (fmt : StructFormat) (data : list byte) (offset : Z) : result Z :=
  unpack_from fmt data offset.

(** [read_uint16(data, offset)] and its three siblings, the offset given. *)
Definition read_uint16_at (data : list byte) (offset : Z) : result Z :=
  _read_struct fmt_H data offset.
Definition read_uint32_at (data : list byte) (offset : Z) : result Z :=
  _read_struct fmt_I data offset.
Definition read_int16 (data : list byte) (offset : Z) : result Z :=
  _read_struct fmt_h data offset.
Definition read_int32 (data : list byte) (offset : Z) : result Z :=
  _read_struct fmt_i data offset.

(** The [n] low bytes of a number, low byte first. *)
Fixpoint bytes_little (n : nat) (v : Z) : list byte :=
  match n with
  | O => []
  | S n' => Py.byte_of (v mod 256) :: bytes_little n' (v / 256)
  end.

(** [struct.pack(fmt, value)]: [struct.error] for a number outside the range
    of the format. *)
Definition pack (fmt : StructFormat) (value : Z) : result (list byte) :=
  if (format_min fmt <=? value) && (value <=? format_max fmt)
  then Ok (bytes_little (Z.to_nat (calcsize fmt)) (value mod 2 ^ (8 * calcsize fmt)))
  else Raise StructError.

Definition write_uint16 (value : Z) : result (list byte) := pack fmt_H value.
Definition write_uint32 (value : Z) : result (list byte) := pack fmt_I value.
Definition write_int16 (value : Z) : result (list byte) := pack fmt_h value.
Definition write_int32 (value : Z) : result (list byte) := pack fmt_i value.

(** ** Disassemble.py: the driver *)

(** The lines that [Disassembler.disassemble] prints itself:
    [Header: {header}] and the empty line after it,
    [Disassembly error: {e}] and [Unexpected error during disassembly: {e}]. *)
Inductive TopLine : Type :=
| TopHeader (header : FileHeader)
| TopBlank
| TopDisassemblyError (m : DisassemblerError_msg)
| TopUnexpectedError (e : exn).

(** A run of [disassemble]: the standard output is [printed_first], then the
    lines that the decoder added to the output of [final], then
    [printed_last]. *)
Record Run : Type := mkRun {
  printed_first : list TopLine;
  final : World;
  printed_last : list TopLine
}.

(** The [except] clauses of [disassemble] that apply once the file is read:
    [except DisassemblerError] and [except Exception]. *)
Definition disassemble_except (e : exn) : TopLine :=
  match e with
  | DisassemblerError m => TopDisassemblyError m
  | _ => TopUnexpectedError e
  end.

(** [Disassembler.disassemble], from the bytes that [_read_file] returned;
    [debug] is [self.debug]. *)
Definition disassemble (decode_shift_jis decode_cp932 : list byte -> option string)
    (debug : bool) (data : list byte) (w : World) : result Run :=
  match _parse_header data with
  | Ok header =>
      let first := if debug then [TopHeader header; TopBlank] else [] in
      match _setup_global_buffers data header w with
      | (Ok _, w1) =>
          match process_sys_calls decode_shift_jis decode_cp932 w1 with
          | (Ok _, w2) => Ok (mkRun first w2 [])
          | (Raise e, w2) => Ok (mkRun first w2 [disassemble_except e])
          | (Diverge, _) => Diverge
          end
      | (Raise e, w1) => Ok (mkRun first w1 [disassemble_except e])
      | (Diverge, _) => Diverge
      end
  | Raise e => Ok (mkRun [] w [disassemble_except e])
  | Diverge => Diverge
  end.

(** ** Vocabulary of the statements *)

(** [word_table[i]] as [extract_bit_field] reads it: 0 past the end. *)
Definition table_value (table : list Z) (i : Z) : Z :=
  List.nth (Z.to_nat i) table 0.

(** A case of a switch as it lies in the command data: the case value and
    the two bytes of its target, low byte first. *)
Definition Case : Type := (byte * byte * byte)%type.

Definition case_bytes (c : Case) : list byte :=
  let '(v, lo, hi) := c in [v; lo; hi].

Definition case_value_of (c : Case) : Z :=
  let '(v, _, _) := c in Py.ord v.

Definition case_target_of (c : Case) : Z :=
  let '(_, lo, hi) := c in Z.lor (Py.ord lo) (Z.shiftl (Py.ord hi) 8).

(** The lines a scan of [cases] is expected to print, the first case having
    index [i]: each case is shown, and each matching case is followed by its
    two match lines. *)
Fixpoint expected_case_lines (x i : Z) (cases : list Case) : list Line :=
  match cases with
  | [] => []
  | c :: rest =>
      SwitchCase i (case_value_of c) (case_target_of c)
      :: (if case_matches x (case_value_of c)
          then [SwitchMatchFound x (case_value_of c);
                SwitchTargetWouldBe (case_target_of c)]
          else [])
      ++ expected_case_lines x (i + 1) rest
  end.

(** A byte string without a zero byte. *)
Definition zero_free (body : list byte) : Prop :=
  List.Forall (fun b => Py.ord b <> 0) body.

(** What follows a string in the text data, and how many bytes of it
    [read_C_string] consumes: nothing at the end of the data, two bytes of a
    double zero, one byte of a single zero; [None] when the next byte is not
    a terminator. *)
Definition terminator_length (tail : list byte) : option Z :=
  match tail with
  | [] => Some 0
  | z :: rest =>
      if Py.ord z =? 0 then
        match rest with
        | z2 :: _ => if Py.ord z2 =? 0 then Some 2 else Some 1
        | [] => Some 1
        end
      else None
  end.

(** The shared cursor of a world. *)
Definition cursor (w : World) : Z := command_data_offset (GB w).

(** What every call of the decoder keeps: the two segments, and a cursor
    that does not move backwards. *)
Definition preserved (w w' : World) : Prop :=
  command_data (GB w') = command_data (GB w)
  /\ text_data (GB w') = text_data (GB w)
  /\ cursor w <= cursor w'.

(** A computation that, from a non-negative cursor, gives an answer within
    its budgets, keeps the world as [preserved] says, and returns only
    values that satisfy [P]. *)
Definition safe_with {A : Type} (P : A -> Prop) (m : M A) : Prop :=
  forall w, 0 <= cursor w ->
    match m w with
    | (Ok a, w') => P a /\ preserved w w'
    | (Raise _, w') => preserved w w'
    | (Diverge, _) => False
    end.

(** No condition on the value returned. *)
Definition any {A : Type} (a : A) : Prop := True.

(** The values of a 16-bit read and of a byte read, [None] included. *)
Definition is_word (o : option Z) : Prop :=
  match o with Some p => 0 <= p < 65536 | None => True end.

Definition is_byte (o : option Z) : Prop :=
  match o with Some p => 0 <= p < 256 | None => True end.

Definition is_word_value (v : Z) : Prop := 0 <= v < 65536.

(** The cursor lies inside the command data, or just at its end. *)
Definition in_bounds (w : World) : Prop :=
  0 <= cursor w <= Py.len (command_data (GB w)).

(** A computation of the expression VM: from a cursor in bounds it answers
    within its budgets, keeps the segments and the cursor in bounds, returns
    only values that satisfy [P], and raises nothing but [TypeError]. *)
Definition vm_safe_with {A : Type} (P : A -> Prop) (m : M A) : Prop :=
  forall w, in_bounds w ->
    match m w with
    | (Ok a, w') => P a /\ preserved w w' /\ in_bounds w'
    | (Raise e, w') => e = TypeError /\ preserved w w' /\ in_bounds w'
    | (Diverge, _) => False
    end.

(** What a turn of the VM hands on: a 16-bit result, or a value stack of
    16-bit values. *)
Definition turn_in_range (t : VMTurn) : Prop :=
  match t with
  | VMReturn v => is_word_value v
  | VMContinue value_stack _ => List.Forall is_word_value value_stack
  end.

(** Every name in the cache is enclosed in the brackets. *)
Definition names_bracketed (nc : NameCache) : Prop :=
  forall (offset : Z) (name : string),
    get_name nc offset = Some name -> _is_japanese_name_bracket name = true.

(** A computation that leaves only bracketed names in the cache when it
    found only such names there, whatever its outcome. *)
Definition keeps_names {A : Type} (m : M A) : Prop :=
  forall w, names_bracketed (name_cache (the_normal w)) ->
            names_bracketed (name_cache (the_normal (snd (m w)))).

(** ** Sample inputs *)

(** A codec for the examples: it agrees with Shift-JIS on the ASCII bytes
    and on the two brackets 0x8179 and 0x817A, and rejects everything else. *)
Fixpoint sample_decode (l : list byte) : option string :=
  match l with
  | [] => Some EmptyString
  | b :: rest =>
      if Py.ord b <? 128 then
        option_map (String (Ascii.ascii_of_byte b)) (sample_decode rest)
      else
        match rest with
        | c :: rest' =>
            if (Py.ord b =? 129) && (Py.ord c =? 121)
            then option_map (String.append "【") (sample_decode rest')
            else if (Py.ord b =? 129) && (Py.ord c =? 122)
            then option_map (String.append "】") (sample_decode rest')
            else None
        | [] => None
        end
  end.

(** A fresh world whose command data is the given byte values. *)
Definition world_of_commands (commands : list Z) : World :=
  World_init (mkGlobalBuffer (Py.bytes commands) [] 0 0).

(** Header: sizes 1, 2 and 3; then the skipped block, the command segment
    and the string table, and one trailing byte. *)
Definition sample_file : list byte :=
  Py.bytes [0;0;0;0; 1;0; 2;0; 3;0; 0;0; 170; 11;12; 21;22;23; 99].

(** The same header on a file that ends inside the string table. *)
Definition truncated_file : list byte :=
  Py.bytes [0;0;0;0; 1;0; 2;0; 3;0; 0;0; 170; 11;12; 21].

(** Operand 5, end. *)
Definition stream_five : list Z := [0;255;5;0; 255].

(** Operands 5 and 3, operation 21 (subtraction), end. *)
Definition stream_five_minus_three : list Z := [0;255;5;0; 0;255;3;0; 1;21; 255].

(** Operands 5 and 0, operation 23 (division), end. *)
Definition stream_five_by_zero : list Z := [0;255;5;0; 0;255;0;0; 1;23; 255].

(** Operands 5 and 0, operation 24 (modulo), end. *)
Definition stream_five_mod_zero : list Z := [0;255;5;0; 0;255;0;0; 1;24; 255].

(** 5001 bytes, none of them zero. *)
Definition long_text : list byte := List.repeat x41 (Z.to_nat 5001).

(** The Shift-JIS bytes of the bracketed name used in the examples. *)
Definition name_bytes : list byte := Py.bytes [129;121;78;97;109;101;129;122].

(** A text segment with the name at offset 100, followed by zero bytes. *)
Definition sample_text_data : list byte :=
  List.repeat x20 100 ++ name_bytes ++ Py.bytes [0;0;0].

(** Two string opcodes of type 1: the first refers to offset 100, the second
    to offset 109. *)
Definition sample_string_commands : list byte := Py.bytes [1;100;0; 1;109;0].

(** The name cache after the name at offset 100 has been decoded. *)
Definition name_cache_after_name : NameCache :=
  mkNameCache (<[100 := "【Name】"%string]> ∅) "【Name】" (Some 100) true.

(** The world in which the sample string commands start. *)
Definition world_before_name : World :=
  World_init (mkGlobalBuffer sample_string_commands sample_text_data 0 0).

(** The world after the first of the sample string commands. *)
Definition world_after_name : World :=
  mkWorld (mkGlobalBuffer sample_string_commands sample_text_data 3 0)
          (mkSysCallOpcodeDisassembler
             (mkNormalOpcodeDisassembler true name_cache_after_name) true)
          [NormalAt 0 1; NormalText 100 0 1 10 "【Name】"; NameCached "【Name】" 100].

(** * Properties *)

(** ** Facts about the Python sequences *)

Section Sequences.
Context {A : Type}.
Implicit Types l pre rest : list A.

Lemma len_nonneg l : 0 <= Py.len l.
Proof. unfold Py.len. lia. Qed.

Lemma len_app l1 l2 : Py.len (l1 ++ l2) = Py.len l1 + Py.len l2.
Proof. unfold Py.len. rewrite List.length_app. lia. Qed.

Lemma getitem_Some_lt l (i : Z) (x : A) :
  0 <= i -> Py.getitem l i = Some x -> i < Py.len l.
Proof.
  intros Hi. unfold Py.getitem.
  destruct (i <? 0) eqn:E; [apply Z.ltb_lt in E; lia|].
  intros H. assert (Hn : (Z.to_nat i < List.length l)%nat).
  { apply List.nth_error_Some. rewrite H. discriminate. }
  unfold Py.len. lia.
Qed.

Lemma getitem_in_range l (i : Z) :
  0 <= i < Py.len l -> exists x, Py.getitem l i = Some x.
Proof.
  intros [Hi Hlt]. unfold Py.getitem.
  destruct (i <? 0) eqn:E; [apply Z.ltb_lt in E; lia|].
  destruct (List.nth_error l (Z.to_nat i)) as [x|] eqn:Hx; [eauto|].
  apply List.nth_error_None in Hx. unfold Py.len in Hlt. lia.
Qed.

Lemma getitem_app_here pre rest (x : A) :
  Py.getitem (pre ++ x :: rest) (Py.len pre) = Some x.
Proof.
  unfold Py.getitem, Py.len.
  destruct (Z.of_nat (List.length pre) <? 0) eqn:E; [apply Z.ltb_lt in E; lia|].
  rewrite Nat2Z.id, List.nth_error_app2 by lia.
  rewrite Nat.sub_diag. reflexivity.
Qed.

Lemma slice_in_range l (lo hi : Z) :
  0 <= lo <= hi -> hi <= Py.len l ->
  Py.slice l lo hi = List.firstn (Z.to_nat (hi - lo)) (List.skipn (Z.to_nat lo) l).
Proof.
  intros Hlo Hhi. unfold Py.slice, Py.clamp.
  destruct (lo <? 0) eqn:E1; [apply Z.ltb_lt in E1; lia|].
  destruct (hi <? 0) eqn:E2; [apply Z.ltb_lt in E2; lia|].
  rewrite !Z.min_l by lia. reflexivity.
Qed.

End Sequences.

Lemma ord_range (b : byte) : 0 <= Py.ord b < 256.
Proof.
  unfold Py.ord. pose proof (Byte.to_N_bounded b) as H. lia.
Qed.

Lemma rbind_Ok {A B : Type} (r : result A) (k : A -> result B) (b : B) :
  rbind r k = Ok b -> exists a, r = Ok a /\ k a = Ok b.
Proof. destruct r; simpl; try discriminate. eauto. Qed.

(** ** Disassemble.py: the container parser *)

Lemma read_uint16_range (data : list byte) (v : Z) :
  read_uint16 data = Ok v -> 0 <= v < 65536.
Proof.
  destruct data as [|b0 [|b1 rest]]; simpl; try discriminate.
  intros [= <-]. pose proof (ord_range b0). pose proof (ord_range b1). lia.
Qed.

(** A header that [_parse_header] returns comes from a file of at least 12
    bytes, and its three sizes are 16-bit values. *)
Lemma _parse_header_fields (data : list byte) (header : FileHeader) :
  _parse_header data = Ok header ->
  12 <= Py.len data /\
  0 <= command_block_size header < 65536 /\
  0 <= command_block_for_text_size header < 65536 /\
  0 <= string_table_size header < 65536.
Proof.
  unfold _parse_header. destruct (Py.len data <? 12) eqn:E; [discriminate|].
  apply Z.ltb_ge in E. intros H.
  apply rbind_Ok in H as (r1 & _ & H).
  apply rbind_Ok in H as (a & Ha & H).
  apply rbind_Ok in H as (b & Hb & H).
  apply rbind_Ok in H as (c & Hc & H).
  apply rbind_Ok in H as (r2 & _ & H).
  injection H as <-. simpl.
  apply read_uint16_range in Ha, Hb, Hc. auto.
Qed.

(** [_parse_header] succeeds on every file of at least 12 bytes. *)
Lemma _parse_header_total (data : list byte) :
  12 <= Py.len data -> exists header, _parse_header data = Ok header.
Proof.
  intros H. unfold _parse_header.
  destruct (Py.len data <? 12) eqn:E; [apply Z.ltb_lt in E; lia|].
  unfold Py.slice_to. rewrite (slice_in_range data 0 12) by lia.
  unfold Py.len in H.
  do 12 (destruct data as [|? data]; [simpl in H; lia|]).
  simpl. eexists. reflexivity.
Qed.

(** C1: for a parsed header with sizes a, b and c, when 12 + a + b + c is
    at most the length of the input, the buffer set-up succeeds, the command
    data are exactly the b bytes from offset 12 + a, the text data exactly
    the c bytes after them, and the cursor is 0; when 12 + a + b + c exceeds
    the length, the set-up raises the truncated-file error and leaves the
    buffers as they were. *)
Theorem setup_global_buffers_segments
    (data : list byte) (header : FileHeader) (w : World) :
  _parse_header data = Ok header ->
  let a := command_block_size header in
  let b := command_block_for_text_size header in
  let c := string_table_size header in
  if 12 + a + b + c <=? Py.len data then
    exists cmd txt : list byte,
      _setup_global_buffers data header w
        = (Ok tt, with_GB w (mkGlobalBuffer cmd txt 0 (text_data_offset (GB w))))
      /\ cmd = List.firstn (Z.to_nat b) (List.skipn (Z.to_nat (12 + a)) data)
      /\ txt = List.firstn (Z.to_nat c) (List.skipn (Z.to_nat (12 + a + b)) data)
      /\ Py.len cmd = b /\ Py.len txt = c
  else
    _setup_global_buffers data header w
      = (Raise (DisassemblerError
                  (FileSizeSmallerThanRequired (Py.len data) (12 + a + b + c))), w).
Proof.
  intros Hp a b c. apply _parse_header_fields in Hp as (_ & Ha & Hb & Hc).
  fold a in Ha. fold b in Hb. fold c in Hc.
  unfold _setup_global_buffers. fold a b c.
  destruct (12 + a + b + c <=? Py.len data) eqn:E.
  - apply Z.leb_le in E.
    destruct (Py.len data <? 12 + a + b + c) eqn:E'; [apply Z.ltb_lt in E'; lia|].
    eexists _, _. split; [reflexivity|].
    rewrite !slice_in_range by lia.
    replace (12 + a + b - (12 + a)) with b by lia.
    replace (12 + a + b + c - (12 + a + b)) with c by lia.
    split; [reflexivity|]. split; [reflexivity|].
    unfold Py.len in *.
    rewrite !List.length_firstn, !List.length_skipn. lia.
  - apply Z.leb_gt in E.
    destruct (Py.len data <? 12 + a + b + c) eqn:E'; [|apply Z.ltb_ge in E'; lia].
    reflexivity.
Qed.

(** The sample file yields the segments [11, 12] and [21, 22, 23]; the
    file cut inside its string table is refused, the buffers untouched. *)
Lemma setup_global_buffers_segments_example :
  _setup_global_buffers sample_file (mkFileHeader 0 1 2 3 0)
      (World_init (mkGlobalBuffer [] [] 7 0))
  = (Ok tt, World_init (mkGlobalBuffer (Py.bytes [11;12]) (Py.bytes [21;22;23]) 0 0))
  /\ _setup_global_buffers truncated_file (mkFileHeader 0 1 2 3 0)
      (World_init (mkGlobalBuffer [] [] 7 0))
  = (Raise (DisassemblerError (FileSizeSmallerThanRequired 16 18)),
     World_init (mkGlobalBuffer [] [] 7 0)).
Proof.
  split.
  - pose proof (setup_global_buffers_segments sample_file (mkFileHeader 0 1 2 3 0)
                  (World_init (mkGlobalBuffer [] [] 7 0)) eq_refl) as H.
    cbv zeta in H. change (12 + _ + _ + _ <=? _) with true in H. cbv iota in H.
    destruct H as (cmd & txt & H & -> & -> & _). exact H.
  - exact (setup_global_buffers_segments truncated_file (mkFileHeader 0 1 2 3 0)
             (World_init (mkGlobalBuffer [] [] 7 0)) eq_refl).
Defined.

(** ** Fake_Stack.py: the bit-field extraction *)

Lemma low_bit_clear (temp : Z) : (Z.land temp 1 =? 0) = negb (Z.testbit temp 0).
Proof.
  change 1 with (Z.ones 1) at 1. rewrite Z.land_ones by lia.
  change (2 ^ 1) with 2. rewrite <- Z.bit0_mod.
  destruct (Z.testbit temp 0); reflexivity.
Qed.

(** The first loop stops at the lowest set bit, [s] positions up. *)
Lemma while_low_bit_clear_run (s : nat) :
  forall (fuel : nat) (temp count : Z),
    (forall k, 0 <= k < Z.of_nat s -> Z.testbit temp k = false) ->
    Z.testbit temp (Z.of_nat s) = true ->
    (s < fuel)%nat ->
    while_low_bit_clear fuel temp count
      = Some (count + Z.of_nat s, Z.shiftr temp (Z.of_nat s)).
Proof.
  induction s as [|s IH]; intros fuel temp count Hlow Hbit Hfuel.
  - destruct fuel as [|fuel]; [lia|]. simpl.
    rewrite low_bit_clear. change (Z.of_nat 0) with 0 in *. rewrite Hbit. simpl.
    rewrite Z.shiftr_0_r. f_equal. f_equal. lia.
  - destruct fuel as [|fuel]; [lia|]. simpl.
    rewrite low_bit_clear, (Hlow 0) by lia. simpl.
    rewrite (IH fuel (Z.shiftr temp 1) (count + 1)).
    + rewrite Z.shiftr_shiftr by lia.
      replace (1 + Z.of_nat s) with (Z.of_nat (S s)) by lia.
      replace (count + 1 + Z.of_nat s) with (count + Z.of_nat (S s)) by lia.
      reflexivity.
    + intros k Hk. rewrite Z.shiftr_spec by lia. apply Hlow. lia.
    + rewrite Z.shiftr_spec by lia. rewrite <- Hbit. f_equal. lia.
    + lia.
Qed.

(** The second loop stops at the first clear bit, [n] positions up. *)
Lemma while_low_bit_set_run (n : nat) :
  forall (fuel : nat) (temp count : Z),
    (forall k, 0 <= k < Z.of_nat n -> Z.testbit temp k = true) ->
    Z.testbit temp (Z.of_nat n) = false ->
    (n < fuel)%nat ->
    while_low_bit_set fuel temp count
      = Some (count + Z.of_nat n, Z.shiftr temp (Z.of_nat n)).
Proof.
  induction n as [|n IH]; intros fuel temp count Hlow Hbit Hfuel.
  - destruct fuel as [|fuel]; [lia|]. simpl.
    rewrite low_bit_clear. change (Z.of_nat 0) with 0 in *. rewrite Hbit. simpl.
    rewrite Z.shiftr_0_r. f_equal. f_equal. lia.
  - destruct fuel as [|fuel]; [lia|]. simpl.
    rewrite low_bit_clear, (Hlow 0) by lia. simpl.
    rewrite (IH fuel (Z.shiftr temp 1) (count + 1)).
    + rewrite Z.shiftr_shiftr by lia.
      replace (1 + Z.of_nat n) with (Z.of_nat (S n)) by lia.
      replace (count + 1 + Z.of_nat n) with (count + Z.of_nat (S n)) by lia.
      reflexivity.
    + intros k Hk. rewrite Z.shiftr_spec by lia. apply Hlow. lia.
    + rewrite Z.shiftr_spec by lia. rewrite <- Hbit. f_equal. lia.
    + lia.
Qed.

Lemma set_bit_below_log2 (p k : Z) :
  0 < p -> 0 <= k -> Z.testbit p k = true -> k <= Z.log2 p.
Proof.
  intros Hp Hk Hbit. destruct (Z_le_gt_dec k (Z.log2 p)) as [H|H]; [exact H|].
  rewrite Z.bits_above_log2 in Hbit by lia. discriminate.
Qed.

Lemma table_lookup (table : list Z) (i : Z) :
  0 <= i ->
  (if i <? Py.len table then Py.getitem table i else Some 0)
  = Some (table_value table i).
Proof.
  intros Hi. unfold table_value, Py.getitem, Py.len.
  destruct (i <? 0) eqn:E0; [apply Z.ltb_lt in E0; lia|].
  destruct (i <? Z.of_nat (List.length table)) eqn:E1.
  - apply Z.ltb_lt in E1. apply List.nth_error_nth'. lia.
  - apply Z.ltb_ge in E1. rewrite List.nth_overflow by lia. reflexivity.
Qed.

(** C5: on pattern 0 the extraction returns 0; on a positive pattern whose
    lowest [shift] bits are clear and whose next [width] bits are set, the
    bit above them clear, it returns
    [(word_table[i] >> shift) & ((1 << width) - 1)]. *)
Theorem extract_bit_field_shift_and_mask (table : list Z) (i p shift width : Z) :
  0 <= i -> 0 < p -> 0 <= shift -> 0 < width ->
  (forall k, 0 <= k < shift -> Z.testbit p k = false) ->
  (forall k, shift <= k < shift + width -> Z.testbit p k = true) ->
  Z.testbit p (shift + width) = false ->
  extract_bit_field_in table (Some i) (Some p)
    = Ok (Some (Z.land (Z.shiftr (table_value table i) shift) (Z.shiftl 1 width - 1)))
  /\ extract_bit_field_in table (Some i) (Some 0) = Ok (Some 0).
Proof.
  intros Hi Hp Hs Hw Hzeros Hones Hstop. split; [|reflexivity].
  pose proof (set_bit_below_log2 p shift Hp Hs (Hones shift ltac:(lia))) as Hs_le.
  pose proof (set_bit_below_log2 p (shift + width - 1) Hp ltac:(lia)
                (Hones (shift + width - 1) ltac:(lia))) as Hw_le.
  unfold extract_bit_field_in.
  destruct (p =? 0) eqn:E; [apply Z.eqb_eq in E; lia|].
  rewrite (while_low_bit_clear_run (Z.to_nat shift)); cycle 1.
  { intros k Hk. apply Hzeros. lia. }
  { rewrite Z2Nat.id by lia. apply Hones. lia. }
  { unfold bit_budget. lia. }
  rewrite (while_low_bit_set_run (Z.to_nat width)); cycle 1.
  { intros k Hk. rewrite Z.shiftr_spec by lia. apply Hones. lia. }
  { rewrite Z.shiftr_spec by lia. rewrite <- Hstop. f_equal. lia. }
  { unfold bit_budget. lia. }
  rewrite !Z2Nat.id by lia. rewrite !Z.add_0_l. cbv beta iota.
  rewrite (table_lookup table i Hi). unfold create_mask.
  destruct (width <=? 0) eqn:E2; [apply Z.leb_le in E2; lia|]. reflexivity.
Qed.

(** Pattern 0b00110000 has shift 4 and width 2: on a table whose entry is
    1013 the result is [(1013 >> 4) & 3]. *)
Lemma extract_bit_field_shift_and_mask_example :
  extract_bit_field_in [0; 0; 1013] (Some 2) (Some 48)
  = Ok (Some (Z.land (Z.shiftr 1013 4) 3)).
Proof.
  refine (proj1 (extract_bit_field_shift_and_mask [0; 0; 1013] 2 48 4 2 _ _ _ _ _ _ _)).
  - lia.
  - lia.
  - lia.
  - lia.
  - intros k Hk.
    assert (Hc : k = 0 \/ k = 1 \/ k = 2 \/ k = 3) by lia.
    destruct Hc as [-> | [-> | [-> | ->]]]; reflexivity.
  - intros k Hk. assert (Hc : k = 4 \/ k = 5) by lia.
    destruct Hc as [-> | ->]; reflexivity.
  - reflexivity.
Defined.

(** ** Fake_Stack.py: the expression VM *)

Lemma read_next_byte_at_end (w : World) :
  Py.len (command_data (GB w)) <= command_data_offset (GB w) ->
  read_next_byte w = (Ok (Some 255), w).
Proof.
  intros H. unfold read_next_byte, bind, get_GB.
  apply Z.leb_le in H. rewrite H. reflexivity.
Qed.

Lemma read_next_byte_in_range (w : World) (b : byte) :
  0 <= command_data_offset (GB w) ->
  Py.getitem (command_data (GB w)) (command_data_offset (GB w)) = Some b ->
  read_next_byte w
  = (Ok (Some (Py.ord b)), with_offset w (command_data_offset (GB w) + 1)).
Proof.
  intros H0 Hb. pose proof (getitem_Some_lt _ _ _ H0 Hb) as Hlt.
  unfold read_next_byte, get_next_byte, bind, get_GB.
  apply Z.leb_gt in Hlt. rewrite Hlt. simpl. rewrite Hlt, Hb. reflexivity.
Qed.

Lemma vm_turn_sentinel (w w' : World) (value_stack flag_stack : list Z) :
  read_next_byte w = (Ok (Some 255), w') ->
  vm_turn value_stack flag_stack w = (Ok (VMReturn (bottom_or_zero value_stack)), w').
Proof.
  intros H. unfold vm_turn, bind. rewrite H. reflexivity.
Qed.

(** C2 (as the code has it): when the VM reads the 0xFF sentinel the whole
    evaluation ends in that turn and returns the bottom element of the value
    stack (the stack operands are pushed on), or 0 if that stack is empty;
    an evaluation whose first byte read is the sentinel returns 0. *)
Theorem vm_sentinel_returns_value_stack_bottom
    (w w' : World) (value_stack flag_stack : list Z) (fuel : nat) :
  read_next_byte w = (Ok (Some 255), w') ->
  vm_turn value_stack flag_stack w
    = (Ok (VMReturn (bottom_or_zero value_stack)), w')
  /\ vm_loop (S fuel) value_stack flag_stack w
    = (Ok (bottom_or_zero value_stack), w')
  /\ execute_vm_code w = (Ok 0, w').
Proof.
  intros H. split; [now apply vm_turn_sentinel|]. split.
  - cbn [vm_loop]. unfold bind.
    rewrite (vm_turn_sentinel w w' value_stack flag_stack H). reflexivity.
  - unfold execute_vm_code, vm_budget. cbn [vm_loop]. unfold bind.
    rewrite (vm_turn_sentinel w w' [] [] H). reflexivity.
Qed.

(** On a stream that starts with 0xFF the evaluation returns 0 and has
    consumed that byte; with 7 and 9 on the value stack it returns 7. *)
Lemma vm_sentinel_returns_value_stack_bottom_example :
  execute_vm_code (world_of_commands [255; 1; 2])
  = (Ok 0, with_offset (world_of_commands [255; 1; 2]) 1)
  /\ vm_loop 1 [7; 9] [4; 4] (world_of_commands [255; 1; 2])
  = (Ok 7, with_offset (world_of_commands [255; 1; 2]) 1).
Proof.
  pose proof (vm_sentinel_returns_value_stack_bottom
                (world_of_commands [255; 1; 2])
                (with_offset (world_of_commands [255; 1; 2]) 1)
                [7; 9] [4; 4] 0 eq_refl) as (_ & Hloop & Hexec).
  split; [exact Hexec | exact Hloop].
Defined.

(** C2 as stated fails: on the stream "operand 5, end" the sentinel is read
    with 5 on the value stack and 0 on the flag stack, the stack the
    operators write to, and the evaluation returns 5, not the bottom 0 of
    the flag stack. *)
Lemma vm_sentinel_does_not_return_flag_stack_bottom :
  vm_turn [] [] (world_of_commands stream_five)
    = (Ok (VMContinue [5] [0]), with_offset (world_of_commands stream_five) 4)
  /\ read_next_byte (with_offset (world_of_commands stream_five) 4)
    = (Ok (Some 255), with_offset (world_of_commands stream_five) 5)
  /\ vm_loop 1 [5] [0] (with_offset (world_of_commands stream_five) 4)
    = (Ok 5, with_offset (world_of_commands stream_five) 5)
  /\ execute_vm_code (world_of_commands stream_five)
    = (Ok 5, with_offset (world_of_commands stream_five) 5)
  /\ 5 <> bottom_or_zero [0].
Proof.
  repeat split; try reflexivity. discriminate.
Qed.

(** C3 (the code differs): on the stream "operand 5, operand 3, operation
    21, end" the two pushes leave 5 and 3 on the value stack and two zeros
    on the flag stack; the subtraction stores [0 - 3] (mod 2^32) in the top
    flag slot and pops that slot at once; the evaluation returns 5, the
    bottom of the value stack, not 2. *)
Theorem vm_five_minus_three_returns_five :
  vm_turn [] [] (world_of_commands stream_five_minus_three)
    = (Ok (VMContinue [5] [0]),
       with_offset (world_of_commands stream_five_minus_three) 4)
  /\ vm_turn [5] [0] (with_offset (world_of_commands stream_five_minus_three) 4)
    = (Ok (VMContinue [5; 3] [0; 0]),
       with_offset (world_of_commands stream_five_minus_three) 8)
  /\ binary_operator op_sub [5; 3] [0; 0]
    = (Py.pop [5; 3], Py.pop (Py.set_last [0; 0] 4294967293))
  /\ apply_operation 21 [5; 3] [0; 0] = ([5], [0])
  /\ execute_vm_code (world_of_commands stream_five_minus_three)
    = (Ok 5, with_offset (world_of_commands stream_five_minus_three) 11).
Proof.
  repeat split; reflexivity.
Qed.

(** A division or modulo turn with divisor 0 raises nothing and prints
    nothing: with the divisor 0 on top of the value stack and a non-empty
    flag stack, the turn pops one level off both stacks, the 0 written to
    the top flag slot going with it, and the evaluation goes on with the byte
    after the operation code. *)
Lemma vm_division_by_zero_turn_pops_and_continues
    (w : World) (b op : byte) (value_stack flag_stack : list Z) (top : Z)
    (fuel : nat) :
  let off := command_data_offset (GB w) in
  0 <= off ->
  Py.getitem (command_data (GB w)) off = Some b ->
  Py.ord b <> 0 -> Py.ord b <> 255 ->
  Py.getitem (command_data (GB w)) (off + 1) = Some op ->
  Py.ord op = 23 \/ Py.ord op = 24 ->
  Py.last value_stack = Some 0 ->
  Py.last flag_stack = Some top ->
  vm_turn value_stack flag_stack w
    = (Ok (VMContinue (Py.pop value_stack) (Py.pop (Py.set_last flag_stack 0))),
       with_offset w (off + 2)) /\
  vm_loop (S fuel) value_stack flag_stack w
    = vm_loop fuel (Py.pop value_stack) (Py.pop (Py.set_last flag_stack 0))
              (with_offset w (off + 2)).
Proof.
  intros off H0 Hb Hb0 Hb255 Hop Hcode Hvs Hfs. subst off.
  set (off := command_data_offset (GB w)) in *.
  assert (Hturn : vm_turn value_stack flag_stack w
    = (Ok (VMContinue (Py.pop value_stack) (Py.pop (Py.set_last flag_stack 0))),
       with_offset w (off + 2))).
  { unfold vm_turn, bind at 1.
    rewrite (read_next_byte_in_range w b H0 Hb). fold off.
    unfold vm_turn_on, bind.
    rewrite !bool_decide_eq_false_2 by congruence.
    rewrite (read_next_byte_in_range (with_offset w (off + 1)) op);
      [|simpl; lia|exact Hop].
    simpl.
    replace (off + 1 + 1) with (off + 2) by lia.
    assert (Hap : apply_operation (Py.ord op) value_stack flag_stack
                  = (Py.pop value_stack, Py.pop (Py.set_last flag_stack 0))).
    { unfold apply_operation, binary_operator.
      destruct Hcode as [-> | ->]; simpl; rewrite Hvs, Hfs; reflexivity. }
    rewrite Hap. reflexivity. }
  split; [exact Hturn|].
  cbn [vm_loop]. unfold bind at 1. rewrite Hturn. reflexivity.
Qed.

(** After the operands 5 and 0, the division turn leaves 5 and 0 on the
    two stacks and moves the cursor from 8 to 10. *)
Lemma vm_division_by_zero_turn_pops_and_continues_example :
  vm_turn [5; 0] [0; 0] (with_offset (world_of_commands stream_five_by_zero) 8)
  = (Ok (VMContinue [5] [0]),
     with_offset (world_of_commands stream_five_by_zero) 10).
Proof.
  refine (proj1
    (vm_division_by_zero_turn_pops_and_continues
       (with_offset (world_of_commands stream_five_by_zero) 8)
       x01 x17 [5; 0] [0; 0] 0 0 _ _ _ _ _ _ _ _)).
  - simpl. lia.
  - reflexivity.
  - vm_compute. discriminate.
  - vm_compute. discriminate.
  - reflexivity.
  - left. reflexivity.
  - reflexivity.
  - reflexivity.
Defined.

(** C4 (the code differs): on the stream "operand 5, operand 0, operation
    23, end" the two pushes leave 5 and 0 on the value stack and two zeros
    on the flag stack; the division finds the divisor 0, stores 0 in the top
    flag slot and pops that slot at once; no error is raised, and the
    evaluation returns 5, the bottom of the value stack, not 0. The same
    holds with operation 24 (modulo) in place of 23. *)
Theorem vm_division_by_zero_does_not_return_zero :
  vm_turn [] [] (world_of_commands stream_five_by_zero)
    = (Ok (VMContinue [5] [0]), with_offset (world_of_commands stream_five_by_zero) 4)
  /\ vm_turn [5] [0] (with_offset (world_of_commands stream_five_by_zero) 4)
    = (Ok (VMContinue [5; 0] [0; 0]),
       with_offset (world_of_commands stream_five_by_zero) 8)
  /\ Py.last [5; 0] = Some 0
  /\ binary_operator op_div [5; 0] [0; 0]
    = (Py.pop [5; 0], Py.pop (Py.set_last [0; 0] 0))
  /\ apply_operation 23 [5; 0] [0; 0] = ([5], [0])
  /\ execute_vm_code (world_of_commands stream_five_by_zero)
    = (Ok 5, with_offset (world_of_commands stream_five_by_zero) 11)
  /\ binary_operator op_mod [5; 0] [0; 0]
    = (Py.pop [5; 0], Py.pop (Py.set_last [0; 0] 0))
  /\ apply_operation 24 [5; 0] [0; 0] = ([5], [0])
  /\ execute_vm_code (world_of_commands stream_five_mod_zero)
    = (Ok 5, with_offset (world_of_commands stream_five_mod_zero) 11)
  /\ 5 <> 0.
Proof.
  repeat split; try reflexivity. discriminate.
Qed.

(** C10: with the cursor at or past the end of the command data, a byte
    read yields the marker 0xFF and the evaluation returns 0; neither moves
    the cursor or changes anything else. *)
Theorem vm_at_end_of_data_returns_zero (w : World) :
  Py.len (command_data (GB w)) <= command_data_offset (GB w) ->
  read_next_byte w = (Ok (Some 255), w) /\ execute_vm_code w = (Ok 0, w).
Proof.
  intros H. split; [now apply read_next_byte_at_end|].
  unfold execute_vm_code, vm_budget. cbn [vm_loop]. unfold bind at 1.
  rewrite (vm_turn_sentinel w w [] []) by now apply read_next_byte_at_end.
  reflexivity.
Qed.

(** With the cursor at 7 on five bytes of command data, the evaluation
    returns 0 and the cursor stays at 7. *)
Lemma vm_at_end_of_data_returns_zero_example :
  execute_vm_code (with_offset (world_of_commands [0; 255; 5; 0; 255]) 7)
  = (Ok 0, with_offset (world_of_commands [0; 255; 5; 0; 255]) 7).
Proof.
  refine (proj2 (vm_at_end_of_data_returns_zero
                   (with_offset (world_of_commands [0; 255; 5; 0; 255]) 7) _)).
  vm_compute. discriminate.
Defined.

(** ** Utilities.py: read_C_string *)

(** The loop never moves the offset backwards. *)
Lemma read_C_string_loop_monotone (fuel : nat) :
  forall (data acc acc' : list byte) (off off' : Z),
    read_C_string_loop fuel data acc off = Ok (acc', off') -> off <= off'.
Proof.
  induction fuel as [|fuel IH]; intros data acc acc' off off' H; [discriminate|].
  simpl in H.
  destruct (off <? Py.len data); [|injection H as _ <-; lia].
  destruct (Py.getitem data off) as [current_byte|]; [|discriminate].
  destruct (Py.ord current_byte =? 0).
  - destruct (off + 1 <? Py.len data).
    + destruct (Py.getitem data (off + 1)) as [next|]; [|discriminate].
      destruct (Py.ord next =? 0); injection H as _ <-; lia.
    + injection H as _ <-. lia.
  - destruct (5000 <? Py.len (Py.append acc current_byte)).
    + injection H as _ <-. lia.
    + apply IH in H. lia.
Qed.

(** From an offset inside the data the loop consumes at least one byte: the
    terminator counts, so an empty string has a length of 1 or 2. *)
Lemma read_C_string_loop_advances (fuel : nat)
    (data acc acc' : list byte) (off off' : Z) :
  off < Py.len data ->
  read_C_string_loop fuel data acc off = Ok (acc', off') -> off < off'.
Proof.
  intros Hlt H. destruct fuel as [|fuel]; [discriminate|]. simpl in H.
  apply Z.ltb_lt in Hlt. rewrite Hlt in H.
  destruct (Py.getitem data off) as [current_byte|]; [|discriminate].
  destruct (Py.ord current_byte =? 0).
  - destruct (off + 1 <? Py.len data).
    + destruct (Py.getitem data (off + 1)) as [next|]; [|discriminate].
      destruct (Py.ord next =? 0); injection H as _ <-; lia.
    + injection H as _ <-. lia.
  - destruct (5000 <? Py.len (Py.append acc current_byte)).
    + injection H as _ <-. lia.
    + apply read_C_string_loop_monotone in H. lia.
Qed.

Section CodecProperties.

Variable decode_shift_jis : list byte -> option string.
Variable decode_cp932 : list byte -> option string.

(** What [read_C_string] returns once the result of its loop is known. *)
Lemma read_C_string_of_loop (data acc : list byte) (off off' : Z) (w : World) :
  read_C_string_loop (S (Z.to_nat (Py.len data - off))) data [] off = Ok (acc, off') ->
  read_C_string decode_shift_jis decode_cp932 data (Some off) w =
    match decode_shift_jis acc with
    | Some s => (Ok (off' - off, strip_nul s), w)
    | None =>
        match decode_cp932 acc with
        | Some s => (Ok (off' - off, strip_nul s),
                     with_stdout w (stdout w ++ [DecodeFallback]))
        | None => (Raise UnicodeDecodeError,
                   with_stdout w (stdout w ++ [DecodeFallback]))
        end
    end.
Proof.
  intros H. unfold read_C_string, bind at 1. unfold lift. rewrite H.
  unfold bind, print, ret, raise.
  destruct (decode_shift_jis acc); [reflexivity|].
  destruct (decode_cp932 acc); reflexivity.
Qed.

(** Inside the text data [read_C_string] never reports a length of 0. *)
Lemma read_C_string_length_positive
    (data : list byte) (off n : Z) (s : string) (w w' : World) :
  off < Py.len data ->
  read_C_string decode_shift_jis decode_cp932 data (Some off) w = (Ok (n, s), w') ->
  1 <= n.
Proof.
  intros Hlt H. unfold read_C_string, bind at 1 in H. unfold lift in H.
  destruct (read_C_string_loop _ data [] off) as [[acc off']| |] eqn:Hloop;
    try discriminate.
  apply read_C_string_loop_advances in Hloop; [|exact Hlt].
  unfold bind, print, ret, raise in H.
  destruct (decode_shift_jis acc).
  - injection H as <- _ _. lia.
  - destruct (decode_cp932 acc); [|discriminate].
    injection H as <- _ _. lia.
Qed.

(** C6 (the code differs): on 5001 non-null bytes the loop accumulates all
    5001 of them, since it stops only once more than 5000 are held, and
    [read_C_string] reports 5001 bytes read, not 5000. *)
Theorem read_C_string_cap_is_5001 (w : World) :
  read_C_string_loop (S (Z.to_nat (Py.len long_text - 0))) long_text [] 0
    = Ok (long_text, 5001)
  /\ read_C_string decode_shift_jis decode_cp932 long_text (Some 0) w =
    match decode_shift_jis long_text with
    | Some s => (Ok (5001, strip_nul s), w)
    | None =>
        match decode_cp932 long_text with
        | Some s => (Ok (5001, strip_nul s),
                     with_stdout w (stdout w ++ [DecodeFallback]))
        | None => (Raise UnicodeDecodeError,
                   with_stdout w (stdout w ++ [DecodeFallback]))
        end
    end.
Proof.
  assert (Hloop : read_C_string_loop (S (Z.to_nat (Py.len long_text - 0))) long_text [] 0
                  = Ok (long_text, 5001)) by (vm_compute; reflexivity).
  split; [exact Hloop|].
  rewrite (read_C_string_of_loop long_text long_text 0 5001 w Hloop).
  reflexivity.
Qed.

(** The two short examples of the string reader: "AB" with its terminator
    is 3 bytes, and two zero bytes are an empty string of 2 bytes. *)
Lemma read_C_string_short_examples (w : World) :
  decode_shift_jis (Py.bytes [65; 66]) = Some "AB"%string ->
  decode_shift_jis [] = Some ""%string ->
  read_C_string decode_shift_jis decode_cp932 (Py.bytes [65; 66; 0]) (Some 0) w
    = (Ok (3, "AB"%string), w)
  /\ read_C_string decode_shift_jis decode_cp932 (Py.bytes [0; 0]) (Some 0) w
    = (Ok (2, ""%string), w).
Proof.
  intros HAB Hempty. split.
  - rewrite (read_C_string_of_loop _ (Py.bytes [65; 66]) 0 3 w) by reflexivity.
    rewrite HAB. reflexivity.
  - rewrite (read_C_string_of_loop _ [] 0 2 w) by reflexivity.
    rewrite Hempty. reflexivity.
Qed.

(** ** NormalOpcodeTable.py: strings and the name cache *)

(** C7 (the code differs): decoding the bracketed name at offset 100 caches
    it, so that the fall-back for offset 109 would resolve to it; but the
    string opcode of type 1 (name-resolution flag 1) that refers to the
    empty string at offset 109 gets the length 2 from [read_C_string], does
    not enter the fall-back, and resolves to the empty string. *)
Theorem string_opcode_empty_string_is_not_resolved :
  decode_shift_jis name_bytes = Some "【Name】"%string ->
  decode_shift_jis [] = Some ""%string ->
  process_single_command decode_shift_jis decode_cp932 world_before_name
    = (Ok 0, world_after_name)
  /\ resolve_cached_name name_cache_after_name 109
    = ("【Name】"%string, CachedLast "【Name】" (Some 100))
  /\ read_C_string decode_shift_jis decode_cp932 sample_text_data (Some 109)
       (with_offset world_after_name 6)
    = (Ok (2, ""%string), with_offset world_after_name 6)
  /\ _handle_string_opcode decode_shift_jis decode_cp932 3
       (with_offset world_after_name 4)
    = (Ok (Some ""%string),
       with_stdout (with_offset world_after_name 6)
                   (stdout world_after_name ++ [NormalText 109 0 1 2 ""])).
Proof.
  intros Hname Hempty. vm_compute in Hname, Hempty.
  split; [|split; [|split]].
  - vm_compute. rewrite Hname. vm_compute. reflexivity.
  - vm_compute. reflexivity.
  - vm_compute. rewrite Hempty. vm_compute. reflexivity.
  - vm_compute. rewrite Hempty. vm_compute. reflexivity.
Qed.

(** The string opcode never takes its fall-back branch: whenever it
    resolves a string, that string is the decoded text itself and the line
    printed is the plain one. *)
Lemma string_opcode_fallback_is_dead
    (current_offset : Z) (w w' : World) (s : string) :
  Normal_debug (the_normal w) = true ->
  _handle_string_opcode decode_shift_jis decode_cp932 current_offset w
    = (Ok (Some s), w') ->
  exists text_offset v252 get_string_flag length,
    1 <= length /\
    List.In (NormalText text_offset v252 get_string_flag length s) (stdout w').
Proof.
  intros Hdbg H. unfold _handle_string_opcode in H.
  unfold bind at 1 in H. unfold get_GB at 1 in H. cbv beta iota in H.
  unfold bind at 1 in H.
  destruct (Py.getitem (command_data (GB w)) current_offset) as [b|];
    [|discriminate].
  unfold ret at 1 in H. cbv beta iota in H.
  unfold bind at 1 in H.
  destruct (get_next_word w) as [[[text_offset|]| |] w1] eqn:Hword; try discriminate.
  assert (Hw1 : Normal_debug (the_normal w1) = true /\ text_data (GB w1) = text_data (GB w)
                /\ stdout w1 = stdout w).
  { unfold get_next_word, bind, get_GB in Hword.
    destruct (Py.len (command_data (GB w)) <=? command_data_offset (GB w) + 1).
    - unfold ret in Hword. injection Hword as _ <-. auto.
    - unfold lift in Hword.
      destruct (read_uint16 _); try discriminate.
      unfold set_command_data_offset, ret in Hword. injection Hword as _ <-. auto. }
  destruct Hw1 as (Hdbg1 & Htext & Hout).
  unfold bind at 1 in H. unfold normal_debug at 1 in H. rewrite Hdbg1 in H.
  cbv beta iota in H.
  destruct (text_offset <? Py.len (text_data (GB w))) eqn:Hin.
  2:{ unfold bind, when, print, ret in H. discriminate. }
  apply Z.ltb_lt in Hin.
  unfold bind at 1 in H.
  destruct (read_C_string decode_shift_jis decode_cp932 (text_data (GB w))
              (Some text_offset) w1) as [[[length text]| |] w2] eqn:Hread;
    try discriminate.
  pose proof (read_C_string_length_positive _ _ _ _ _ _ Hin Hread) as Hlen.
  destruct (length =? 0) eqn:E0; [apply Z.eqb_eq in E0; lia|].
  cbn [andb] in H.
  unfold bind at 1 in H. unfold when at 1, print at 1 in H. cbv beta iota in H.
  unfold bind at 1 in H.
  set (w3 := with_stdout w2 _) in H.
  destruct (cache_name text_offset text w3) as [[[]| |] w4] eqn:Hcache;
    try discriminate.
  unfold ret in H. injection H as <- <-.
  exists text_offset, (flag (Py.ord b =? 0)), (flag (flag (Py.ord b =? 0) =? 0)), length.
  split; [exact Hlen|].
  assert (Hw4 : exists more, stdout w4 = stdout w3 ++ more).
  { unfold cache_name, bind, get_world in Hcache.
    destruct (_is_japanese_name_bracket text).
    - unfold when, print, ret, set_name_cache in Hcache.
      destruct (NameCache_debug (name_cache (the_normal w3)));
        injection Hcache as <-.
      + eexists. reflexivity.
      + exists []. rewrite List.app_nil_r. reflexivity.
    - unfold ret in Hcache. injection Hcache as <-. exists [].
      rewrite List.app_nil_r. reflexivity. }
  destruct Hw4 as (more & ->). subst w3. simpl.
  apply List.in_or_app. left. apply List.in_or_app. right. left. reflexivity.
Qed.

(** ** The two dispatchers and unknown opcodes *)

Lemma read_next_opcode_in_range (w : World) (b : byte) :
  0 <= command_data_offset (GB w) ->
  Py.getitem (command_data (GB w)) (command_data_offset (GB w)) = Some b ->
  read_next_opcode w
  = (Ok (Some (Py.ord b)), with_offset w (command_data_offset (GB w) + 1)).
Proof.
  intros H0 Hb. pose proof (getitem_Some_lt _ _ _ H0 Hb) as Hlt.
  unfold read_next_opcode, get_next_byte, bind, get_GB.
  apply Z.leb_gt in Hlt. rewrite Hlt, Hb. reflexivity.
Qed.

Lemma _get_next_byte_in_range (w : World) (b : byte) :
  0 <= command_data_offset (GB w) ->
  Py.getitem (command_data (GB w)) (command_data_offset (GB w)) = Some b ->
  _get_next_byte w
  = (Ok (Some (Py.ord b)), with_offset w (command_data_offset (GB w) + 1)).
Proof.
  intros H0 Hb. pose proof (getitem_Some_lt _ _ _ H0 Hb) as Hlt.
  unfold _get_next_byte, bind, get_GB.
  apply Z.leb_gt in Hlt. rewrite Hlt, Hb. reflexivity.
Qed.

(** The outer dispatcher only prints a line for a basic opcode that has no
    handler. *)
Lemma _process_opcode_unhandled (w : World) (opcode current_offset : Z) :
  opcode <= 11 ->
  basic_opcode_handlers !! opcode = None ->
  _process_opcode decode_shift_jis decode_cp932 opcode current_offset w
  = (Ok tt, with_stdout w (stdout w ++ [SysUnhandledOpcode opcode current_offset])).
Proof.
  intros Hle Hnone. unfold _process_opcode, _process_basic_opcode.
  destruct (11 <? opcode) eqn:E; [apply Z.ltb_lt in E; lia|].
  rewrite Hnone. reflexivity.
Qed.

(** C9: an opcode byte with no entry in the handler table makes
    [_handle_unknown_opcode] print the opcode and its offset and raise the
    unknown-opcode exception carrying both; [process_single_command] turns
    it into the error code -1 after the opcode byte alone has been consumed,
    and the pass of [process_all_commands] stops there. In the outer
    dispatcher a basic opcode without a handler raises nothing: a line is
    printed and the loop goes on with the next byte. *)
Theorem unknown_normal_opcode_stops_the_pass (w w2 : World) (b b2 : byte) (fuel : nat) :
  let off := command_data_offset (GB w) in
  let opcode := Py.ord b in
  let e := NormalOpcodeDisassemblerException (UnknownOpcode opcode off) in
  let w_read :=
    with_stdout (with_offset w (off + 1)) (stdout w ++ [NormalAt off opcode]) in
  let w_raise :=
    with_stdout w_read (stdout w_read ++ [NormalUnknownOpcode opcode off]) in
  let w_end := with_stdout w_raise (stdout w_raise ++ [NormalErrorSingle e]) in
  let off2 := command_data_offset (GB w2) in
  let opcode2 := Py.ord b2 in
  Normal_debug (the_normal w) = true ->
  0 <= off ->
  Py.getitem (command_data (GB w)) off = Some b ->
  opcode_handlers !! opcode = None ->
  SysCall_debug (sys_call_executer w2) = true ->
  0 <= off2 ->
  Py.getitem (command_data (GB w2)) off2 = Some b2 ->
  opcode2 <= 11 ->
  basic_opcode_handlers !! opcode2 = None ->
  _handle_unknown_opcode opcode off w_read = (Raise e, w_raise)
  /\ process_single_command decode_shift_jis decode_cp932 w = (Ok (-1), w_end)
  /\ process_all_commands decode_shift_jis decode_cp932 w = (Ok tt, w_end)
  /\ process_sys_calls_loop decode_shift_jis decode_cp932 (S fuel) w2
     = process_sys_calls_loop decode_shift_jis decode_cp932 fuel
         (with_stdout (with_offset w2 (off2 + 1))
            (stdout w2 ++ [SysAtOffset off2 opcode2; SysUnhandledOpcode opcode2 off2])).
Proof.
  intros off opcode e w_read w_raise w_end off2 opcode2
         Hdbg H0 Hb Hnone Hdbg2 H02 Hb2 Hle2 Hnone2.
  pose proof (getitem_Some_lt _ _ _ H0 Hb) as Hlt. fold off in Hlt.
  assert (Hdbg_read : Normal_debug (the_normal w_read) = true) by exact Hdbg.
  assert (Hdbg_raise : Normal_debug (the_normal w_raise) = true) by exact Hdbg.
  assert (Hraise : _handle_unknown_opcode opcode off w_read = (Raise e, w_raise)).
  { unfold _handle_unknown_opcode, bind, normal_debug, when, print, raise.
    rewrite Hdbg_read. reflexivity. }
  assert (Hsingle : process_single_command decode_shift_jis decode_cp932 w
                    = (Ok (-1), w_end)).
  { unfold process_single_command, try_except.
    unfold bind at 1. unfold get_GB at 1. cbv beta iota. fold off.
    destruct (Py.len (command_data (GB w)) <=? off) eqn:E;
      [apply Z.leb_le in E; lia|].
    unfold bind at 1. rewrite (read_next_opcode_in_range w b H0 Hb).
    fold off opcode.
    unfold bind at 1. unfold normal_debug at 1.
    change (Normal_debug (the_normal (with_offset w (off + 1))))
      with (Normal_debug (the_normal w)).
    rewrite Hdbg. cbv beta iota. rewrite Hnone.
    unfold bind at 1. unfold when at 1, print at 1.
    change (with_stdout (with_offset w (off + 1))
              (stdout (with_offset w (off + 1)) ++ [NormalAt off opcode])) with w_read.
    unfold bind at 1. rewrite Hraise.
    unfold bind, normal_debug, when, print, ret. rewrite Hdbg_raise. reflexivity. }
  split; [exact Hraise|]. split; [exact Hsingle|]. split.
  - unfold process_all_commands, try_except, pass_budget.
    cbn [process_all_commands_loop]. unfold bind at 1. unfold get_GB at 1.
    cbv beta iota. fold off.
    destruct (off <? Py.len (command_data (GB w))) eqn:E;
      [|apply Z.ltb_ge in E; lia].
    unfold bind at 1. rewrite Hsingle. reflexivity.
  - pose proof (getitem_Some_lt _ _ _ H02 Hb2) as Hlt2. fold off2 in Hlt2.
    cbn [process_sys_calls_loop]. unfold bind at 1. unfold get_GB at 1.
    cbv beta iota. fold off2.
    destruct (off2 <? Py.len (command_data (GB w2))) eqn:E;
      [|apply Z.ltb_ge in E; lia].
    unfold bind at 1. rewrite (_get_next_byte_in_range w2 b2 H02 Hb2).
    fold off2 opcode2.
    unfold bind at 1. unfold sys_debug at 1.
    change (SysCall_debug (sys_call_executer (with_offset w2 (off2 + 1))))
      with (SysCall_debug (sys_call_executer w2)).
    rewrite Hdbg2. cbv beta iota.
    unfold bind at 1. unfold when at 1, print at 1.
    unfold bind at 1.
    rewrite (_process_opcode_unhandled _ opcode2 off2 Hle2 Hnone2).
    cbn [stdout with_stdout with_offset with_GB].
    rewrite <- List.app_assoc. reflexivity.
Qed.

End CodecProperties.

(** The sample codec decodes the bracketed name; so the first sample command
    caches the name, and the second, for the empty string at offset 109,
    resolves to the empty string. *)
Lemma string_opcode_empty_string_is_not_resolved_example :
  process_single_command sample_decode sample_decode world_before_name
    = (Ok 0, world_after_name)
  /\ _handle_string_opcode sample_decode sample_decode 3
       (with_offset world_after_name 4)
    = (Ok (Some ""%string),
       with_stdout (with_offset world_after_name 6)
                   (stdout world_after_name ++ [NormalText 109 0 1 2 ""])).
Proof.
  pose proof (string_opcode_empty_string_is_not_resolved sample_decode sample_decode
                eq_refl eq_refl) as (H1 & _ & _ & H2).
  split; [exact H1 | exact H2].
Defined.

(** Opcode 3 has no handler in the inner table: the pass over the command
    data [3, 4] stops after the first byte. Opcode 1 has no handler in the
    outer table either, and there the loop goes on. *)
Lemma unknown_normal_opcode_stops_the_pass_example :
  process_all_commands sample_decode sample_decode (world_of_commands [3; 4])
  = (Ok tt,
     with_stdout (with_offset (world_of_commands [3; 4]) 1)
       [NormalAt 0 3; NormalUnknownOpcode 3 0;
        NormalErrorSingle (NormalOpcodeDisassemblerException (UnknownOpcode 3 0))])
  /\ process_sys_calls_loop sample_decode sample_decode 3 (world_of_commands [1; 4])
  = process_sys_calls_loop sample_decode sample_decode 2
      (with_stdout (with_offset (world_of_commands [1; 4]) 1)
         [SysAtOffset 0 1; SysUnhandledOpcode 1 0]).
Proof.
  pose proof (unknown_normal_opcode_stops_the_pass sample_decode sample_decode
                (world_of_commands [3; 4]) (world_of_commands [1; 4]) x03 x01 2
                eq_refl ltac:(simpl; lia) eq_refl eq_refl
                eq_refl ltac:(simpl; lia) eq_refl ltac:(vm_compute; discriminate)
                eq_refl) as (_ & _ & Hall & Hsys).
  split; [exact Hall | exact Hsys].
Defined.

(** The error code of the inner dispatcher is dropped by the outer one: on
    the commands "basic operation, inner opcode 3, return" the unknown inner
    opcode is reported and the outer loop still decodes the return. *)
Lemma outer_loop_goes_on_after_unknown_normal_opcode :
  process_sys_calls sample_decode sample_decode (world_of_commands [0; 3; 13])
  = (Ok tt,
     with_stdout (with_offset (world_of_commands [0; 3; 13]) 3)
       [SysAtOffset 0 0; SysMainInterpreter 0;
        NormalAt 1 3; NormalUnknownOpcode 3 1;
        NormalErrorSingle (NormalOpcodeDisassemblerException (UnknownOpcode 3 1));
        SysAtOffset 2 13; SysReturn 2]).
Proof. vm_compute. reflexivity. Qed.

(** ** SysCallTable.py: the switch/case scan *)

Lemma _safe_get_next_byte_here (w : World) (pre rest : list byte) (b : byte) :
  command_data (GB w) = pre ++ b :: rest ->
  command_data_offset (GB w) = Py.len pre ->
  _safe_get_next_byte w = (Ok (Py.ord b), with_offset w (Py.len pre + 1)).
Proof.
  intros Hd Ho. unfold _safe_get_next_byte, _get_next_byte, bind, get_GB.
  rewrite Hd, Ho, getitem_app_here, len_app.
  change (Py.len (b :: rest)) with (Z.of_nat (S (List.length rest))).
  destruct (_ <=? _) eqn:E; [apply Z.leb_le in E; lia|]. reflexivity.
Qed.

Lemma _safe_get_next_word_here (w : World) (pre rest : list byte) (lo hi : byte) :
  command_data (GB w) = pre ++ lo :: hi :: rest ->
  command_data_offset (GB w) = Py.len pre ->
  _safe_get_next_word w
  = (Ok (Z.lor (Py.ord lo) (Z.shiftl (Py.ord hi) 8)), with_offset w (Py.len pre + 2)).
Proof.
  intros Hd Ho. unfold _safe_get_next_word, _get_next_word, bind, get_GB.
  rewrite Hd, Ho, getitem_app_here.
  replace (Py.len pre + 1) with (Py.len (pre ++ [lo])) by (rewrite len_app; reflexivity).
  replace (pre ++ lo :: hi :: rest) with ((pre ++ [lo]) ++ hi :: rest)
    by (rewrite <- List.app_assoc; reflexivity).
  rewrite getitem_app_here. rewrite !len_app.
  change (Py.len (hi :: rest)) with (Z.of_nat (S (List.length rest))).
  change (Py.len [lo]) with 1.
  destruct (_ <=? _) eqn:E; [apply Z.leb_le in E; lia|]. reflexivity.
Qed.

(** The loop reads every case, prints the expected lines and returns
    whether some case matched (or a match was already recorded). *)
Lemma switch_case_loop_run (x : Z) (cases : list Case) :
  forall (w : World) (pre post : list byte) (i : Z) (found : bool),
    SysCall_debug (sys_call_executer w) = true ->
    command_data (GB w) = pre ++ List.flat_map case_bytes cases ++ post ->
    command_data_offset (GB w) = Py.len pre ->
    switch_case_loop (List.length cases) i x found w
    = (Ok (found || List.existsb (fun c => case_matches x (case_value_of c)) cases),
       with_stdout (with_offset w (Py.len pre + 3 * Py.len cases))
                   (stdout w ++ expected_case_lines x i cases)).
Proof.
  induction cases as [|[[v lo] hi] rest IH]; intros w pre post i found Hdbg Hd Ho.
  - simpl. rewrite orb_false_r, List.app_nil_r. unfold ret.
    change (Py.len []) with 0. rewrite Z.mul_0_r, Z.add_0_r.
    destruct w as [[cd td off tdo] sys out]. simpl in *. subst off. reflexivity.
  - cbn [List.length switch_case_loop]. unfold bind at 1.
    simpl in Hd.
    rewrite (_safe_get_next_byte_here w pre _ v Hd Ho).
    unfold bind at 1.
    rewrite (_safe_get_next_word_here (with_offset w (Py.len pre + 1)) (pre ++ [v])
               (List.flat_map case_bytes rest ++ post) lo hi); cycle 1.
    { simpl. rewrite Hd, <- List.app_assoc. reflexivity. }
    { simpl. rewrite len_app. reflexivity. }
    unfold bind at 1. unfold sys_debug at 1.
    cbn [with_offset with_GB sys_call_executer]. rewrite Hdbg.
    simpl. unfold case_value_of.
    destruct (case_matches x (Py.ord v)) eqn:Em.
    + unfold when, bind, print. simpl.
      erewrite (IH _ (pre ++ [v; lo; hi]) post); cycle 1.
      { simpl. exact Hdbg. }
      { simpl. rewrite Hd, <- List.app_assoc. reflexivity. }
      { simpl. unfold Py.len. rewrite !List.length_app. simpl List.length. lia. }
      rewrite orb_true_r. simpl. unfold with_stdout, with_offset, with_GB. simpl.
      do 2 f_equal.
      * f_equal. rewrite !len_app. unfold Py.len. simpl List.length. lia.
      * rewrite <- !List.app_assoc. reflexivity.
    + unfold when, bind, print. simpl.
      erewrite (IH _ (pre ++ [v; lo; hi]) post); cycle 1.
      { simpl. exact Hdbg. }
      { simpl. rewrite Hd, <- List.app_assoc. reflexivity. }
      { simpl. unfold Py.len. rewrite !List.length_app. simpl List.length. lia. }
      simpl. unfold with_stdout, with_offset, with_GB. simpl.
      do 2 f_equal.
      * f_equal. rewrite !len_app. unfold Py.len. simpl List.length. lia.
      * rewrite <- !List.app_assoc. reflexivity.
Qed.

(** C8: a case matches iff its value byte is 0xFF or equals the extracted
    parameter; the scan reads all the cases whatever matches (the cursor
    ends 3 bytes per case further), prints every case and the two match
    lines of every matching one, and prints the default target iff no case
    matched. *)
Theorem switch_case_scan_reports_every_match
    (w : World) (pre post : list byte) (cases : list Case) (x default_target : Z) :
  SysCall_debug (sys_call_executer w) = true ->
  command_data (GB w) = pre ++ List.flat_map case_bytes cases ++ post ->
  command_data_offset (GB w) = Py.len pre ->
  let matched := List.existsb (fun c => case_matches x (case_value_of c)) cases in
  switch_case_scan x (Py.len cases) default_target w
  = (Ok tt,
     with_stdout (with_offset w (Py.len pre + 3 * Py.len cases))
       (stdout w
        ++ [SwitchProcessed x; SwitchComparing x (Py.len cases) default_target]
        ++ expected_case_lines x 0 cases
        ++ (if matched then [] else [SwitchNoMatch x default_target])))
  /\ (forall v : Z, case_matches x v = true <-> v = 255 \/ x = v).
Proof.
  intros Hdbg Hd Ho matched. split.
  - unfold switch_case_scan, bind, when, print, sys_debug. rewrite Hdbg.
    unfold Py.len at 1. rewrite Nat2Z.id.
    erewrite (switch_case_loop_run x cases _ pre post 0 false); cycle 1.
    { exact Hdbg. }
    { exact Hd. }
    { exact Ho. }
    cbn [orb]. fold matched. destruct matched; cbn [negb andb].
    + unfold ret. cbn [stdout with_stdout with_offset with_GB GB sys_call_executer].
      rewrite List.app_nil_r, <- !List.app_assoc. reflexivity.
    + cbn [stdout with_stdout with_offset with_GB GB sys_call_executer].
      rewrite <- !List.app_assoc. reflexivity.
  - intros v. unfold case_matches. rewrite orb_true_iff, !Z.eqb_eq. reflexivity.
Qed.

(** Case values 5 and 0xFF with the parameter 7: the case 5 is shown
    without a match, the wildcard case is shown with its match lines, and
    no default line is printed. *)
Lemma switch_case_scan_reports_every_match_example :
  switch_case_scan 7 2 64 (with_offset (world_of_commands [9; 5;16;0; 255;32;0; 8]) 1)
  = (Ok tt,
     with_stdout (with_offset (world_of_commands [9; 5;16;0; 255;32;0; 8]) 7)
       [SwitchProcessed 7; SwitchComparing 7 2 64;
        SwitchCase 0 5 16;
        SwitchCase 1 255 32; SwitchMatchFound 7 255; SwitchTargetWouldBe 32]).
Proof.
  exact (proj1 (switch_case_scan_reports_every_match
                  (with_offset (world_of_commands [9; 5;16;0; 255;32;0; 8]) 1)
                  (Py.bytes [9]) (Py.bytes [8])
                  [(x05, x10, x00); (xff, x20, x00)] 7 64
                  eq_refl eq_refl eq_refl)).
Defined.

(** ** Termination: the budgets of the loops suffice *)

(** *** The cursor reads *)

Lemma read_next_byte_cases (w : World) :
  0 <= cursor w ->
  exists v w', read_next_byte w = (Ok (Some v), w') /\ 0 <= v < 256
    /\ preserved w w'
    /\ (cursor w < Py.len (command_data (GB w)) -> cursor w' = cursor w + 1).
Proof.
  intros H0. unfold preserved, cursor in *.
  destruct (Z_lt_le_dec (command_data_offset (GB w)) (Py.len (command_data (GB w))))
    as [Hlt|Hge].
  - destruct (getitem_in_range (command_data (GB w)) _ (conj H0 Hlt)) as [b Hb].
    rewrite (read_next_byte_in_range w b H0 Hb).
    eexists _, _. split; [reflexivity|]. pose proof (ord_range b).
    simpl. repeat split; lia.
  - rewrite (read_next_byte_at_end w Hge).
    eexists _, _. split; [reflexivity|]. repeat split; lia.
Qed.

Lemma two_bytes_at (l : list byte) (off : Z) :
  0 <= off -> off + 2 <= Py.len l ->
  exists b0 b1, Py.slice l off (off + 2) = [b0; b1].
Proof.
  intros H0 H2. rewrite slice_in_range by lia.
  replace (off + 2 - off) with 2 by lia.
  remember (List.skipn (Z.to_nat off) l) as rest eqn:Hrest.
  assert (Hlen : (2 <= List.length rest)%nat).
  { subst rest. rewrite List.length_skipn. unfold Py.len in H2. lia. }
  destruct rest as [|b0 [|b1 rest]]; simpl in Hlen; try lia.
  exists b0, b1. reflexivity.
Qed.

Lemma get_next_word_cases (w : World) :
  0 <= cursor w ->
  get_next_word w = (Ok None, w) \/
  exists p, get_next_word w = (Ok (Some p), with_offset w (cursor w + 2))
            /\ 0 <= p < 65536.
Proof.
  intros H0. unfold cursor in *. unfold get_next_word, bind, get_GB.
  destruct (Py.len (command_data (GB w)) <=? command_data_offset (GB w) + 1) eqn:E.
  - left. reflexivity.
  - right. apply Z.leb_gt in E.
    destruct (two_bytes_at (command_data (GB w)) (command_data_offset (GB w)))
      as (b0 & b1 & Hs); [lia|lia|].
    unfold lift. rewrite Hs. simpl.
    eexists. split; [reflexivity|].
    pose proof (ord_range b0). pose proof (ord_range b1). lia.
Qed.

(** *** The two bit loops end on every positive pattern *)

Lemma while_low_bit_clear_terminates (fuel : nat) :
  forall temp count : Z,
    0 < temp -> (Z.to_nat (Z.log2 temp) < fuel)%nat ->
    exists c t, while_low_bit_clear fuel temp count = Some (c, t) /\ 0 < t <= temp.
Proof.
  induction fuel as [|fuel IH]; intros temp count Hpos Hfuel; [lia|].
  simpl. rewrite low_bit_clear.
  destruct (Z.testbit temp 0) eqn:Hbit; simpl.
  - exists count, temp. split; [reflexivity|lia].
  - assert (Hne : temp <> 1) by (intros ->; discriminate).
    assert (Hlog : 1 <= Z.log2 temp) by (apply Z.log2_le_pow2; simpl; lia).
    destruct (IH (Z.shiftr temp 1) (count + 1)) as (c & t & Hrun & Ht).
    + rewrite Z.shiftr_div_pow2 by lia. change (2 ^ 1) with 2.
      apply Z.div_str_pos. lia.
    + rewrite Z.log2_shiftr by lia. lia.
    + exists c, t. split; [exact Hrun|].
      rewrite Z.shiftr_div_pow2 in Ht by lia. change (2 ^ 1) with 2 in Ht.
      assert (temp / 2 <= temp) by (apply Z.div_le_upper_bound; lia). lia.
Qed.

Lemma while_low_bit_set_terminates (fuel : nat) :
  forall temp count : Z,
    (temp = 0 /\ (0 < fuel)%nat) \/
    (0 < temp /\ (Z.to_nat (Z.log2 temp) + 1 < fuel)%nat) ->
    exists c t, while_low_bit_set fuel temp count = Some (c, t).
Proof.
  induction fuel as [|fuel IH]; intros temp count H; [lia|].
  simpl. rewrite low_bit_clear.
  destruct (Z.testbit temp 0) eqn:Hbit; simpl; [|eauto].
  destruct H as [[-> _]|[Hpos Hfuel]]; [discriminate|].
  apply IH.
  destruct (Z.eq_dec temp 1) as [->|Hne].
  - left. split; [reflexivity|]. simpl in Hfuel. lia.
  - right. assert (Hlog : 1 <= Z.log2 temp) by (apply Z.log2_le_pow2; simpl; lia).
    split.
    + rewrite Z.shiftr_div_pow2 by lia. change (2 ^ 1) with 2.
      apply Z.div_str_pos. lia.
    + rewrite Z.log2_shiftr by lia. lia.
Qed.

(** *** Safe computations compose *)

Lemma preserved_refl (w : World) : preserved w w.
Proof. unfold preserved. repeat split; lia. Qed.

Lemma preserved_trans (w1 w2 w3 : World) :
  preserved w1 w2 -> preserved w2 w3 -> preserved w1 w3.
Proof.
  unfold preserved. intros (H1 & H2 & H3) (H4 & H5 & H6).
  repeat split; try congruence. lia.
Qed.

Lemma preserved_nonneg (w w' : World) : 0 <= cursor w -> preserved w w' -> 0 <= cursor w'.
Proof. unfold preserved. intros ? (_ & _ & ?). lia. Qed.

Lemma preserved_stdout (w : World) (out : list Line) : preserved w (with_stdout w out).
Proof. exact (preserved_refl w). Qed.

Lemma preserved_name_cache (w : World) (nc : NameCache) :
  preserved w (with_name_cache w nc).
Proof. exact (preserved_refl w). Qed.

Lemma preserved_offset (w : World) (off : Z) :
  cursor w <= off -> preserved w (with_offset w off).
Proof. intros H. unfold preserved, cursor in *. simpl. auto. Qed.

Section Safe.
Context {A B : Type}.

Lemma safe_with_weaken (P Q : A -> Prop) (m : M A) :
  (forall a, P a -> Q a) -> safe_with P m -> safe_with Q m.
Proof.
  intros HPQ Hm w H0. specialize (Hm w H0).
  destruct (m w) as [[a|e|] w']; [|exact Hm|exact Hm].
  destruct Hm as [HP Hw]. split; [exact (HPQ a HP)|exact Hw].
Qed.

Lemma safe_of_with (P : A -> Prop) (m : M A) : safe_with P m -> safe_with any m.
Proof. apply safe_with_weaken. intros a _. exact I. Qed.

Lemma safe_ret_with (P : A -> Prop) (a : A) : P a -> safe_with P (ret a).
Proof. intros HP w _. simpl. split; [exact HP|apply preserved_refl]. Qed.

Lemma safe_ret (a : A) : safe_with any (ret a).
Proof. apply safe_ret_with. exact I. Qed.

Lemma safe_raise (P : A -> Prop) (e : exn) : safe_with P (raise e).
Proof. intros w _. simpl. apply preserved_refl. Qed.

Lemma safe_bind_with (P : A -> Prop) (Q : B -> Prop) (m : M A) (k : A -> M B) :
  safe_with P m -> (forall a, P a -> safe_with Q (k a)) -> safe_with Q (bind m k).
Proof.
  intros Hm Hk w H0. unfold bind. specialize (Hm w H0).
  destruct (m w) as [[a|e|] w1]; [|exact Hm|exact Hm].
  destruct Hm as [HP Hw1].
  specialize (Hk a HP w1 (preserved_nonneg _ _ H0 Hw1)).
  destruct (k a w1) as [[b|e|] w2]; [| |exact Hk].
  - destruct Hk as [HQ Hw2]. split; [exact HQ|]. eapply preserved_trans; eassumption.
  - eapply preserved_trans; eassumption.
Qed.

Lemma safe_bind (Q : B -> Prop) (m : M A) (k : A -> M B) :
  safe_with any m -> (forall a, safe_with Q (k a)) -> safe_with Q (bind m k).
Proof. intros Hm Hk. apply (safe_bind_with any); auto. Qed.

Lemma safe_try_except (P : A -> Prop) (m : M A) (handler : exn -> M A) :
  safe_with P m -> (forall e, safe_with P (handler e)) -> safe_with P (try_except m handler).
Proof.
  intros Hm Hh w H0. unfold try_except. specialize (Hm w H0).
  destruct (m w) as [[a|e|] w1]; [exact Hm| |exact Hm].
  specialize (Hh e w1 (preserved_nonneg _ _ H0 Hm)).
  destruct (handler e w1) as [[a|e'|] w2]; [| |exact Hh].
  - destruct Hh as [HP Hw2]. split; [exact HP|]. eapply preserved_trans; eassumption.
  - eapply preserved_trans; eassumption.
Qed.

Lemma safe_lift (P : A -> Prop) (r : result A) :
  match r with Ok a => P a | Raise _ => True | Diverge => False end ->
  safe_with P (lift r).
Proof.
  intros Hr w _. unfold lift. destruct r as [a|e|]; [|apply preserved_refl|exact Hr].
  split; [exact Hr|apply preserved_refl].
Qed.

End Safe.

Lemma safe_print (l : Line) : safe_with any (print l).
Proof. intros w _. simpl. split; [exact I|apply preserved_stdout]. Qed.

Lemma safe_when (flag : bool) (m : M unit) : safe_with any m -> safe_with any (when flag m).
Proof. intros Hm. destruct flag; [exact Hm|apply safe_ret]. Qed.

Lemma safe_get_GB : safe_with any get_GB.
Proof. intros w _. simpl. split; [exact I|apply preserved_refl]. Qed.

Lemma safe_get_world : safe_with any get_world.
Proof. intros w _. simpl. split; [exact I|apply preserved_refl]. Qed.

Lemma safe_normal_debug : safe_with any normal_debug.
Proof. intros w _. simpl. split; [exact I|apply preserved_refl]. Qed.

Lemma safe_sys_debug : safe_with any sys_debug.
Proof. intros w _. simpl. split; [exact I|apply preserved_refl]. Qed.

Lemma safe_get_next_byte : safe_with is_byte get_next_byte.
Proof.
  intros w H0. unfold cursor in H0. unfold get_next_byte, bind, get_GB.
  destruct (Py.len (command_data (GB w)) <=? command_data_offset (GB w)) eqn:E.
  - simpl. split; [exact I|apply preserved_refl].
  - apply Z.leb_gt in E.
    destruct (getitem_in_range (command_data (GB w)) _ (conj H0 E)) as [b ->].
    simpl. split; [apply ord_range|]. apply preserved_offset. unfold cursor. lia.
Qed.

Lemma safe_get_next_word : safe_with is_word get_next_word.
Proof.
  intros w H0.
  destruct (get_next_word_cases w H0) as [-> | (p & -> & Hp)].
  - split; [exact I|apply preserved_refl].
  - split; [exact Hp|]. apply preserved_offset. lia.
Qed.

(** *** The expression VM *)

Lemma extract_bit_field_in_answers (table : list Z) (table_index bit_pattern : option Z) :
  (forall i, table_index = Some i -> 0 <= i) ->
  (forall p, bit_pattern = Some p -> 0 <= p) ->
  extract_bit_field_in table table_index bit_pattern <> Diverge.
Proof.
  intros Hi Hp. unfold extract_bit_field_in.
  destruct bit_pattern as [p|]; [|discriminate].
  specialize (Hp p eq_refl).
  destruct (p =? 0) eqn:E; [discriminate|]. apply Z.eqb_neq in E.
  destruct (while_low_bit_clear_terminates (bit_budget p) p 0) as (c & t & -> & Ht);
    [lia | unfold bit_budget; lia|].
  destruct (while_low_bit_set_terminates (bit_budget p) t 0) as (n & t' & ->).
  { right. split; [lia|]. unfold bit_budget.
    assert (Z.log2 t <= Z.log2 p) by (apply Z.log2_le_mono; lia). lia. }
  destruct table_index as [i|]; [|discriminate].
  rewrite (table_lookup table i (Hi i eq_refl)). discriminate.
Qed.

(** The table value of [_sub_414FE6] is the constant 0, and so is its result
    on every 16-bit pattern. *)
Lemma _sub_414FE6_zero (a1 a2 : Z) :
  0 <= a2 < 65536 -> _sub_414FE6 a1 a2 = Ok 0.
Proof.
  intros Ha. unfold _sub_414FE6.
  destruct (a2 =? 0) eqn:E; [apply Z.eqb_eq in E; subst; reflexivity|].
  apply Z.eqb_neq in E.
  assert (Hland : Z.land a2 65535 = a2).
  { change 65535 with (Z.ones 16). rewrite Z.land_ones by lia.
    apply Z.mod_small. simpl. lia. }
  rewrite Hland.
  destruct (while_low_bit_clear_terminates (bit_budget a2) a2 0) as (c & t & -> & Ht);
    [lia | unfold bit_budget; lia|].
  destruct (while_low_bit_set_terminates (bit_budget t) t 0) as (n & t' & ->).
  { right. split; [lia|]. unfold bit_budget. lia. }
  rewrite Z.shiftr_0_l, Z.land_0_l. reflexivity.
Qed.

Lemma word_of_bytes_range (lo hi : byte) :
  0 <= Z.lor (Py.ord lo) (Z.shiftl (Py.ord hi) 8) < 65536.
Proof.
  pose proof (ord_range lo) as Hlo. pose proof (ord_range hi) as Hhi.
  assert (Hsh : Z.shiftl (Py.ord hi) 8 = Py.ord hi * 256)
    by (rewrite Z.shiftl_mul_pow2 by lia; reflexivity).
  rewrite Hsh. split; [apply Z.lor_nonneg; lia|].
  destruct (Z.eq_dec (Z.lor (Py.ord lo) (Py.ord hi * 256)) 0) as [->|Hne]; [reflexivity|].
  change 65536 with (2 ^ 16). apply Z.log2_lt_pow2.
  - assert (0 <= Z.lor (Py.ord lo) (Py.ord hi * 256)) by (apply Z.lor_nonneg; lia). lia.
  - rewrite Z.log2_lor by lia. apply Z.max_lub_lt.
    + destruct (Z.eq_dec (Py.ord lo) 0) as [->|]; [reflexivity|].
      apply Z.log2_lt_pow2; lia.
    + destruct (Z.eq_dec (Py.ord hi * 256) 0) as [->|]; [reflexivity|].
      apply Z.log2_lt_pow2; lia.
Qed.

Create HintDb safe.
#[local] Hint Resolve safe_print safe_get_GB safe_get_world safe_normal_debug
  safe_sys_debug safe_get_next_byte safe_get_next_word : safe.

Ltac safe_step :=
  match goal with
  | |- safe_with _ (bind _ _) =>
      first [ eapply safe_bind_with; [solve [eauto with safe] | cbv beta; intros ? ?]
            | eapply (safe_bind_with any); [ | cbv beta; intros ? ?] ]
  | |- safe_with _ (ret _) => apply safe_ret_with; solve [exact I | auto]
  | |- safe_with _ (raise _) => apply safe_raise
  | |- safe_with _ (when _ _) => apply safe_when
  | |- safe_with _ (print _) => apply safe_print
  | |- safe_with _ (if ?b then _ else _) => destruct b
  | |- safe_with _ (match ?x with _ => _ end) => destruct x
  end.

Ltac safe_tac := repeat safe_step.

Lemma safe_read_next_byte : safe_with is_byte read_next_byte.
Proof.
  intros w H0.
  destruct (read_next_byte_cases w H0) as (v & w' & -> & Hv & Hw & _).
  split; [exact Hv|exact Hw].
Qed.
#[local] Hint Resolve safe_read_next_byte : safe.

Lemma safe_read_processed_value : safe_with any read_processed_value.
Proof.
  unfold read_processed_value.
  eapply safe_bind_with; [apply safe_read_next_byte|intros table_index Hti].
  eapply safe_bind_with; [apply safe_get_next_word|intros bit_pattern Hbp].
  eapply (safe_bind_with any); [|intros; safe_tac].
  destruct (negb (bool_decide (table_index = Some 255))); [|apply safe_ret].
  apply safe_lift. unfold extract_bit_field.
  pose proof (extract_bit_field_in_answers word_table table_index bit_pattern) as Hx.
  destruct (extract_bit_field_in word_table table_index bit_pattern);
    [exact I|exact I|].
  apply Hx; [| |reflexivity].
  - intros i ->. simpl in Hti. lia.
  - intros p ->. simpl in Hbp. lia.
Qed.
#[local] Hint Resolve safe_read_processed_value : safe.

Lemma safe_vm_turn_on (next_byte : option Z) (value_stack flag_stack : list Z) :
  safe_with any (vm_turn_on next_byte value_stack flag_stack).
Proof.
  unfold vm_turn_on.
  destruct (bool_decide (next_byte = Some 255)); [apply safe_ret|].
  destruct (bool_decide (next_byte = Some 0)); safe_tac.
Qed.

(** A turn that goes on has consumed at least one byte of the data. *)
Lemma vm_turn_strict (value_stack flag_stack vs' fs' : list Z) (w w' : World) :
  0 <= cursor w ->
  vm_turn value_stack flag_stack w = (Ok (VMContinue vs' fs'), w') ->
  cursor w < cursor w' /\ cursor w < Py.len (command_data (GB w)).
Proof.
  intros H0 H. unfold vm_turn, bind in H.
  destruct (Z_lt_le_dec (cursor w) (Py.len (command_data (GB w)))) as [Hlt|Hge].
  - destruct (read_next_byte_cases w H0) as (v & w1 & Hread & _ & Hw1 & Hc1).
    rewrite Hread in H.
    pose proof (safe_vm_turn_on (Some v) value_stack flag_stack w1
                  (preserved_nonneg _ _ H0 Hw1)) as Hs.
    rewrite H in Hs. destruct Hs as [_ (_ & _ & Hc)].
    specialize (Hc1 Hlt). lia.
  - rewrite (read_next_byte_at_end w Hge) in H. discriminate.
Qed.

Lemma safe_vm_turn (value_stack flag_stack : list Z) :
  safe_with any (vm_turn value_stack flag_stack).
Proof.
  unfold vm_turn. eapply safe_bind_with; [apply safe_read_next_byte|].
  intros. apply safe_vm_turn_on.
Qed.

Lemma vm_loop_safe (fuel : nat) :
  forall (value_stack flag_stack : list Z) (w : World),
    0 <= cursor w ->
    (Z.to_nat (Py.len (command_data (GB w)) - cursor w) < fuel)%nat ->
    match vm_loop fuel value_stack flag_stack w with
    | (Ok _, w') => preserved w w'
    | (Raise _, w') => preserved w w'
    | (Diverge, _) => False
    end.
Proof.
  induction fuel as [|fuel IH]; intros vs fs w H0 Hfuel; [lia|].
  cbn [vm_loop]. unfold bind.
  pose proof (safe_vm_turn vs fs w H0) as Hs.
  destruct (vm_turn vs fs w) as [[[v|vs' fs']|e|] w1] eqn:Hturn; simpl.
  - exact (proj2 Hs).
  - destruct Hs as [_ Hw1].
    destruct (vm_turn_strict vs fs vs' fs' w w1 H0 Hturn) as [Hc Hlt].
    assert (Hd : command_data (GB w1) = command_data (GB w)) by apply Hw1.
    specialize (IH vs' fs' w1 ltac:(lia) ltac:(rewrite Hd; lia)).
    destruct (vm_loop fuel vs' fs' w1) as [[r|e|] w2]; [| |exact IH];
      eapply preserved_trans; eassumption.
  - exact Hs.
  - exact Hs.
Qed.

(** The budget of [execute_vm_code] suffices: from a non-negative cursor it
    returns or raises, and keeps the segments. *)
Theorem safe_execute_vm_code : safe_with any execute_vm_code.
Proof.
  intros w H0. unfold execute_vm_code.
  pose proof (vm_loop_safe (vm_budget w) [] [] w H0) as H.
  unfold vm_budget, cursor in *. specialize (H ltac:(lia)).
  destruct (vm_loop _ [] [] w) as [[r|e|] w']; [split; [exact I|exact H]|exact H|exact H].
Qed.

(** *** The two dispatchers *)

#[local] Hint Resolve safe_execute_vm_code : safe.

Lemma read_C_string_loop_answers (fuel : nat) :
  forall (data acc : list byte) (off : Z),
    (Z.to_nat (Py.len data - off) < fuel)%nat ->
    read_C_string_loop fuel data acc off <> Diverge.
Proof.
  induction fuel as [|fuel IH]; intros data acc off Hfuel; [lia|].
  simpl. destruct (off <? Py.len data) eqn:E; [|discriminate].
  apply Z.ltb_lt in E.
  destruct (Py.getitem data off) as [current_byte|]; [|discriminate].
  destruct (Py.ord current_byte =? 0).
  - destruct (off + 1 <? Py.len data); [|discriminate].
    destruct (Py.getitem data (off + 1)) as [next|]; [|discriminate].
    destruct (Py.ord next =? 0); discriminate.
  - destruct (5000 <? Py.len (Py.append acc current_byte)); [discriminate|].
    apply IH. lia.
Qed.

Lemma safe_execute_multiple (count : nat) : safe_with any (execute_multiple count).
Proof.
  induction count as [|count IH]; simpl; [apply safe_ret|].
  eapply safe_bind_with; [apply safe_execute_vm_code|intros r _].
  eapply safe_bind_with; [apply IH|intros rest _]. apply safe_ret.
Qed.
#[local] Hint Resolve safe_execute_multiple : safe.

Lemma safe_execute_single : safe_with any execute_single.
Proof. exact safe_execute_vm_code. Qed.
#[local] Hint Resolve safe_execute_single : safe.

Lemma safe_set_name_cache (nc : NameCache) : safe_with any (set_name_cache nc).
Proof. intros w _. split; [exact I|apply preserved_name_cache]. Qed.
#[local] Hint Resolve safe_set_name_cache : safe.

Lemma safe_cache_name (offset : Z) (name : string) : safe_with any (cache_name offset name).
Proof. unfold cache_name. safe_tac. Qed.
#[local] Hint Resolve safe_cache_name : safe.

Section SafeCodec.

Variable decode_shift_jis : list byte -> option string.
Variable decode_cp932 : list byte -> option string.

Lemma safe_read_C_string (data : list byte) (txt_offset : option Z) :
  safe_with any (read_C_string decode_shift_jis decode_cp932 data txt_offset).
Proof.
  unfold read_C_string. destruct txt_offset as [off|]; [|apply safe_raise].
  eapply (safe_bind_with any).
  - apply safe_lift.
    pose proof (read_C_string_loop_answers (S (Z.to_nat (Py.len data - off))) data [] off
                  ltac:(lia)) as H.
    destruct (read_C_string_loop _ data [] off); [exact I|exact I|congruence].
  - intros [acc current_offset] _. safe_tac.
Qed.
#[local] Hint Resolve safe_read_C_string : safe.

Lemma safe__handle_string_opcode (current_offset : Z) :
  safe_with any (_handle_string_opcode decode_shift_jis decode_cp932 current_offset).
Proof. unfold _handle_string_opcode. safe_tac. Qed.

Lemma safe__handle_vm_results (count : nat) (what : string) (current_offset : Z) :
  safe_with any (_handle_vm_results count what current_offset).
Proof. unfold _handle_vm_results. safe_tac. Qed.

Lemma safe__handle_unknown_opcode (opcode current_offset : Z) :
  safe_with any (_handle_unknown_opcode opcode current_offset).
Proof. unfold _handle_unknown_opcode. safe_tac. Qed.

Lemma safe_call_handler (h : Handler) (current_offset : Z) :
  safe_with any (call_handler decode_shift_jis decode_cp932 h current_offset).
Proof.
  destruct h; unfold call_handler;
    try apply safe__handle_vm_results;
    try (eapply safe_bind_with; [apply safe__handle_string_opcode|intros; apply safe_ret]);
    unfold _handle_newline, _handle_simple_execution, _handle_simple_vm_execution,
      _handle_double_vm_execution, _handle_play_mpg_video, _handle_scenario_vm,
      _handle_get_choice_hints, _handle_unk_0x09, _handle_show_images,
      _handle_unk_0xA6, _handle_unk_0x6C;
    safe_tac.
Qed.


#[local] Hint Resolve safe_call_handler safe__handle_unknown_opcode : safe.

Lemma safe_process_single_command :
  safe_with any (process_single_command decode_shift_jis decode_cp932).
Proof.
  unfold process_single_command. apply safe_try_except; [|intros e]; safe_tac.
Qed.
#[local] Hint Resolve safe_process_single_command : safe.

(** A call of [process_single_command] that does not return -1 has consumed
    its opcode byte. *)
Lemma process_single_command_strict (w w' : World) (r : Z) :
  0 <= cursor w ->
  process_single_command decode_shift_jis decode_cp932 w = (Ok r, w') ->
  r <> -1 ->
  cursor w < cursor w'.
Proof.
  intros H0 H Hr. unfold process_single_command, try_except in H.
  match type of H with
  | (let (_, _) := ?m w in _) = _ => destruct (m w) as [[r0|e|] w1] eqn:Hin
  end.
  - injection H as -> ->. unfold bind at 1 in Hin. unfold get_GB at 1 in Hin.
    cbv beta iota in Hin.
    destruct (Py.len (command_data (GB w)) <=? command_data_offset (GB w)) eqn:E.
    { unfold ret in Hin. injection Hin as Hin _. lia. }
    apply Z.leb_gt in E.
    destruct (getitem_in_range (command_data (GB w)) _ (conj H0 E)) as [b Hb].
    unfold bind at 1 in Hin. rewrite (read_next_opcode_in_range w b H0 Hb) in Hin.
    match type of Hin with
    | ?k ?w1 = _ =>
        assert (Hk : safe_with any k) by safe_tac;
        specialize (Hk w1 ltac:(unfold cursor in *; simpl; lia))
    end.
    rewrite Hin in Hk. destruct Hk as [_ (_ & _ & Hc)].
    unfold cursor in *. simpl in Hc. lia.
  - unfold bind, normal_debug, when, print, ret in H.
    destruct (Normal_debug (the_normal w1)); injection H as H _; lia.
  - discriminate.
Qed.

Lemma process_all_commands_loop_safe (fuel : nat) :
  forall w : World,
    0 <= cursor w ->
    (Z.to_nat (Py.len (command_data (GB w)) - cursor w) < fuel)%nat ->
    match process_all_commands_loop decode_shift_jis decode_cp932 fuel w with
    | (Ok _, w') => preserved w w'
    | (Raise _, w') => preserved w w'
    | (Diverge, _) => False
    end.
Proof.
  induction fuel as [|fuel IH]; intros w H0 Hfuel; [lia|].
  cbn [process_all_commands_loop]. unfold bind at 1. unfold get_GB at 1.
  cbv beta iota.
  destruct (command_data_offset (GB w) <? Py.len (command_data (GB w))) eqn:E;
    [|apply preserved_refl].
  apply Z.ltb_lt in E. unfold bind.
  pose proof (safe_process_single_command w H0) as Hs.
  destruct (process_single_command decode_shift_jis decode_cp932 w)
    as [[r|e|] w1] eqn:Hsingle; [|exact Hs|exact Hs].
  destruct Hs as [_ Hw1].
  destruct (r =? -1) eqn:Er; [exact Hw1|]. apply Z.eqb_neq in Er.
  pose proof (process_single_command_strict w w1 r H0 Hsingle Er) as Hc.
  assert (Hd : command_data (GB w1) = command_data (GB w)) by apply Hw1.
  specialize (IH w1 ltac:(lia) ltac:(rewrite Hd; unfold cursor in *; lia)).
  destruct (process_all_commands_loop decode_shift_jis decode_cp932 fuel w1)
    as [[u|e|] w2]; [| |exact IH]; eapply preserved_trans; eassumption.
Qed.

Lemma safe_process_all_commands :
  safe_with any (process_all_commands decode_shift_jis decode_cp932).
Proof.
  unfold process_all_commands. apply safe_try_except; [|intros e; safe_tac].
  intros w H0.
  pose proof (process_all_commands_loop_safe (pass_budget w) w H0) as H.
  unfold pass_budget, cursor in *. specialize (H ltac:(lia)).
  destruct (process_all_commands_loop _ _ _ w) as [[u|e|] w'];
    [split; [exact I|exact H]|exact H|exact H].
Qed.


Lemma _get_next_byte_cases (w : World) :
  0 <= cursor w ->
  (Py.len (command_data (GB w)) <= cursor w /\ _get_next_byte w = (Ok None, w)) \/
  (cursor w < Py.len (command_data (GB w)) /\
   exists v, _get_next_byte w = (Ok (Some v), with_offset w (cursor w + 1))
             /\ 0 <= v < 256).
Proof.
  intros H0. unfold cursor in *.
  destruct (Z_lt_le_dec (command_data_offset (GB w)) (Py.len (command_data (GB w))))
    as [Hlt|Hge].
  - right. split; [exact Hlt|].
    destruct (getitem_in_range (command_data (GB w)) _ (conj H0 Hlt)) as [b Hb].
    exists (Py.ord b). split; [apply (_get_next_byte_in_range w b H0 Hb)|apply ord_range].
  - left. split; [exact Hge|]. unfold _get_next_byte, bind, get_GB.
    apply Z.leb_le in Hge. rewrite Hge. reflexivity.
Qed.

Lemma safe__get_next_byte : safe_with is_byte _get_next_byte.
Proof.
  intros w H0.
  destruct (_get_next_byte_cases w H0) as [[_ ->] | (_ & v & -> & Hv)].
  - split; [exact I|apply preserved_refl].
  - split; [exact Hv|]. apply preserved_offset. lia.
Qed.

Lemma safe__get_next_word : safe_with is_word _get_next_word.
Proof.
  intros w H0. unfold cursor in H0. unfold _get_next_word, bind, get_GB.
  destruct (Py.len (command_data (GB w)) <=? command_data_offset (GB w) + 1) eqn:E.
  - split; [exact I|apply preserved_refl].
  - apply Z.leb_gt in E.
    destruct (getitem_in_range (command_data (GB w)) (command_data_offset (GB w)))
      as [lo ->]; [lia|].
    destruct (getitem_in_range (command_data (GB w)) (command_data_offset (GB w) + 1))
      as [hi ->]; [lia|].
    simpl. split; [apply word_of_bytes_range|].
    apply preserved_offset. unfold cursor. lia.
Qed.

Lemma safe__safe_get_next_byte : safe_with any _safe_get_next_byte.
Proof.
  unfold _safe_get_next_byte.
  eapply safe_bind_with; [apply safe__get_next_byte|intros o Ho].
  destruct o; [apply safe_ret|apply safe_raise].
Qed.

Lemma safe__safe_get_next_word : safe_with is_word_value _safe_get_next_word.
Proof.
  unfold _safe_get_next_word.
  eapply safe_bind_with; [apply safe__get_next_word|intros o Ho].
  destruct o; [apply safe_ret_with; exact Ho|apply safe_raise].
Qed.
#[local] Hint Resolve safe__get_next_byte safe__get_next_word
  safe__safe_get_next_byte safe__safe_get_next_word : safe.

Lemma safe__evaluate_expression : safe_with any _evaluate_expression.
Proof. exact safe_execute_vm_code. Qed.

Lemma safe__main_interpreter :
  safe_with any (_main_interpreter decode_shift_jis decode_cp932).
Proof. exact safe_process_single_command. Qed.
#[local] Hint Resolve safe__evaluate_expression safe__main_interpreter : safe.

Lemma safe_switch_case_loop (remaining : nat) :
  forall (i processed_switch_param : Z) (found_match : bool),
    safe_with any (switch_case_loop remaining i processed_switch_param found_match).
Proof.
  induction remaining as [|remaining IH]; intros i x found; simpl; [apply safe_ret|].
  safe_tac; apply IH.
Qed.
#[local] Hint Resolve safe_switch_case_loop : safe.

Lemma safe_switch_case_scan (processed_switch_param case_count default_target : Z) :
  safe_with any (switch_case_scan processed_switch_param case_count default_target).
Proof. unfold switch_case_scan. safe_tac. Qed.
#[local] Hint Resolve safe_switch_case_scan : safe.

Lemma safe__handle_switch_case (current_offset : Z) :
  safe_with any (_handle_switch_case current_offset).
Proof.
  unfold _handle_switch_case. safe_tac.
  - apply safe_lift.
    match goal with
    | H : is_word_value ?v |- context [_sub_414FE6 ?a ?v] =>
        rewrite (_sub_414FE6_zero a v H)
    end.
    exact I.
  - apply safe_switch_case_scan.
Qed.

Lemma skip_zero_padding_safe (fuel : nat) :
  forall (next_byte : option Z) (w : World),
    0 <= cursor w ->
    (Z.to_nat (Py.len (command_data (GB w)) - cursor w) < fuel)%nat ->
    match skip_zero_padding fuel next_byte w with
    | (Ok _, w') => preserved w w'
    | (Raise _, w') => preserved w w'
    | (Diverge, _) => False
    end.
Proof.
  induction fuel as [|fuel IH]; intros next_byte w H0 Hfuel; [lia|].
  cbn [skip_zero_padding].
  destruct (bool_decide (next_byte = Some 0)); [|apply preserved_refl].
  unfold bind.
  destruct (_get_next_byte_cases w H0) as [[_ ->] | (Hlt & v & -> & _)];
    [apply preserved_refl|].
  assert (Hw1 : preserved w (with_offset w (cursor w + 1)))
    by (apply preserved_offset; lia).
  specialize (IH (Some v) (with_offset w (cursor w + 1))
                 ltac:(unfold cursor in *; simpl; lia)
                 ltac:(unfold cursor in *; simpl; lia)).
  destruct (skip_zero_padding fuel (Some v) _) as [[u|e|] w2]; [| |exact IH];
    eapply preserved_trans; eassumption.
Qed.

Lemma safe__handle_scenario_load_opcode (current_offset : Z) :
  safe_with any (_handle_scenario_load_opcode current_offset).
Proof.
  unfold _handle_scenario_load_opcode, _handle_scenario_load. safe_tac.
  all: intros w Hcur;
    match goal with
    | |- context [skip_zero_padding _ ?nb w] =>
        pose proof (skip_zero_padding_safe (pass_budget w) nb w Hcur) as Hskip
    end;
    unfold pass_budget, cursor in *; specialize (Hskip ltac:(lia));
    destruct (skip_zero_padding _ _ w) as [[u|e|] w'];
    [split; [exact I|exact Hskip]|exact Hskip|exact Hskip].
Qed.

Lemma safe_call_sys_handler (h : SysHandler) (current_offset : Z) :
  safe_with any (call_sys_handler decode_shift_jis decode_cp932 h current_offset).
Proof.
  destruct h; unfold call_sys_handler;
    try apply safe__handle_switch_case;
    try apply safe__handle_scenario_load_opcode;
    unfold _handle_conditional_jump, _handle_return, _handle_scenario_call,
      _handle_end_processing, _handle_conditional_skip, _handle_basic_operation,
      _handle_play_wav_opcode, _handle_play_wav, _handle_audio_operation,
      _handle_audio_op, _handle_simple_jump, _handle_call_operation_opcode,
      _handle_call_operation;
    safe_tac.
Qed.
#[local] Hint Resolve safe_call_sys_handler : safe.

Lemma safe__process_opcode (opcode current_offset : Z) :
  safe_with any (_process_opcode decode_shift_jis decode_cp932 opcode current_offset).
Proof.
  unfold _process_opcode, _process_extended_opcode, _process_basic_opcode.
  safe_tac; apply safe_call_sys_handler.
Qed.

Lemma process_sys_calls_loop_safe (fuel : nat) :
  forall w : World,
    0 <= cursor w ->
    (Z.to_nat (Py.len (command_data (GB w)) - cursor w) < fuel)%nat ->
    match process_sys_calls_loop decode_shift_jis decode_cp932 fuel w with
    | (Ok _, w') => preserved w w'
    | (Raise _, w') => preserved w w'
    | (Diverge, _) => False
    end.
Proof.
  induction fuel as [|fuel IH]; intros w H0 Hfuel; [lia|].
  cbn [process_sys_calls_loop]. unfold bind at 1. unfold get_GB at 1.
  cbv beta iota.
  destruct (command_data_offset (GB w) <? Py.len (command_data (GB w))) eqn:E;
    [|apply preserved_refl].
  apply Z.ltb_lt in E. unfold bind at 1.
  destruct (_get_next_byte_cases w H0) as [[Hge _] | (_ & v & -> & _)];
    [unfold cursor in Hge; lia|].
  set (w1 := with_offset w (cursor w + 1)).
  assert (Hw1 : preserved w w1) by (apply preserved_offset; lia).
  assert (H1 : 0 <= cursor w1) by (unfold w1, cursor in *; simpl; lia).
  match goal with
  | |- context [bind ?m ?k w1] =>
      assert (Hm : safe_with any (bind m (fun _ => ret tt)))
        by (safe_tac; apply safe__process_opcode)
  end.
  unfold bind at 1. unfold sys_debug at 1. cbv beta iota.
  unfold bind at 1.
  match goal with
  | |- context [when ?d ?p w1] =>
      pose proof (safe_when d p (safe_print _) w1 H1) as Hp;
      destruct (when d p w1) as [[u|e|] w2] eqn:Hwhen
  end; [|exact (preserved_trans _ _ _ Hw1 Hp)|exact Hp].
  destruct Hp as [_ Hw2].
  assert (H2 : 0 <= cursor w2) by (eapply preserved_nonneg; eassumption).
  unfold bind at 1.
  pose proof (safe__process_opcode v (command_data_offset (GB w)) w2 H2) as Ho.
  destruct (_process_opcode decode_shift_jis decode_cp932 v _ w2) as [[u'|e|] w3];
    [| |exact Ho].
  2:{ eapply preserved_trans; [exact Hw1|]. eapply preserved_trans; eassumption. }
  destruct Ho as [_ Hw3].
  assert (Hw13 : preserved w1 w3) by (eapply preserved_trans; eassumption).
  assert (Hd : command_data (GB w3) = command_data (GB w)).
  { destruct Hw13 as (-> & _). reflexivity. }
  assert (Hc : cursor w + 1 <= cursor w3).
  { destruct Hw13 as (_ & _ & Hc). unfold w1, cursor in *. simpl in Hc. exact Hc. }
  specialize (IH w3 ltac:(lia) ltac:(rewrite Hd; unfold cursor in *; lia)).
  destruct (process_sys_calls_loop decode_shift_jis decode_cp932 fuel w3)
    as [[u''|e|] w4]; [| |exact IH];
    (eapply preserved_trans; [exact Hw1|]; eapply preserved_trans; eassumption).
Qed.

(** The decoder always ends: from a non-negative cursor [process_sys_calls]
    returns within the budgets of all its loops, and leaves the two
    segments as they were. *)
Theorem safe_process_sys_calls :
  safe_with any (process_sys_calls decode_shift_jis decode_cp932).
Proof.
  unfold process_sys_calls. apply safe_try_except.
  - intros w H0.
    pose proof (process_sys_calls_loop_safe (pass_budget w) w H0) as H.
    unfold pass_budget, cursor in *. specialize (H ltac:(lia)).
    destruct (process_sys_calls_loop _ _ _ w) as [[u|e|] w'];
      [split; [exact I|exact H]|exact H|exact H].
  - intros e. destruct e; apply safe_print.
Qed.

End SafeCodec.

(** ** A decode run always comes back *)

(** A decode run always comes back: whatever the command data, from a
    non-negative cursor [process_sys_calls] returns normally, every
    exception of a handler having been printed. *)
Theorem process_sys_calls_returns
    (decode_shift_jis decode_cp932 : list byte -> option string) (w : World) :
  0 <= cursor w ->
  exists w', process_sys_calls decode_shift_jis decode_cp932 w = (Ok tt, w')
             /\ preserved w w'.
Proof.
  intros H0.
  pose proof (safe_process_sys_calls decode_shift_jis decode_cp932 w H0) as Hs.
  unfold process_sys_calls, try_except in *.
  destruct (process_sys_calls_loop decode_shift_jis decode_cp932 (pass_budget w) w)
    as [[[]|e|] w1].
  - exists w1. split; [reflexivity|exact (proj2 Hs)].
  - destruct e; unfold print in *; simpl in *; eexists; (split; [reflexivity|exact (proj2 Hs)]).
  - contradiction.
Qed.

(** After [_setup_global_buffers] the cursor is 0. *)
Lemma _setup_global_buffers_cursor
    (data : list byte) (header : FileHeader) (w w' : World) :
  _setup_global_buffers data header w = (Ok tt, w') -> cursor w' = 0.
Proof.
  unfold _setup_global_buffers.
  destruct (Py.len data <? _); [discriminate|].
  intros [= <-]. reflexivity.
Qed.

(** ** The switch/case handler and its parameter *)

(** X24: in [_handle_switch_case] the processed parameter is always 0,
    whatever the raw parameter and the switch value: after the six bytes of
    its header the handler is the scan of the cases with parameter 0. *)
Lemma _handle_switch_case_scans_with_zero
    (w : World) (pre rest : list byte) (raw vlo vhi dlo dhi count : byte)
    (current_offset : Z) :
  SysCall_debug (sys_call_executer w) = true ->
  command_data (GB w) = pre ++ raw :: vlo :: vhi :: dlo :: dhi :: count :: rest ->
  command_data_offset (GB w) = Py.len pre ->
  _handle_switch_case current_offset w
  = switch_case_scan 0 (Py.ord count)
      (Z.lor (Py.ord dlo) (Z.shiftl (Py.ord dhi) 8))
      (with_stdout (with_offset w (Py.len pre + 6))
         (stdout w ++ [SwitchOperation current_offset;
                       SwitchRaw (Py.ord raw)
                                 (Z.lor (Py.ord vlo) (Z.shiftl (Py.ord vhi) 8))])).
Proof.
  intros Hdbg Hd Ho. unfold _handle_switch_case.
  unfold bind at 1. unfold sys_debug at 1. rewrite Hdbg. cbv beta iota.
  unfold bind at 1. unfold when at 1, print at 1. cbv beta iota.
  set (w0 := with_stdout w (stdout w ++ [SwitchOperation current_offset])).
  unfold bind at 1.
  rewrite (_safe_get_next_byte_here w0 pre _ raw Hd Ho).
  unfold bind at 1.
  rewrite (_safe_get_next_word_here (with_offset w0 (Py.len pre + 1)) (pre ++ [raw])
             (dlo :: dhi :: count :: rest) vlo vhi); cycle 1.
  { simpl. rewrite Hd, <- List.app_assoc. reflexivity. }
  { simpl. rewrite len_app. reflexivity. }
  unfold bind at 1.
  rewrite (_safe_get_next_word_here _ (pre ++ [raw; vlo; vhi])
             (count :: rest) dlo dhi); cycle 1.
  { simpl. rewrite Hd, <- List.app_assoc. reflexivity. }
  { simpl. rewrite !len_app. unfold Py.len. simpl List.length. lia. }
  unfold bind at 1.
  rewrite (_safe_get_next_byte_here _ (pre ++ [raw; vlo; vhi; dlo; dhi]) rest count);
    cycle 1.
  { simpl. rewrite Hd, <- List.app_assoc. reflexivity. }
  { simpl. rewrite !len_app. unfold Py.len. simpl List.length. lia. }
  unfold bind at 1. unfold when at 1, print at 1. cbv beta iota.
  unfold bind at 1. unfold lift.
  rewrite (_sub_414FE6_zero _ _ (word_of_bytes_range vlo vhi)).
  f_equal. unfold w0, with_stdout, with_offset, with_GB. simpl.
  f_equal.
  - f_equal. rewrite !len_app. unfold Py.len. simpl List.length. lia.
  - rewrite <- List.app_assoc. reflexivity.
Qed.

(** With raw parameter 7 and switch value 1 the one case of value 0 matches:
    the parameter compared is 0. *)
Lemma _handle_switch_case_scans_with_zero_example :
  _handle_switch_case 0 (with_offset (world_of_commands [9; 7; 1;0; 4;0; 1; 0; 8;0]) 1)
  = (Ok tt,
     with_stdout (with_offset (world_of_commands [9; 7; 1;0; 4;0; 1; 0; 8;0]) 10)
       [SwitchOperation 0; SwitchRaw 7 1; SwitchProcessed 0; SwitchComparing 0 1 4;
        SwitchCase 0 0 8; SwitchMatchFound 0 0; SwitchTargetWouldBe 8]).
Proof.
  refine (eq_trans
            (_handle_switch_case_scans_with_zero
               (with_offset (world_of_commands [9; 7; 1;0; 4;0; 1; 0; 8;0]) 1)
               (Py.bytes [9]) (Py.bytes [0; 8; 0])
               (Py.byte_of 7) (Py.byte_of 1) (Py.byte_of 0) (Py.byte_of 4) (Py.byte_of 0)
               (Py.byte_of 1) 0 eq_refl eq_refl eq_refl) _).
  vm_compute. reflexivity.
Defined.

(** ** Utilities.py: the struct readers and writers, and the header *)

Lemma ord_byte_of (z : Z) : 0 <= z < 256 -> Py.ord (Py.byte_of z) = z.
Proof.
  intros Hz. unfold Py.ord, Py.byte_of.
  destruct (Byte.of_N (Z.to_N z)) as [b|] eqn:E.
  - apply Byte.to_of_N in E. rewrite E. lia.
  - apply Byte.of_N_None_iff in E. lia.
Qed.

Lemma byte_of_ord (b : byte) : Py.byte_of (Py.ord b) = b.
Proof.
  unfold Py.ord, Py.byte_of. rewrite N2Z.id, Byte.of_to_N. reflexivity.
Qed.

Lemma length_bytes_little (n : nat) : forall v, List.length (bytes_little n v) = n.
Proof. induction n as [|n IH]; intros v; simpl; [reflexivity|]. now rewrite IH. Qed.

Lemma uint_of_bytes_little (n : nat) :
  forall v, uint_of_bytes (bytes_little n v) = v mod 256 ^ Z.of_nat n.
Proof.
  induction n as [|n IH]; intros v.
  - simpl. rewrite Z.mod_1_r. reflexivity.
  - cbn [bytes_little]. unfold uint_of_bytes in *. cbn [List.map int_from_bytes_little].
    rewrite IH, ord_byte_of by (apply Z.mod_pos_bound; lia).
    rewrite Nat2Z.inj_succ, Z.pow_succ_r by lia.
    rewrite Z.rem_mul_r by (try apply Z.pow_pos_nonneg; lia). reflexivity.
Qed.

Lemma uint_of_bytes_range (raw : list byte) :
  0 <= uint_of_bytes raw < 256 ^ Py.len raw.
Proof.
  unfold uint_of_bytes, Py.len. induction raw as [|b raw IH].
  - simpl. lia.
  - cbn [List.map int_from_bytes_little List.length].
    rewrite Nat2Z.inj_succ, Z.pow_succ_r by lia.
    pose proof (ord_range b). lia.
Qed.

Lemma bytes_little_uint (raw : list byte) :
  bytes_little (List.length raw) (uint_of_bytes raw) = raw.
Proof.
  unfold uint_of_bytes. induction raw as [|b raw IH]; [reflexivity|].
  cbn [List.map int_from_bytes_little List.length bytes_little].
  pose proof (ord_range b) as Hb.
  replace ((Py.ord b + 256 * int_from_bytes_little (List.map Py.ord raw)) mod 256)
    with (Py.ord b).
  2:{ rewrite (Z.mul_comm 256), Z.mod_add by lia. symmetry. apply Z.mod_small. lia. }
  replace ((Py.ord b + 256 * int_from_bytes_little (List.map Py.ord raw)) / 256)
    with (int_from_bytes_little (List.map Py.ord raw)).
  2:{ rewrite (Z.mul_comm 256), Z.div_add by lia.
      rewrite (Z.div_small (Py.ord b)) by lia. lia. }
  rewrite byte_of_ord, IH. reflexivity.
Qed.

Lemma slice_middle {A : Type} (pre mid post : list A) :
  Py.slice (pre ++ mid ++ post) (Py.len pre) (Py.len pre + Py.len mid) = mid.
Proof.
  pose proof (len_nonneg pre). pose proof (len_nonneg mid).
  rewrite slice_in_range by (rewrite ?len_app; pose proof (len_nonneg post); lia).
  replace (Py.len pre + Py.len mid - Py.len pre) with (Py.len mid) by lia.
  unfold Py.len. rewrite !Nat2Z.id.
  rewrite List.skipn_app, List.skipn_all, Nat.sub_diag, List.skipn_O.
  cbn [List.app].
  rewrite List.firstn_app, List.firstn_all, Nat.sub_diag, List.firstn_O.
  apply List.app_nil_r.
Qed.

Lemma calcsize_cases (fmt : StructFormat) :
  (calcsize fmt = 2 /\ 2 ^ (8 * calcsize fmt) = 65536
   /\ 2 ^ (8 * calcsize fmt - 1) = 32768) \/
  (calcsize fmt = 4 /\ 2 ^ (8 * calcsize fmt) = 4294967296
   /\ 2 ^ (8 * calcsize fmt - 1) = 2147483648).
Proof. destruct fmt; simpl; auto. Qed.

Lemma struct_value_of_bytes_little (fmt : StructFormat) (v : Z) :
  format_min fmt <= v <= format_max fmt ->
  struct_value fmt
    (bytes_little (Z.to_nat (calcsize fmt)) (v mod 2 ^ (8 * calcsize fmt))) = v.
Proof.
  intros Hv. unfold struct_value. rewrite uint_of_bytes_little.
  assert (Hpow : 256 ^ Z.of_nat (Z.to_nat (calcsize fmt)) = 2 ^ (8 * calcsize fmt))
    by (destruct fmt; reflexivity).
  rewrite Hpow. rewrite Z.mod_mod by (destruct fmt; simpl; lia).
  unfold format_min, format_max in *.
  destruct (calcsize_cases fmt) as [(Hs & Hp & Hh) | (Hs & Hp & Hh)];
    rewrite ?Hp, ?Hh in *; destruct (format_signed fmt); cbn [andb].
  all: try (rewrite Z.mod_small by lia; reflexivity).
  all: destruct (Z_lt_le_dec v 0) as [Hneg|Hpos].
  all: try (rewrite (Z.mod_small v) by lia;
            destruct (_ <? v) eqn:E; [apply Z.ltb_lt in E; lia|reflexivity]).
  - assert (Hm : v mod 65536 = v + 65536).
    { symmetry. apply (Z.mod_unique v 65536 (-1)); lia. }
    rewrite Hm. destruct (_ <? _) eqn:E; [lia|apply Z.ltb_ge in E; lia].
  - assert (Hm : v mod 4294967296 = v + 4294967296).
    { symmetry. apply (Z.mod_unique v 4294967296 (-1)); lia. }
    rewrite Hm. destruct (_ <? _) eqn:E; [lia|apply Z.ltb_ge in E; lia].
Qed.

(** X1: a number within the range of a format is packed by [struct.pack]
    into exactly [calcsize] bytes, low byte first, and [_read_struct] reads
    the same number back from those bytes at the offset where they lie in a
    buffer, whatever stands before and after them. *)
Theorem struct_pack_unpack_round_trip
    (fmt : StructFormat) (v : Z) (pre post : list byte) :
  format_min fmt <= v <= format_max fmt ->
  exists raw : list byte,
    pack fmt v = Ok raw
    /\ Py.len raw = calcsize fmt
    /\ _read_struct fmt (pre ++ raw ++ post) (Py.len pre) = Ok v.
Proof.
  intros Hv. unfold pack.
  destruct ((format_min fmt <=? v) && (v <=? format_max fmt)) eqn:E.
  2:{ apply andb_false_iff in E. destruct E as [E|E]; apply Z.leb_gt in E; lia. }
  eexists. split; [reflexivity|].
  set (raw := bytes_little _ _).
  assert (Hlen : Py.len raw = calcsize fmt).
  { unfold raw, Py.len. rewrite length_bytes_little. destruct fmt; reflexivity. }
  split; [exact Hlen|].
  unfold _read_struct, unpack_from.
  pose proof (len_nonneg pre) as Hpre. pose proof (len_nonneg post) as Hpost.
  destruct (Py.len pre <? 0) eqn:E0; [apply Z.ltb_lt in E0; lia|]. cbn [andb].
  rewrite !len_app, Hlen.
  destruct (_ <? calcsize fmt) eqn:E1; [apply Z.ltb_lt in E1; lia|].
  replace (Py.len pre + calcsize fmt) with (Py.len pre + Py.len raw) by lia.
  rewrite slice_middle.
  unfold raw. rewrite struct_value_of_bytes_little by exact Hv. reflexivity.
Qed.

Lemma struct_pack_unpack_round_trip_example :
  write_int16 (-2) = Ok (Py.bytes [254; 255])
  /\ read_int16 (Py.bytes [7; 254; 255; 9]) 1 = Ok (-2).
Proof.
  destruct (struct_pack_unpack_round_trip fmt_h (-2) (Py.bytes [7]) (Py.bytes [9])
              ltac:(vm_compute; split; discriminate)) as (raw & Hpack & _ & Hread).
  vm_compute in Hpack. injection Hpack as <-. split; [reflexivity|exact Hread].
Defined.

Lemma struct_value_range (fmt : StructFormat) (raw : list byte) :
  Py.len raw = calcsize fmt ->
  format_min fmt <= struct_value fmt raw <= format_max fmt
  /\ struct_value fmt raw mod 2 ^ (8 * calcsize fmt) = uint_of_bytes raw.
Proof.
  intros Hlen. pose proof (uint_of_bytes_range raw) as Hu. rewrite Hlen in Hu.
  assert (Hpow : 256 ^ calcsize fmt = 2 ^ (8 * calcsize fmt)) by (destruct fmt; reflexivity).
  rewrite Hpow in Hu. unfold struct_value, format_min, format_max in *.
  destruct (calcsize_cases fmt) as [(Hs & Hp & Hh) | (Hs & Hp & Hh)];
    rewrite ?Hp, ?Hh in *; destruct (format_signed fmt); cbn [andb].
  all: try (split; [lia|apply Z.mod_small; lia]).
  all: destruct (_ <? uint_of_bytes raw) eqn:E;
    [apply Z.ltb_lt in E|apply Z.ltb_ge in E];
    (split; [lia|]);
    try (apply Z.mod_small; lia).
  - symmetry. apply (Z.mod_unique _ 65536 (-1)); lia.
  - symmetry. apply (Z.mod_unique _ 4294967296 (-1)); lia.
Qed.

(** X2: any [calcsize] bytes at the start of a buffer are read by
    [_read_struct] at offset 0 as the number they stand for (two's complement
    for the signed formats), and packing that number gives the same bytes
    back. *)
Theorem struct_unpack_pack_round_trip
    (fmt : StructFormat) (raw post : list byte) :
  Py.len raw = calcsize fmt ->
  _read_struct fmt (raw ++ post) 0 = Ok (struct_value fmt raw)
  /\ pack fmt (struct_value fmt raw) = Ok raw.
Proof.
  intros Hlen. destruct (struct_value_range fmt raw Hlen) as [Hr Hm]. split.
  - unfold _read_struct, unpack_from. cbn [Z.ltb Z.compare andb].
    rewrite len_app, Hlen. pose proof (len_nonneg post) as Hpost.
    destruct (_ <? calcsize fmt) eqn:E; [apply Z.ltb_lt in E; lia|].
    pose proof (slice_middle [] raw post) as Hs. cbn [List.app] in Hs.
    change (Py.len []) with 0 in Hs. rewrite Hlen in Hs. rewrite Hs. reflexivity.
  - unfold pack.
    destruct ((format_min fmt <=? _) && (_ <=? format_max fmt)) eqn:E.
    2:{ apply andb_false_iff in E. destruct E as [E|E]; apply Z.leb_gt in E; lia. }
    rewrite Hm. f_equal.
    replace (Z.to_nat (calcsize fmt)) with (List.length raw)
      by (unfold Py.len in Hlen; lia).
    apply bytes_little_uint.
Qed.

Lemma struct_unpack_pack_round_trip_example :
  read_uint32_at (Py.bytes [1; 2; 3; 4; 5]) 0 = Ok 67305985
  /\ write_uint32 67305985 = Ok (Py.bytes [1; 2; 3; 4]).
Proof.
  exact (struct_unpack_pack_round_trip fmt_I (Py.bytes [1; 2; 3; 4]) (Py.bytes [5])
           eq_refl).
Defined.

Lemma _parse_header_layout (b0 b1 b2 b3 b4 b5 b6 b7 b8 b9 b10 b11 : byte)
    (rest : list byte) :
  _parse_header (b0 :: b1 :: b2 :: b3 :: b4 :: b5 :: b6 :: b7 :: b8 :: b9 :: b10
                    :: b11 :: rest)
  = Ok (mkFileHeader (uint_of_bytes [b0; b1; b2; b3]) (uint_of_bytes [b4; b5])
                     (uint_of_bytes [b6; b7]) (uint_of_bytes [b8; b9])
                     (uint_of_bytes [b10; b11])).
Proof.
  unfold _parse_header.
  set (data := b0 :: _).
  assert (Hlen : 12 <= Py.len data).
  { unfold data, Py.len. cbn [List.length]. lia. }
  destruct (Py.len data <? 12) eqn:E; [apply Z.ltb_lt in E; lia|].
  unfold Py.slice_to. rewrite (slice_in_range data 0 12) by lia.
  unfold data. simpl. unfold uint_of_bytes. simpl.
  f_equal. f_equal; lia.
Qed.

(** X3: a header written field after field with [write_uint32] and
    [write_uint16] is parsed by [_parse_header] into the same five fields,
    whatever follows its 12 bytes. *)
Theorem parse_header_of_written_fields (r1 a b c r2 : Z) (rest : list byte) :
  0 <= r1 < 4294967296 ->
  0 <= a < 65536 -> 0 <= b < 65536 -> 0 <= c < 65536 -> 0 <= r2 < 65536 ->
  exists h1 ha hb hc h2 : list byte,
    write_uint32 r1 = Ok h1 /\ write_uint16 a = Ok ha /\ write_uint16 b = Ok hb
    /\ write_uint16 c = Ok hc /\ write_uint16 r2 = Ok h2
    /\ _parse_header (h1 ++ ha ++ hb ++ hc ++ h2 ++ rest)
       = Ok (mkFileHeader r1 a b c r2).
Proof.
  intros H1 Ha Hb Hc H2.
  unfold write_uint32, write_uint16, pack, format_min, format_max.
  cbn [format_signed calcsize].
  change (2 ^ (8 * 4) - 1) with 4294967295. change (2 ^ (8 * 2) - 1) with 65535.
  repeat match goal with
  | |- context [(0 <=? ?v) && (?v <=? ?m)] =>
      replace ((0 <=? v) && (v <=? m)) with true
        by (symmetry; apply andb_true_iff; split; apply Z.leb_le; lia)
  end.
  eexists _, _, _, _, _. repeat (split; [reflexivity|]).
  change (2 ^ (8 * 4)) with 4294967296. change (2 ^ (8 * 2)) with 65536.
  rewrite !Z.mod_small by lia.
  change (Z.to_nat 4) with 4%nat. change (Z.to_nat 2) with 2%nat.
  pose proof (uint_of_bytes_little 4 r1) as E1.
  pose proof (uint_of_bytes_little 2 a) as Ea.
  pose proof (uint_of_bytes_little 2 b) as Eb.
  pose proof (uint_of_bytes_little 2 c) as Ec.
  pose proof (uint_of_bytes_little 2 r2) as E2.
  change (256 ^ Z.of_nat 4) with 4294967296 in E1.
  change (256 ^ Z.of_nat 2) with 65536 in Ea, Eb, Ec, E2.
  rewrite Z.mod_small in E1, Ea, Eb, Ec, E2 by lia.
  cbn [bytes_little List.app] in *.
  rewrite _parse_header_layout, E1, Ea, Eb, Ec, E2. reflexivity.
Qed.

Lemma parse_header_of_written_fields_example :
  _parse_header (Py.bytes [4;3;2;1; 1;0; 2;1; 3;0; 255;255; 9; 9])
  = Ok (mkFileHeader 16909060 1 258 3 65535).
Proof.
  destruct (parse_header_of_written_fields 16909060 1 258 3 65535 (Py.bytes [9; 9])
              ltac:(lia) ltac:(lia) ltac:(lia) ltac:(lia) ltac:(lia))
    as (h1 & ha & hb & hc & h2 & E1 & Ea & Eb & Ec & E2 & H).
  vm_compute in E1, Ea, Eb, Ec, E2.
  injection E1 as <-. injection Ea as <-. injection Eb as <-.
  injection Ec as <-. injection E2 as <-. exact H.
Defined.

(** The one-argument readers of the header are the struct readers at
    offset 0. *)
Lemma read_uint16_is_read_struct (data : list byte) :
  read_uint16 data = read_uint16_at data 0.
Proof.
  unfold read_uint16_at, _read_struct, unpack_from. cbn [Z.ltb Z.compare andb calcsize].
  destruct data as [|b0 [|b1 rest]]; [reflexivity|reflexivity|].
  pose proof (len_nonneg rest) as Hrest.
  assert (Hl : Py.len (b0 :: b1 :: rest) = 2 + Py.len rest)
    by (unfold Py.len; cbn [List.length]; lia).
  rewrite Hl. destruct (_ <? 2) eqn:E; [apply Z.ltb_lt in E; lia|].
  pose proof (slice_middle [] [b0; b1] rest) as Hs. cbn [List.app] in Hs.
  change (Py.len []) with 0 in Hs. change (Py.len [b0; b1]) with 2 in Hs.
  rewrite Hs. unfold struct_value, uint_of_bytes. cbn [format_signed andb List.map
    int_from_bytes_little read_uint16]. f_equal. lia.
Qed.

Lemma read_uint32_is_read_struct (data : list byte) :
  read_uint32 data = read_uint32_at data 0.
Proof.
  unfold read_uint32_at, _read_struct, unpack_from. cbn [Z.ltb Z.compare andb calcsize].
  destruct data as [|b0 [|b1 [|b2 [|b3 rest]]]]; [reflexivity..|].
  pose proof (len_nonneg rest) as Hrest.
  assert (Hl : Py.len (b0 :: b1 :: b2 :: b3 :: rest) = 4 + Py.len rest)
    by (unfold Py.len; cbn [List.length]; lia).
  rewrite Hl. destruct (_ <? 4) eqn:E; [apply Z.ltb_lt in E; lia|].
  pose proof (slice_middle [] [b0; b1; b2; b3] rest) as Hs. cbn [List.app] in Hs.
  change (Py.len []) with 0 in Hs. change (Py.len [b0; b1; b2; b3]) with 4 in Hs.
  rewrite Hs. unfold struct_value, uint_of_bytes. cbn [format_signed andb List.map
    int_from_bytes_little read_uint32]. f_equal. lia.
Qed.

(** ** Utilities.py: [read_C_string] on a terminated string, and its bounds *)

(** The loop copies a zero-free body that fits under the cap. *)
Lemma read_C_string_loop_body (body : list byte) :
  forall (pre tail acc : list byte) (fuel : nat),
    zero_free body ->
    Py.len acc + Py.len body <= 5000 ->
    read_C_string_loop (List.length body + fuel) (pre ++ body ++ tail) acc (Py.len pre)
    = read_C_string_loop fuel (pre ++ body ++ tail) (acc ++ body)
        (Py.len pre + Py.len body).
Proof.
  induction body as [|b body IH]; intros pre tail acc fuel Hz Hcap.
  - simpl. rewrite List.app_nil_r. change (Py.len []) with 0. rewrite Z.add_0_r.
    reflexivity.
  - inversion Hz as [|? ? Hb Hz']; subst.
    cbn [List.length Nat.add read_C_string_loop].
    pose proof (len_nonneg pre) as Hpre. pose proof (len_nonneg tail) as Htail.
    pose proof (len_nonneg body) as Hbody. pose proof (len_nonneg acc) as Hacc.
    assert (Hlen_b : Py.len (b :: body) = 1 + Py.len body)
      by (unfold Py.len; cbn [List.length]; lia).
    rewrite !len_app, Hlen_b.
    destruct (Py.len pre <? _) eqn:E; [|apply Z.ltb_ge in E; lia].
    cbn [List.app]. rewrite getitem_app_here.
    destruct (Py.ord b =? 0) eqn:E0; [apply Z.eqb_eq in E0; contradiction|].
    unfold Py.append. rewrite len_app. change (Py.len [b]) with 1.
    destruct (5000 <? _) eqn:E1; [apply Z.ltb_lt in E1; lia|].
    specialize (IH (pre ++ [b]) tail (acc ++ [b]) fuel Hz').
    rewrite <- !List.app_assoc in IH. cbn [List.app] in IH.
    rewrite !len_app in IH. change (Py.len [b]) with 1 in IH.
    rewrite IH by lia. f_equal. lia.
Qed.

(** At a terminator, or at the end of the data, the loop stops. *)
Lemma read_C_string_loop_terminator
    (pre tail acc : list byte) (k : Z) (fuel : nat) :
  terminator_length tail = Some k ->
  read_C_string_loop (S fuel) (pre ++ tail) acc (Py.len pre)
  = Ok (acc, Py.len pre + k).
Proof.
  intros Hk. cbn [read_C_string_loop]. rewrite len_app.
  destruct tail as [|z rest].
  - injection Hk as <-. change (Py.len []) with 0.
    destruct (_ <? _) eqn:E; [apply Z.ltb_lt in E; lia|].
    rewrite Z.add_0_r. reflexivity.
  - assert (Hl : Py.len (z :: rest) = 1 + Py.len rest)
      by (unfold Py.len; cbn [List.length]; lia).
    rewrite Hl. pose proof (len_nonneg rest) as Hrest.
    destruct (_ <? _) eqn:E; [clear E|apply Z.ltb_ge in E; lia].
    rewrite getitem_app_here. cbn [terminator_length] in Hk.
    destruct (Py.ord z =? 0); [|discriminate].
    destruct rest as [|z2 rest].
    + injection Hk as <-. change (Py.len []) with 0.
      destruct (Py.len pre + 1 <? _) eqn:E2; [apply Z.ltb_lt in E2; lia|]. reflexivity.
    + assert (Hl2 : Py.len (z2 :: rest) = 1 + Py.len rest)
        by (unfold Py.len; cbn [List.length]; lia).
      rewrite Hl2. pose proof (len_nonneg rest) as Hrest2.
      destruct (Py.len pre + 1 <? _) eqn:E2; [|apply Z.ltb_ge in E2; lia].
      replace (Py.len pre + 1) with (Py.len (pre ++ [z]))
        by (rewrite len_app; reflexivity).
      replace (pre ++ z :: z2 :: rest) with ((pre ++ [z]) ++ z2 :: rest)
        by (rewrite <- List.app_assoc; reflexivity).
      rewrite getitem_app_here.
      destruct (Py.ord z2 =? 0); injection Hk as <-; rewrite ?len_app; reflexivity.
Qed.

(** The loop on a terminated string: the body, and the bytes consumed. *)
Lemma read_C_string_loop_run (pre body tail : list byte) (k : Z) :
  zero_free body ->
  Py.len body <= 5000 ->
  terminator_length tail = Some k ->
  read_C_string_loop (S (Z.to_nat (Py.len (pre ++ body ++ tail) - Py.len pre)))
    (pre ++ body ++ tail) [] (Py.len pre)
  = Ok (body, Py.len pre + Py.len body + k).
Proof.
  intros Hz Hcap Hk. rewrite !len_app.
  replace (Z.to_nat (Py.len pre + (Py.len body + Py.len tail) - Py.len pre))
    with (List.length body + List.length tail)%nat by (unfold Py.len; lia).
  replace (S (List.length body + List.length tail))
    with (List.length body + S (List.length tail))%nat by lia.
  rewrite (read_C_string_loop_body body pre tail [] (S (List.length tail)) Hz)
    by (change (Py.len []) with 0; lia).
  cbn [List.app].
  replace (Py.len pre + Py.len body) with (Py.len (pre ++ body))
    by (rewrite len_app; reflexivity).
  rewrite List.app_assoc.
  rewrite (read_C_string_loop_terminator (pre ++ body) tail body k _ Hk).
  reflexivity.
Qed.

Section ReadString.

Variable decode_shift_jis : list byte -> option string.
Variable decode_cp932 : list byte -> option string.

(** X4: on at most 5000 bytes without a zero byte, followed by a
    terminator or by the end of the data, [read_C_string] decodes exactly
    those bytes and counts them and the terminator: two bytes for a double
    zero, one for a single zero, none at the end of the data. When Shift-JIS
    fails the fallback line is printed and cp932 is tried; a failure of both
    is a [UnicodeDecodeError]. *)
Theorem read_C_string_returns_the_terminated_string
    (pre body tail : list byte) (k : Z) (w : World) :
  zero_free body ->
  Py.len body <= 5000 ->
  terminator_length tail = Some k ->
  read_C_string decode_shift_jis decode_cp932 (pre ++ body ++ tail)
    (Some (Py.len pre)) w
  = match decode_shift_jis body with
    | Some s => (Ok (Py.len body + k, strip_nul s), w)
    | None =>
        match decode_cp932 body with
        | Some s => (Ok (Py.len body + k, strip_nul s),
                     with_stdout w (stdout w ++ [DecodeFallback]))
        | None => (Raise UnicodeDecodeError,
                   with_stdout w (stdout w ++ [DecodeFallback]))
        end
    end.
Proof.
  intros Hz Hcap Hk.
  rewrite (read_C_string_of_loop decode_shift_jis decode_cp932
             (pre ++ body ++ tail) body (Py.len pre) (Py.len pre + Py.len body + k) w
             (read_C_string_loop_run pre body tail k Hz Hcap Hk)).
  replace (Py.len pre + Py.len body + k - Py.len pre) with (Py.len body + k) by lia.
  reflexivity.
Qed.

End ReadString.

Lemma read_C_string_returns_the_terminated_string_example :
  read_C_string sample_decode sample_decode (Py.bytes [88; 0; 65; 66; 0; 0; 67; 0])
    (Some 2) (world_of_commands [])
  = (Ok (4, "AB"%string), world_of_commands [])
  /\ read_C_string sample_decode sample_decode (Py.bytes [88; 0; 65; 66; 0; 0; 67; 0])
    (Some 6) (world_of_commands [])
  = (Ok (2, "C"%string), world_of_commands []).
Proof.
  split.
  - refine (read_C_string_returns_the_terminated_string sample_decode sample_decode
              (Py.bytes [88; 0]) (Py.bytes [65; 66]) (Py.bytes [0; 0; 67; 0]) 2
              (world_of_commands []) _ _ eq_refl).
    + repeat constructor; vm_compute; discriminate.
    + vm_compute. discriminate.
  - refine (read_C_string_returns_the_terminated_string sample_decode sample_decode
              (Py.bytes [88; 0; 65; 66; 0; 0]) (Py.bytes [67]) (Py.bytes [0]) 1
              (world_of_commands []) _ _ eq_refl).
    + repeat constructor; vm_compute; discriminate.
    + vm_compute. discriminate.
Defined.

(** From a non-negative offset the loop always answers, and the answer
    stays inside the data and under the cap. *)
Lemma read_C_string_loop_bounds (fuel : nat) :
  forall (data acc : list byte) (off : Z),
    0 <= off ->
    (Z.to_nat (Py.len data - off) < fuel)%nat ->
    Py.len acc <= 5000 ->
    exists acc' off',
      read_C_string_loop fuel data acc off = Ok (acc', off')
      /\ off <= off' <= Z.max off (Py.len data)
      /\ off' - off <= Py.len acc' - Py.len acc + 2
      /\ (5000 < Py.len acc' -> off' - off = Py.len acc' - Py.len acc)
      /\ Py.len acc <= Py.len acc' <= 5001.
Proof.
  induction fuel as [|fuel IH]; intros data acc off Hoff Hfuel Hacc; [lia|].
  cbn [read_C_string_loop].
  destruct (off <? Py.len data) eqn:E.
  2:{ exists acc, off. split; [reflexivity|]. lia. }
  apply Z.ltb_lt in E.
  destruct (getitem_in_range data off ltac:(lia)) as [b Hb]. rewrite Hb.
  destruct (Py.ord b =? 0).
  - destruct (off + 1 <? Py.len data) eqn:E1.
    + apply Z.ltb_lt in E1.
      destruct (getitem_in_range data (off + 1) ltac:(lia)) as [b2 Hb2]. rewrite Hb2.
      destruct (Py.ord b2 =? 0); eexists _, _; (split; [reflexivity|]); lia.
    + eexists _, _. split; [reflexivity|]. lia.
  - assert (Hlen : Py.len (Py.append acc b) = Py.len acc + 1).
    { unfold Py.append. rewrite len_app. reflexivity. }
    destruct (5000 <? Py.len (Py.append acc b)) eqn:E2.
    + apply Z.ltb_lt in E2. eexists _, _. split; [reflexivity|]. lia.
    + apply Z.ltb_ge in E2.
      destruct (IH data (Py.append acc b) (off + 1)) as (acc' & off' & H & H1 & H2 & H3 & H4);
        [lia|lia|lia|].
      exists acc', off'. split; [exact H|]. lia.
Qed.

Section ReadStringBounds.

Variable decode_shift_jis : list byte -> option string.
Variable decode_cp932 : list byte -> option string.

(** X5: from a non-negative offset [read_C_string] always answers and
    raises nothing but [UnicodeDecodeError]; the count it returns lies
    between 0 and 5002, it never reaches past the end of the data from an
    offset inside them, and it is 0 from an offset at or after the end. *)
Theorem read_C_string_stays_in_the_data (data : list byte) (off : Z) (w : World) :
  0 <= off ->
  match read_C_string decode_shift_jis decode_cp932 data (Some off) w with
  | (Ok (n, _), _) =>
      0 <= n <= 5002
      /\ (off <= Py.len data -> off + n <= Py.len data)
      /\ (Py.len data <= off -> n = 0)
  | (Raise e, _) => e = UnicodeDecodeError
  | (Diverge, _) => False
  end.
Proof.
  intros Hoff.
  destruct (read_C_string_loop_bounds (S (Z.to_nat (Py.len data - off))) data [] off
              Hoff ltac:(lia) ltac:(change (Py.len []) with 0; lia))
    as (acc & off' & Hloop & H1 & H2 & H3 & H4).
  rewrite (read_C_string_of_loop decode_shift_jis decode_cp932 data acc off off' w Hloop).
  change (Py.len []) with 0 in *.
  assert (Hn : 0 <= off' - off <= 5002
               /\ (off <= Py.len data -> off + (off' - off) <= Py.len data)
               /\ (Py.len data <= off -> off' - off = 0)) by lia.
  destruct (decode_shift_jis acc); [exact Hn|].
  destruct (decode_cp932 acc); [exact Hn|reflexivity].
Qed.

End ReadStringBounds.

Lemma read_C_string_stays_in_the_data_example :
  read_C_string sample_decode sample_decode (Py.bytes [65; 66; 0; 0; 67]) (Some 4)
    (world_of_commands [])
  = (Ok (1, "C"%string), world_of_commands [])
  /\ 0 <= 1 <= 5002 /\ (4 <= 5 -> 4 + 1 <= 5) /\ (5 <= 4 -> 1 = 0).
Proof.
  split; [vm_compute; reflexivity|].
  exact (read_C_string_stays_in_the_data sample_decode sample_decode
           (Py.bytes [65; 66; 0; 0; 67]) 4 (world_of_commands []) ltac:(lia)).
Defined.

(** ** The two sets of readers *)

(** Two bytes of a slice are the two items at its offsets. *)
Lemma two_items_at (l : list byte) (off : Z) :
  0 <= off -> off + 2 <= Py.len l ->
  exists b0 b1, Py.slice l off (off + 2) = [b0; b1]
                /\ Py.getitem l off = Some b0
                /\ Py.getitem l (off + 1) = Some b1.
Proof.
  intros H0 H2. rewrite slice_in_range by lia.
  replace (off + 2 - off) with 2 by lia.
  pose proof (List.firstn_skipn (Z.to_nat off) l) as Hsplit.
  remember (List.firstn (Z.to_nat off) l) as pre eqn:Hpre.
  remember (List.skipn (Z.to_nat off) l) as rest eqn:Hrest.
  assert (Hlen_pre : Py.len pre = off).
  { subst pre. unfold Py.len in *. rewrite List.length_firstn. lia. }
  assert (Hlen : (2 <= List.length rest)%nat).
  { subst rest. rewrite List.length_skipn. unfold Py.len in H2. lia. }
  destruct rest as [|b0 [|b1 rest]]; simpl in Hlen; try lia.
  exists b0, b1. split; [reflexivity|]. rewrite <- Hsplit, <- Hlen_pre. split.
  - apply getitem_app_here.
  - replace (Py.len pre + 1) with (Py.len (pre ++ [b0])) by (rewrite len_app; reflexivity).
    replace (pre ++ b0 :: b1 :: rest) with ((pre ++ [b0]) ++ b1 :: rest)
      by (rewrite <- List.app_assoc; reflexivity).
    apply getitem_app_here.
Qed.

(** [lo | (hi << 8)] of two byte values is [lo + 256 * hi]. *)
Lemma lor_shiftl_bytes (lo hi : Z) :
  0 <= lo < 256 -> 0 <= hi -> Z.lor lo (Z.shiftl hi 8) = lo + 256 * hi.
Proof.
  intros Hlo Hhi.
  assert (Hland : Z.land lo (Z.shiftl hi 8) = 0).
  { apply Z.bits_inj'. intros n Hn. rewrite Z.land_spec, Z.bits_0.
    destruct (Z_lt_le_dec n 8) as [Hlt|Hge].
    - rewrite Z.shiftl_spec_low by lia. apply andb_false_r.
    - replace lo with (lo mod 2 ^ 8) by (apply Z.mod_small; simpl; lia).
      rewrite Z.mod_pow2_bits_high by lia. reflexivity. }
  rewrite <- Z.lxor_lor by exact Hland.
  rewrite <- Z.add_nocarry_lxor by exact Hland.
  rewrite Z.shiftl_mul_pow2 by lia. change (2 ^ 8) with 256. lia.
Qed.

(** X6: from a non-negative cursor the two readers of
    [SysCallOpcodeDisassembler] and the two of [Utilities.py] are
    interchangeable: [low | (high << 8)] on two items and the ['<H'] unpack of
    a two-byte slice return the same value, and leave the same cursor. *)
Theorem sys_call_readers_agree_with_utilities (w : World) :
  0 <= cursor w ->
  _get_next_byte w = get_next_byte w /\ _get_next_word w = get_next_word w.
Proof.
  intros H0. split; [reflexivity|].
  unfold cursor in H0. unfold _get_next_word, get_next_word, bind, get_GB.
  destruct (Py.len (command_data (GB w)) <=? command_data_offset (GB w) + 1) eqn:E;
    [reflexivity|].
  apply Z.leb_gt in E.
  destruct (two_items_at (command_data (GB w)) (command_data_offset (GB w)))
    as (b0 & b1 & Hs & Hg0 & Hg1); [lia|lia|].
  unfold lift. rewrite Hs, Hg0, Hg1. cbn [read_uint16].
  pose proof (ord_range b0). pose proof (ord_range b1).
  rewrite lor_shiftl_bytes by lia. reflexivity.
Qed.

Lemma sys_call_readers_agree_with_utilities_example :
  _get_next_word (world_of_commands [52; 18; 7])
  = (Ok (Some 4660), with_offset (world_of_commands [52; 18; 7]) 2)
  /\ get_next_word (world_of_commands [52; 18; 7])
  = (Ok (Some 4660), with_offset (world_of_commands [52; 18; 7]) 2).
Proof.
  pose proof (sys_call_readers_agree_with_utilities
                (world_of_commands [52; 18; 7]) ltac:(vm_compute; discriminate))
    as [_ H].
  split; [rewrite H|]; vm_compute; reflexivity.
Defined.

(** *** The shipped tables hold only zeros *)

Lemma with_offset_twice (w : World) (a b : Z) :
  with_offset (with_offset w a) b = with_offset w b.
Proof. reflexivity. Qed.

Lemma table_value_word_table (i : Z) : table_value word_table i = 0.
Proof. unfold table_value, word_table. apply List.nth_repeat. Qed.

(** On a table of zeros every extraction gives 0. *)
Lemma extract_bit_field_zero (i p : Z) :
  0 <= i -> 0 <= p -> extract_bit_field (Some i) (Some p) = Ok (Some 0).
Proof.
  intros Hi Hp. unfold extract_bit_field, extract_bit_field_in.
  destruct (p =? 0) eqn:E; [apply Z.eqb_eq in E; subst; reflexivity|].
  apply Z.eqb_neq in E.
  destruct (while_low_bit_clear_terminates (bit_budget p) p 0) as (c & t & -> & Ht);
    [lia | unfold bit_budget; lia|].
  destruct (while_low_bit_set_terminates (bit_budget p) t 0) as (n & t' & ->).
  { right. split; [lia|]. unfold bit_budget.
    assert (Z.log2 t <= Z.log2 p) by (apply Z.log2_le_mono; lia). lia. }
  rewrite (table_lookup word_table i Hi), table_value_word_table.
  rewrite Z.shiftr_0_l, Z.land_0_l. reflexivity.
Qed.

Lemma get_next_word_here (w : World) (pre rest : list byte) (lo hi : byte) :
  command_data (GB w) = pre ++ lo :: hi :: rest ->
  command_data_offset (GB w) = Py.len pre ->
  get_next_word w
  = (Ok (Some (Py.ord lo + 256 * Py.ord hi)), with_offset w (Py.len pre + 2)).
Proof.
  intros Hd Ho. unfold get_next_word, bind, get_GB. rewrite Hd, Ho, len_app.
  assert (Hl : Py.len (lo :: hi :: rest) = 2 + Py.len rest)
    by (unfold Py.len; cbn [List.length]; lia).
  pose proof (len_nonneg rest) as Hrest. pose proof (len_nonneg pre) as Hpre.
  rewrite Hl. destruct (_ <=? _) eqn:E; [apply Z.leb_le in E; lia|].
  replace (pre ++ lo :: hi :: rest) with (pre ++ [lo; hi] ++ rest) by reflexivity.
  replace (Py.len pre + 2) with (Py.len pre + Py.len [lo; hi]) by reflexivity.
  rewrite slice_middle. reflexivity.
Qed.

Lemma read_next_byte_here (w : World) (pre rest : list byte) (b : byte) :
  command_data (GB w) = pre ++ b :: rest ->
  command_data_offset (GB w) = Py.len pre ->
  read_next_byte w = (Ok (Some (Py.ord b)), with_offset w (Py.len pre + 1)).
Proof.
  intros Hd Ho. rewrite (read_next_byte_in_range w b).
  - rewrite Ho. reflexivity.
  - rewrite Ho. apply len_nonneg.
  - rewrite Hd, Ho. apply getitem_app_here.
Qed.

Lemma read_processed_value_here
    (w : World) (pre rest : list byte) (index lo hi : byte) :
  command_data (GB w) = pre ++ index :: lo :: hi :: rest ->
  command_data_offset (GB w) = Py.len pre ->
  read_processed_value w
  = (Ok (if Py.ord index =? 255 then Py.ord lo + 256 * Py.ord hi else 0),
     with_offset w (Py.len pre + 3)).
Proof.
  intros Hd Ho. unfold read_processed_value. unfold bind at 1.
  rewrite (read_next_byte_here w pre _ index Hd Ho).
  unfold bind at 1.
  rewrite (get_next_word_here (with_offset w (Py.len pre + 1)) (pre ++ [index]) rest lo hi);
    cycle 1.
  { simpl. rewrite Hd, <- List.app_assoc. reflexivity. }
  { simpl. rewrite len_app. reflexivity. }
  rewrite with_offset_twice, len_app. change (Py.len [index]) with 1.
  replace (Py.len pre + 1 + 2) with (Py.len pre + 3) by lia.
  pose proof (ord_range index) as Hi. pose proof (ord_range lo) as Hlo.
  pose proof (ord_range hi) as Hhi.
  destruct (Py.ord index =? 255) eqn:E.
  - apply Z.eqb_eq in E. rewrite E.
    rewrite bool_decide_eq_true_2 by reflexivity. cbn [negb]. unfold bind, ret.
    change 65535 with (Z.ones 16). rewrite Z.land_ones by lia.
    rewrite Z.mod_small by (simpl; lia). reflexivity.
  - apply Z.eqb_neq in E.
    rewrite bool_decide_eq_false_2 by congruence. cbn [negb].
    unfold bind, lift. rewrite extract_bit_field_zero by lia. reflexivity.
Qed.

(** X7: every entry of [word_table] being 0, [extract_bit_field] gives
    0 for every index and pattern that are not negative; so
    [read_processed_value], on an index byte and a word, returns the word when
    the index byte is 0xFF and 0 otherwise, and consumes the three bytes. *)
Theorem read_processed_value_is_the_word_or_zero
    (w : World) (pre rest : list byte) (index lo hi : byte) (i p : Z) :
  command_data (GB w) = pre ++ index :: lo :: hi :: rest ->
  command_data_offset (GB w) = Py.len pre ->
  0 <= i -> 0 <= p ->
  extract_bit_field (Some i) (Some p) = Ok (Some 0)
  /\ read_processed_value w
     = (Ok (if Py.ord index =? 255 then Py.ord lo + 256 * Py.ord hi else 0),
        with_offset w (Py.len pre + 3)).
Proof.
  intros Hd Ho Hi Hp. split.
  - apply extract_bit_field_zero; assumption.
  - exact (read_processed_value_here w pre rest index lo hi Hd Ho).
Qed.

Lemma read_processed_value_is_the_word_or_zero_example :
  read_processed_value (world_of_commands [255; 52; 18; 9])
  = (Ok 4660, with_offset (world_of_commands [255; 52; 18; 9]) 3)
  /\ read_processed_value (world_of_commands [3; 52; 18; 9])
  = (Ok 0, with_offset (world_of_commands [3; 52; 18; 9]) 3).
Proof.
  split.
  - exact (proj2 (read_processed_value_is_the_word_or_zero
             (world_of_commands [255; 52; 18; 9])
             [] (Py.bytes [9]) (Py.byte_of 255) (Py.byte_of 52) (Py.byte_of 18) 3 6
             eq_refl eq_refl ltac:(lia) ltac:(lia))).
  - exact (proj2 (read_processed_value_is_the_word_or_zero
             (world_of_commands [3; 52; 18; 9])
             [] (Py.bytes [9]) (Py.byte_of 3) (Py.byte_of 52) (Py.byte_of 18) 3 6
             eq_refl eq_refl ltac:(lia) ltac:(lia))).
Defined.

Lemma sub_42164D_zero (a1 : Z) : sub_42164D a1 = 0.
Proof.
  unfold sub_42164D.
  cbv -[Z.eqb]. repeat (destruct (0 =? a1); [reflexivity|]). reflexivity.
Qed.

(** *** The expression VM: what the operators do, and the contract of a run *)

Lemma last_snoc {A : Type} (l : list A) (x : A) : Py.last (l ++ [x]) = Some x.
Proof.
  unfold Py.last, Py.getitem. rewrite len_app. change (Py.len [x]) with 1.
  pose proof (len_nonneg l) as Hl.
  destruct (_ <? _) eqn:E; [|apply Z.ltb_ge in E; lia].
  destruct (_ <=? _) eqn:E1; [|apply Z.leb_gt in E1; lia].
  replace (Z.to_nat (Py.len l + 1 + -1)) with (List.length l) by (unfold Py.len; lia).
  rewrite List.nth_error_app2 by lia. rewrite Nat.sub_diag. reflexivity.
Qed.

Lemma pop_snoc {A : Type} (l : list A) (x : A) : Py.pop (l ++ [x]) = l.
Proof. unfold Py.pop. apply List.removelast_last. Qed.

Lemma set_last_snoc {A : Type} (l : list A) (x y : A) :
  Py.set_last (l ++ [x]) y = l ++ [y].
Proof.
  unfold Py.set_last. rewrite List.removelast_last.
  destruct (l ++ [x]) eqn:E; [destruct l; discriminate|reflexivity].
Qed.

Lemma binary_operator_pops (f : Z -> Z -> Z) (vs fs : list Z) (v t : Z) :
  binary_operator f (vs ++ [v]) (fs ++ [t]) = (vs, fs).
Proof.
  unfold binary_operator. rewrite !last_snoc, set_last_snoc, !pop_snoc. reflexivity.
Qed.

Lemma last_nil {A : Type} : Py.last (@nil A) = None.
Proof. reflexivity. Qed.

(** X8: each of the eleven binary operations of the VM (0 to 5 and 20
    to 24), on two non-empty stacks, pops the top of both and nothing else:
    the value it stores in the top flag slot is popped at once. With one of
    the stacks empty, or both, it changes nothing. *)
Theorem vm_binary_operators_discard_their_result
    (operation : Z) (vs fs : list Z) (v t : Z) :
  List.In operation [0; 1; 2; 3; 4; 5; 20; 21; 22; 23; 24] ->
  apply_operation operation (vs ++ [v]) (fs ++ [t]) = (vs, fs)
  /\ apply_operation operation [] (fs ++ [t]) = ([], fs ++ [t])
  /\ apply_operation operation (vs ++ [v]) [] = (vs ++ [v], [])
  /\ apply_operation operation [] [] = ([], []).
Proof.
  intros Hin. cbn [List.In] in Hin.
  repeat (destruct Hin as [<-|Hin];
          [cbn [apply_operation]; repeat split; try apply binary_operator_pops;
           unfold apply_operation, binary_operator; cbn -[Py.last Py.pop Py.set_last];
           rewrite ?last_snoc, ?last_nil; reflexivity|]).
  contradiction.
Qed.

Lemma vm_binary_operators_discard_their_result_example :
  apply_operation 20 [7; 5] [0; 3] = ([7], [0])
  /\ apply_operation 20 [] [0; 3] = ([], [0; 3])
  /\ apply_operation 20 [7; 5] [] = ([7; 5], [])
  /\ apply_operation 20 [] [] = ([], []).
Proof.
  exact (vm_binary_operators_discard_their_result 20 [7] [0] 5 3
           ltac:(cbn; tauto)).
Defined.

(** *** The flag stack never reaches the result *)

Lemma list_snoc_cases {A : Type} (l : list A) :
  l = [] \/ exists l' x, l = l' ++ [x].
Proof.
  destruct l as [|a l]; [left; reflexivity|right].
  destruct (@List.exists_last A (a :: l)) as (l' & x & H); [discriminate|].
  exists l', x. exact H.
Qed.

Lemma len_snoc {A : Type} (l : list A) (x : A) : Py.len (l ++ [x]) = Py.len l + 1.
Proof. rewrite len_app. reflexivity. Qed.

Lemma len_nil {A : Type} : Py.len (@nil A) = 0.
Proof. reflexivity. Qed.

Lemma pop_nil {A : Type} : Py.pop (@nil A) = [].
Proof. reflexivity. Qed.

(** What an operation does to the value stack, given only that stack:
    nothing, a pop, or the zero check of its top. *)
Lemma binary_operator_values (f : Z -> Z -> Z) (vs fs : list Z) :
  Py.len vs <= Py.len fs ->
  fst (binary_operator f vs fs) = Py.pop vs
  /\ Py.len (fst (binary_operator f vs fs)) <= Py.len (snd (binary_operator f vs fs)).
Proof.
  intros Hlen. pose proof (len_nonneg fs) as Hfs.
  destruct (list_snoc_cases vs) as [-> | (vs' & v & ->)].
  - unfold binary_operator. rewrite last_nil. cbn [fst snd]. rewrite pop_nil, len_nil.
    split; [reflexivity|exact Hfs].
  - destruct (list_snoc_cases fs) as [-> | (fs' & t & ->)].
    + rewrite len_snoc, len_nil in Hlen. pose proof (len_nonneg vs'). lia.
    + rewrite binary_operator_pops. cbn [fst snd]. rewrite pop_snoc.
      rewrite !len_snoc in Hlen. split; [reflexivity|lia].
Qed.

Lemma logical_not_12_values (vs fs : list Z) :
  Py.len vs <= Py.len fs ->
  fst (logical_not_12 vs fs) = Py.pop vs
  /\ Py.len (fst (logical_not_12 vs fs)) <= Py.len (snd (logical_not_12 vs fs)).
Proof.
  intros Hlen. pose proof (len_nonneg vs) as Hvs.
  destruct (list_snoc_cases fs) as [-> | (fs' & t & ->)].
  - rewrite len_nil in Hlen.
    assert (vs = []) as -> by (destruct vs; [reflexivity|unfold Py.len in *; simpl in *; lia]).
    unfold logical_not_12. rewrite last_nil. cbn [fst snd]. split; [reflexivity|lia].
  - unfold logical_not_12. rewrite last_snoc.
    set (fs1 := if negb (t =? 0) then _ else _).
    assert (Hfs1 : exists t', fs1 = fs' ++ [t']).
    { unfold fs1. destruct (negb (t =? 0)); [rewrite set_last_snoc; eauto|].
      destruct (Py.last vs) as [v|]; [destruct (negb (v =? 0))|];
        rewrite set_last_snoc; eauto. }
    destruct Hfs1 as [t' ->]. cbn [fst snd].
    rewrite len_snoc in *. pose proof (len_nonneg fs') as Hfs'.
    destruct (list_snoc_cases vs) as [-> | (vs' & v & ->)].
    + rewrite len_nil. change (1 <=? 0) with false. cbv iota.
      split; [reflexivity|].
      destruct (2 <=? Py.len fs' + 1); rewrite ?pop_snoc, ?len_snoc, len_nil; lia.
    + rewrite len_snoc in *. pose proof (len_nonneg vs') as Hvs'.
      destruct (1 <=? Py.len vs' + 1) eqn:E; [|apply Z.leb_gt in E; lia].
      rewrite pop_snoc. split; [reflexivity|].
      destruct (2 <=? Py.len fs' + 1) eqn:E2; rewrite ?pop_snoc, ?len_snoc;
        [lia|apply Z.leb_gt in E2; lia].
Qed.

Lemma len_set_last (l : list Z) (x : Z) : Py.len (Py.set_last l x) = Py.len l.
Proof.
  destruct (list_snoc_cases l) as [-> | (l' & y & ->)]; [reflexivity|].
  rewrite set_last_snoc, !len_snoc. reflexivity.
Qed.

Lemma apply_operation_values (operation : Z) (vs fs1 fs2 : list Z) :
  Py.len vs <= Py.len fs1 ->
  Py.len vs <= Py.len fs2 ->
  fst (apply_operation operation vs fs1) = fst (apply_operation operation vs fs2)
  /\ Py.len (fst (apply_operation operation vs fs1))
     <= Py.len (snd (apply_operation operation vs fs1))
  /\ Py.len (fst (apply_operation operation vs fs2))
     <= Py.len (snd (apply_operation operation vs fs2)).
Proof.
  intros H1 H2. unfold apply_operation.
  repeat match goal with
  | |- context [if ?c then _ else _] => destruct c
  end;
  try (destruct (binary_operator_values op_add vs fs1 H1) as [-> ?];
       destruct (binary_operator_values op_add vs fs2 H2) as [-> ?]; auto; fail);
  try (destruct (binary_operator_values op_sub vs fs1 H1) as [-> ?];
       destruct (binary_operator_values op_sub vs fs2 H2) as [-> ?]; auto; fail);
  try (destruct (binary_operator_values op_mul vs fs1 H1) as [-> ?];
       destruct (binary_operator_values op_mul vs fs2 H2) as [-> ?]; auto; fail);
  try (destruct (binary_operator_values op_div vs fs1 H1) as [-> ?];
       destruct (binary_operator_values op_div vs fs2 H2) as [-> ?]; auto; fail);
  try (destruct (binary_operator_values op_mod vs fs1 H1) as [-> ?];
       destruct (binary_operator_values op_mod vs fs2 H2) as [-> ?]; auto; fail);
  try (destruct (logical_not_12_values vs fs1 H1) as [-> ?];
       destruct (logical_not_12_values vs fs2 H2) as [-> ?]; auto; fail);
  try (match goal with
       | |- context [binary_operator ?f vs fs1] =>
           destruct (binary_operator_values f vs fs1 H1) as [-> ?];
           destruct (binary_operator_values f vs fs2 H2) as [-> ?]; auto
       end; fail);
  try (cbn [fst snd]; auto; fail).
  - unfold logical_not_11.
    destruct (Py.last fs1), (Py.last fs2); cbn [fst snd]; rewrite ?len_set_last; auto.
  - unfold zero_check_10. destruct (Py.last vs); cbn [fst snd];
      rewrite ?len_set_last; auto.
Qed.

Lemma vm_turn_values (vs fs1 fs2 : list Z) (w : World) :
  Py.len vs <= Py.len fs1 ->
  Py.len vs <= Py.len fs2 ->
  match vm_turn vs fs1 w, vm_turn vs fs2 w with
  | (Ok (VMReturn v1), w1), (Ok (VMReturn v2), w2) => v1 = v2 /\ w1 = w2
  | (Ok (VMContinue vs1 fs1'), w1), (Ok (VMContinue vs2 fs2'), w2) =>
      vs1 = vs2 /\ w1 = w2
      /\ Py.len vs1 <= Py.len fs1' /\ Py.len vs2 <= Py.len fs2'
  | (Raise e1, w1), (Raise e2, w2) => e1 = e2 /\ w1 = w2
  | (Diverge, w1), (Diverge, w2) => w1 = w2
  | _, _ => False
  end.
Proof.
  intros H1 H2. unfold vm_turn, bind.
  destruct (read_next_byte w) as [[next_byte|e|] w1]; [|auto|auto].
  unfold vm_turn_on.
  destruct (bool_decide (next_byte = Some 255)); [cbn; auto|].
  destruct (bool_decide (next_byte = Some 0)).
  - unfold bind. destruct (read_processed_value w1) as [[value|e|] w2]; [|auto|auto].
    cbn. unfold Py.append. rewrite !len_snoc. repeat split; lia.
  - unfold bind. destruct (read_next_byte w1) as [[[operation|]|e|] w2]; cbn; auto.
    destruct (apply_operation_values operation vs fs1 fs2 H1 H2) as (Hv & Hl1 & Hl2).
    destruct (apply_operation operation vs fs1) as [vs1 fs1'].
    destruct (apply_operation operation vs fs2) as [vs2 fs2'].
    cbn in *. auto.
Qed.

(** X10: the flag stack never reaches the result. Two runs of the
    interpreter loop from the same value stack and the same world, with flag
    stacks that are at least as long as the value stack (as they are in every
    run of [execute_vm_code]), end in the same outcome and the same world. *)
Theorem vm_result_does_not_depend_on_the_flags
    (fuel : nat) (vs fs1 fs2 : list Z) (w : World) :
  Py.len vs <= Py.len fs1 ->
  Py.len vs <= Py.len fs2 ->
  vm_loop fuel vs fs1 w = vm_loop fuel vs fs2 w.
Proof.
  revert vs fs1 fs2 w.
  induction fuel as [|fuel IH]; intros vs fs1 fs2 w H1 H2; [reflexivity|].
  cbn [vm_loop]. unfold bind.
  pose proof (vm_turn_values vs fs1 fs2 w H1 H2) as Ht.
  destruct (vm_turn vs fs1 w) as [[[v1|vs1 fs1']|e1|] w1];
    destruct (vm_turn vs fs2 w) as [[[v2|vs2 fs2']|e2|] w2];
    try contradiction.
  - destruct Ht as [-> ->]. reflexivity.
  - destruct Ht as (-> & -> & Hl1 & Hl2). apply IH; assumption.
  - destruct Ht as [-> ->]. reflexivity.
  - subst. reflexivity.
Qed.

Lemma vm_result_does_not_depend_on_the_flags_example :
  vm_loop 4 [5; 0] [0; 0] (world_of_commands [1; 23; 255])
  = vm_loop 4 [5; 0] [7; 9; 11] (world_of_commands [1; 23; 255])
  /\ vm_loop 4 [5; 0] [0; 0] (world_of_commands [1; 23; 255])
  = (Ok 5, with_offset (world_of_commands [1; 23; 255]) 3).
Proof.
  split; [|vm_compute; reflexivity].
  exact (vm_result_does_not_depend_on_the_flags 4 [5; 0] [0; 0] [7; 9; 11]
           (world_of_commands [1; 23; 255])
           ltac:(vm_compute; discriminate) ltac:(vm_compute; discriminate)).
Defined.

(** X9: an operation code other than 0 to 5, 10, 11, 12 and 20 to 24
    leaves both stacks as they are. *)
Theorem vm_operations_without_a_branch_change_nothing
    (operation : Z) (vs fs : list Z) :
  ~ List.In operation [0; 1; 2; 3; 4; 5; 10; 11; 12; 20; 21; 22; 23; 24] ->
  apply_operation operation vs fs = (vs, fs).
Proof.
  intros Hout. cbn [List.In] in Hout. unfold apply_operation.
  repeat match goal with
  | |- context [if ?a =? ?b then _ else _] =>
      destruct (a =? b) eqn:?E;
      [apply Z.eqb_eq in E; exfalso; apply Hout; lia|clear E]
  end.
  destruct (11 <? operation); reflexivity.
Qed.

Lemma vm_operations_without_a_branch_change_nothing_example :
  apply_operation 7 [1; 2] [3; 4] = ([1; 2], [3; 4])
  /\ apply_operation 200 [1; 2] [3; 4] = ([1; 2], [3; 4]).
Proof.
  split.
  - exact (vm_operations_without_a_branch_change_nothing 7 [1; 2] [3; 4] ltac:(cbn; lia)).
  - exact (vm_operations_without_a_branch_change_nothing 200 [1; 2] [3; 4] ltac:(cbn; lia)).
Defined.

Lemma in_bounds_nonneg (w : World) : in_bounds w -> 0 <= cursor w.
Proof. unfold in_bounds. lia. Qed.

Section VmSafe.
Context {A B : Type}.

Lemma vm_safe_ret (P : A -> Prop) (a : A) : P a -> vm_safe_with P (ret a).
Proof. intros HP w Hw. simpl. auto using preserved_refl. Qed.

Lemma vm_safe_type_error (P : A -> Prop) : vm_safe_with P (raise TypeError).
Proof. intros w Hw. simpl. auto using preserved_refl. Qed.

Lemma vm_safe_bind (P : A -> Prop) (Q : B -> Prop) (m : M A) (k : A -> M B) :
  vm_safe_with P m -> (forall a, P a -> vm_safe_with Q (k a)) ->
  vm_safe_with Q (bind m k).
Proof.
  intros Hm Hk w Hw. unfold bind. specialize (Hm w Hw).
  destruct (m w) as [[a|e|] w1]; [|exact Hm|exact Hm].
  destruct Hm as (HP & Hw1 & Hb1).
  specialize (Hk a HP w1 Hb1).
  destruct (k a w1) as [[b|e|] w2]; [| |exact Hk].
  - destruct Hk as (HQ & Hw2 & Hb2). repeat split; try assumption;
      try apply Hb2; eapply preserved_trans; eassumption.
  - destruct Hk as (HQ & Hw2 & Hb2). repeat split; try assumption;
      try apply Hb2; eapply preserved_trans; eassumption.
Qed.

Lemma vm_safe_weaken (P Q : A -> Prop) (m : M A) :
  (forall a, P a -> Q a) -> vm_safe_with P m -> vm_safe_with Q m.
Proof.
  intros HPQ Hm w Hw. specialize (Hm w Hw).
  destruct (m w) as [[a|e|] w']; [|exact Hm|exact Hm].
  destruct Hm as (HP & H). split; [exact (HPQ a HP)|exact H].
Qed.

End VmSafe.

Lemma in_bounds_offset (w : World) (off : Z) :
  cursor w <= off <= Py.len (command_data (GB w)) ->
  in_bounds w -> preserved w (with_offset w off) /\ in_bounds (with_offset w off).
Proof.
  intros Hoff Hw. unfold in_bounds, preserved, cursor in *. simpl. repeat split; lia.
Qed.

Lemma vm_safe_read_next_byte :
  vm_safe_with (fun o => exists v, o = Some v /\ 0 <= v < 256) read_next_byte.
Proof.
  intros w Hw. pose proof (in_bounds_nonneg w Hw) as H0. unfold in_bounds, cursor in *.
  destruct (Z_lt_le_dec (command_data_offset (GB w)) (Py.len (command_data (GB w))))
    as [Hlt|Hge].
  - destruct (getitem_in_range (command_data (GB w)) _ (conj H0 Hlt)) as [b Hb].
    rewrite (read_next_byte_in_range w b H0 Hb).
    split; [exists (Py.ord b); split; [reflexivity|apply ord_range]|].
    apply in_bounds_offset; unfold in_bounds, cursor; lia.
  - rewrite (read_next_byte_at_end w Hge).
    split; [exists 255; split; [reflexivity|lia]|].
    split; [apply preserved_refl|exact Hw].
Qed.

Lemma vm_safe_get_next_word : vm_safe_with is_word get_next_word.
Proof.
  intros w Hw. pose proof (in_bounds_nonneg w Hw) as H0.
  unfold in_bounds, cursor in *. unfold get_next_word, bind, get_GB.
  destruct (Py.len (command_data (GB w)) <=? command_data_offset (GB w) + 1) eqn:E.
  - simpl. split; [exact I|]. split; [apply preserved_refl|exact Hw].
  - apply Z.leb_gt in E.
    destruct (two_bytes_at (command_data (GB w)) (command_data_offset (GB w)))
      as (b0 & b1 & Hs); [lia|lia|].
    unfold lift. rewrite Hs. simpl.
    pose proof (ord_range b0). pose proof (ord_range b1).
    split; [lia|]. apply in_bounds_offset; unfold in_bounds, cursor; lia.
Qed.

Lemma land_word_range (p : Z) : is_word_value (Z.land p 65535).
Proof.
  unfold is_word_value. change 65535 with (Z.ones 16). rewrite Z.land_ones by lia.
  apply Z.mod_pos_bound. reflexivity.
Qed.

Lemma vm_safe_read_processed_value : vm_safe_with is_word_value read_processed_value.
Proof.
  unfold read_processed_value.
  eapply vm_safe_bind; [apply vm_safe_read_next_byte|intros table_index (v & -> & Hv)].
  eapply vm_safe_bind; [apply vm_safe_get_next_word|intros bit_pattern Hbp].
  eapply (vm_safe_bind any).
  - destruct (negb (bool_decide (Some v = Some 255))); [|apply vm_safe_ret; exact I].
    destruct bit_pattern as [p|]; simpl in Hbp.
    + unfold lift. rewrite extract_bit_field_zero by lia.
      apply (vm_safe_ret any (Some 0)). exact I.
    + apply (vm_safe_type_error any).
  - intros [q|] _; [apply vm_safe_ret, land_word_range|apply vm_safe_type_error].
Qed.

Lemma Forall_pop (P : Z -> Prop) (l : list Z) :
  List.Forall P l -> List.Forall P (Py.pop l).
Proof.
  unfold Py.pop. induction 1 as [|x l Hx Hl IH]; [constructor|].
  cbn [List.removelast]. destruct l; [constructor|]. constructor; assumption.
Qed.

Lemma Forall_set_last (P : Z -> Prop) (l : list Z) (x : Z) :
  List.Forall P l -> P x -> List.Forall P (Py.set_last l x).
Proof.
  intros Hl Hx. unfold Py.set_last. destruct l as [|y l]; [constructor|].
  apply List.Forall_app. split; [apply (Forall_pop P _ Hl)|repeat constructor; exact Hx].
Qed.

Lemma flag_is_word (c : bool) : is_word_value (flag c).
Proof. unfold is_word_value. destruct c; simpl; lia. Qed.

Lemma binary_operator_in_range (f : Z -> Z -> Z) (vs fs : list Z) :
  List.Forall is_word_value vs ->
  List.Forall is_word_value (fst (binary_operator f vs fs)).
Proof.
  intros H. unfold binary_operator.
  destruct (Py.last vs); [|exact H]. destruct (Py.last fs); [|exact H].
  apply Forall_pop, H.
Qed.

(** No operation puts anything but a 16-bit value on the value stack. *)
Lemma apply_operation_in_range (operation : Z) (vs fs : list Z) :
  List.Forall is_word_value vs ->
  List.Forall is_word_value (fst (apply_operation operation vs fs)).
Proof.
  intros H. unfold apply_operation.
  repeat match goal with
  | |- context [if ?c then _ else _] => destruct c
  end; try apply binary_operator_in_range; try exact H.
  - unfold logical_not_12. destruct (Py.last fs); [|exact H]. cbn [fst].
    destruct (1 <=? Py.len vs); [apply Forall_pop|]; exact H.
  - unfold logical_not_11. destruct (Py.last fs); exact H.
  - unfold zero_check_10. destruct (Py.last vs); [|exact H].
    apply Forall_set_last; [exact H|apply flag_is_word].
Qed.

Lemma bottom_or_zero_in_range (vs : list Z) :
  List.Forall is_word_value vs -> is_word_value (bottom_or_zero vs).
Proof.
  intros H. destruct H as [|v vs Hv _]; [unfold is_word_value; simpl; lia|exact Hv].
Qed.

Lemma vm_safe_vm_turn (vs fs : list Z) :
  List.Forall is_word_value vs -> vm_safe_with turn_in_range (vm_turn vs fs).
Proof.
  intros Hvs. unfold vm_turn.
  eapply vm_safe_bind; [apply vm_safe_read_next_byte|intros next_byte (v & -> & Hv)].
  unfold vm_turn_on.
  destruct (bool_decide (Some v = Some 255));
    [apply vm_safe_ret, bottom_or_zero_in_range, Hvs|].
  destruct (bool_decide (Some v = Some 0)).
  - eapply vm_safe_bind; [apply vm_safe_read_processed_value|intros value Hvalue].
    apply vm_safe_ret. cbn [turn_in_range]. unfold Py.append.
    apply List.Forall_app. split; [exact Hvs|constructor; [exact Hvalue|constructor]].
  - eapply vm_safe_bind; [apply vm_safe_read_next_byte|intros operation (op & -> & Hop)].
    pose proof (apply_operation_in_range op vs fs Hvs) as Hrange.
    destruct (apply_operation op vs fs) as [vs' fs'].
    apply vm_safe_ret. exact Hrange.
Qed.

Lemma vm_loop_contract (fuel : nat) :
  forall (vs fs : list Z) (w : World),
    List.Forall is_word_value vs ->
    in_bounds w ->
    (Z.to_nat (Py.len (command_data (GB w)) - cursor w) < fuel)%nat ->
    match vm_loop fuel vs fs w with
    | (Ok v, w') => is_word_value v /\ preserved w w' /\ in_bounds w'
    | (Raise e, w') => e = TypeError /\ preserved w w' /\ in_bounds w'
    | (Diverge, _) => False
    end.
Proof.
  induction fuel as [|fuel IH]; intros vs fs w Hvs Hw Hfuel; [lia|].
  cbn [vm_loop]. unfold bind.
  pose proof (vm_safe_vm_turn vs fs Hvs w Hw) as Hs.
  destruct (vm_turn vs fs w) as [[[v|vs' fs']|e|] w1] eqn:Hturn; simpl.
  - exact Hs.
  - destruct Hs as (Hvs' & Hw1 & Hb1).
    destruct (vm_turn_strict vs fs vs' fs' w w1 (in_bounds_nonneg w Hw) Hturn) as [Hc Hlt].
    assert (Hd : command_data (GB w1) = command_data (GB w)) by apply Hw1.
    specialize (IH vs' fs' w1 Hvs' Hb1 ltac:(rewrite Hd; lia)).
    destruct (vm_loop fuel vs' fs' w1) as [[r|e|] w2]; [| |exact IH];
      destruct IH as (H1 & H2 & H3);
      (split; [exact H1|]; split; [eapply preserved_trans; eassumption|exact H3]).
  - exact Hs.
  - exact Hs.
Qed.

(** X11: from a cursor inside the command data, or at their end,
    [execute_vm_code] always answers within its budget: it returns a 16-bit
    value or raises [TypeError] and nothing else, it leaves the two segments
    as they were, and the cursor moves forward and never past the end. *)
Theorem execute_vm_code_contract (w : World) :
  0 <= cursor w <= Py.len (command_data (GB w)) ->
  match execute_vm_code w with
  | (Ok v, w') =>
      0 <= v < 65536
      /\ preserved w w' /\ cursor w' <= Py.len (command_data (GB w))
  | (Raise e, w') =>
      e = TypeError
      /\ preserved w w' /\ cursor w' <= Py.len (command_data (GB w))
  | (Diverge, _) => False
  end.
Proof.
  intros Hw. unfold execute_vm_code.
  pose proof (vm_loop_contract (vm_budget w) [] [] w (List.Forall_nil _) Hw) as H.
  unfold vm_budget, cursor in *. specialize (H ltac:(lia)).
  destruct (vm_loop _ [] [] w) as [[r|e|] w']; [| |exact H];
    destruct H as (H1 & H2 & H3); (split; [exact H1|]); (split; [exact H2|]);
    destruct H2 as (Hd & _); unfold in_bounds, cursor in H3; rewrite Hd in H3; lia.
Qed.

Lemma execute_vm_code_contract_example :
  execute_vm_code (world_of_commands stream_five_minus_three)
  = (Ok 5, with_offset (world_of_commands stream_five_minus_three) 11)
  /\ 0 <= 5 < 65536
  /\ execute_vm_code (world_of_commands [0; 255; 5])
  = (Raise TypeError, with_offset (world_of_commands [0; 255; 5]) 2).
Proof.
  pose proof (execute_vm_code_contract (world_of_commands stream_five_minus_three)
                ltac:(vm_compute; split; discriminate)) as H.
  split; [vm_compute; reflexivity|]. split; [exact (proj1 H)|vm_compute; reflexivity].
Defined.

Lemma vm_budget_two (w : World) :
  cursor w + 2 <= Py.len (command_data (GB w)) ->
  exists n, vm_budget w = S (S n).
Proof.
  intros H. unfold vm_budget, cursor in *.
  exists (Z.to_nat (Py.len (command_data (GB w)) - command_data_offset (GB w)) - 1)%nat.
  lia.
Qed.

(** X12: an expression made of one operand and the end marker (the
    bytes 0, index, low, high, 0xFF) evaluates to the 16-bit word of low and
    high, low byte first, when the index byte is 0xFF and to 0 otherwise, and the evaluation
    consumes exactly these five bytes. *)
Theorem vm_single_operand_expression
    (w : World) (pre rest : list byte) (index lo hi : byte) :
  command_data (GB w) = pre ++ x00 :: index :: lo :: hi :: xff :: rest ->
  command_data_offset (GB w) = Py.len pre ->
  execute_vm_code w
  = (Ok (if Py.ord index =? 255 then Py.ord lo + 256 * Py.ord hi else 0),
     with_offset w (Py.len pre + 5)).
Proof.
  intros Hd Ho. unfold execute_vm_code.
  pose proof (len_nonneg pre) as Hpre. pose proof (len_nonneg rest) as Hrest.
  destruct (vm_budget_two w) as [n ->].
  { unfold cursor. rewrite Hd, Ho, len_app.
    change (Py.len (x00 :: index :: lo :: hi :: xff :: rest))
      with (Z.of_nat (S (S (S (S (S (List.length rest))))))). lia. }
  cbn [vm_loop]. unfold bind at 1. unfold vm_turn at 1. unfold bind at 1.
  rewrite (read_next_byte_here w pre _ x00 Hd Ho).
  change (Py.ord x00) with 0. unfold vm_turn_on at 1.
  rewrite bool_decide_eq_false_2 by discriminate.
  rewrite bool_decide_eq_true_2 by reflexivity.
  unfold bind at 1.
  rewrite (read_processed_value_here (with_offset w (Py.len pre + 1)) (pre ++ [x00])
             (xff :: rest) index lo hi); cycle 1.
  { simpl. rewrite Hd, <- List.app_assoc. reflexivity. }
  { simpl. rewrite len_app. reflexivity. }
  rewrite with_offset_twice, len_app. change (Py.len [x00]) with 1.
  unfold ret at 1. cbv beta iota.
  unfold bind at 1. unfold vm_turn at 1. unfold bind at 1.
  rewrite (read_next_byte_here (with_offset w (Py.len pre + 1 + 3))
             (pre ++ [x00; index; lo; hi]) rest xff); cycle 1.
  { simpl. rewrite Hd, <- List.app_assoc. reflexivity. }
  { simpl. rewrite len_app. unfold Py.len. simpl List.length. lia. }
  rewrite with_offset_twice, len_app.
  change (Py.ord xff) with 255. unfold vm_turn_on.
  rewrite bool_decide_eq_true_2 by reflexivity.
  unfold ret. cbn [bottom_or_zero Py.append List.app].
  f_equal. f_equal. unfold Py.len. simpl List.length. lia.
Qed.

Lemma vm_single_operand_expression_example :
  execute_vm_code (with_offset (world_of_commands [7; 0; 255; 52; 18; 255; 9]) 1)
  = (Ok 4660, with_offset (world_of_commands [7; 0; 255; 52; 18; 255; 9]) 6)
  /\ execute_vm_code (world_of_commands [0; 3; 52; 18; 255])
  = (Ok 0, with_offset (world_of_commands [0; 3; 52; 18; 255]) 5).
Proof.
  split.
  - exact (vm_single_operand_expression
             (with_offset (world_of_commands [7; 0; 255; 52; 18; 255; 9]) 1)
             (Py.bytes [7]) (Py.bytes [9]) (Py.byte_of 255) (Py.byte_of 52) (Py.byte_of 18)
             eq_refl eq_refl).
  - exact (vm_single_operand_expression (world_of_commands [0; 3; 52; 18; 255])
             [] [] (Py.byte_of 3) (Py.byte_of 52) (Py.byte_of 18) eq_refl eq_refl).
Defined.

Lemma get_next_word_short (w : World) :
  Py.len (command_data (GB w)) <= command_data_offset (GB w) + 1 ->
  get_next_word w = (Ok None, w).
Proof.
  intros H. unfold get_next_word, bind, get_GB.
  apply Z.leb_le in H. rewrite H. reflexivity.
Qed.

(** Without a word to read the operand cannot be formed. *)
Lemma read_processed_value_short (w w1 : World) (table_index : Z) :
  read_next_byte w = (Ok (Some table_index), w1) ->
  Py.len (command_data (GB w1)) <= command_data_offset (GB w1) + 1 ->
  read_processed_value w = (Raise TypeError, w1).
Proof.
  intros Hread Hshort. unfold read_processed_value. unfold bind at 1. rewrite Hread.
  unfold bind at 1. rewrite (get_next_word_short w1 Hshort).
  unfold bind at 1.
  destruct (negb (bool_decide (Some table_index = Some 255))); reflexivity.
Qed.

Lemma vm_turn_truncated_operand
    (w : World) (pre tail : list byte) (vs fs : list Z) :
  command_data (GB w) = pre ++ x00 :: tail ->
  Py.len tail < 3 ->
  command_data_offset (GB w) = Py.len pre ->
  vm_turn vs fs w
  = (Raise TypeError, with_offset w (Py.len pre + 1 + Z.min 1 (Py.len tail))).
Proof.
  intros Hd Hshort Ho. pose proof (len_nonneg pre) as Hpre.
  unfold vm_turn. unfold bind at 1.
  rewrite (read_next_byte_here w pre tail x00 Hd Ho).
  change (Py.ord x00) with 0. unfold vm_turn_on.
  rewrite bool_decide_eq_false_2 by discriminate.
  rewrite bool_decide_eq_true_2 by reflexivity.
  unfold bind at 1.
  set (w1 := with_offset w (Py.len pre + 1)).
  assert (Hd1 : command_data (GB w1) = (pre ++ [x00]) ++ tail).
  { simpl. rewrite Hd, <- List.app_assoc. reflexivity. }
  assert (Ho1 : command_data_offset (GB w1) = Py.len (pre ++ [x00])).
  { simpl. rewrite len_app. reflexivity. }
  destruct tail as [|i tail].
  - rewrite (read_processed_value_short w1 w1 255).
    + rewrite Z.min_r by (unfold Py.len; simpl; lia).
      unfold w1. rewrite Z.add_0_r. reflexivity.
    + apply read_next_byte_at_end. rewrite Hd1, Ho1, List.app_nil_r. lia.
    + rewrite Hd1, Ho1, List.app_nil_r. lia.
  - rewrite (read_processed_value_short w1 (with_offset w1 (Py.len (pre ++ [x00]) + 1))
               (Py.ord i)).
    + unfold w1. rewrite with_offset_twice, len_app. change (Py.len [x00]) with 1.
      rewrite Z.min_l by (unfold Py.len; simpl; lia).
      f_equal.
    + apply (read_next_byte_here w1 (pre ++ [x00]) tail i Hd1 Ho1).
    + cbn [GB with_offset with_GB command_data command_data_offset].
      change (command_data (GB w)) with (command_data (GB w1)).
      rewrite Hd1, !len_app. change (Py.len [x00]) with 1.
      assert (Py.len (i :: tail) = 1 + Py.len tail)
        by (unfold Py.len; cbn [List.length]; lia).
      lia.
Qed.

(** X13: an operand byte 0 with fewer than three bytes left after it
    makes [execute_vm_code] raise [TypeError], the cursor resting behind the
    index byte if there is one, else behind the operand byte. *)
Theorem vm_truncated_operand_raises_TypeError
    (w : World) (pre tail : list byte) :
  command_data (GB w) = pre ++ x00 :: tail ->
  Py.len tail < 3 ->
  command_data_offset (GB w) = Py.len pre ->
  execute_vm_code w
  = (Raise TypeError, with_offset w (Py.len pre + 1 + Z.min 1 (Py.len tail))).
Proof.
  intros Hd Hshort Ho. unfold execute_vm_code, vm_budget.
  cbn [vm_loop]. unfold bind.
  rewrite (vm_turn_truncated_operand w pre tail [] [] Hd Hshort Ho). reflexivity.
Qed.

Lemma vm_truncated_operand_raises_TypeError_example :
  execute_vm_code (world_of_commands [0; 255; 5])
  = (Raise TypeError, with_offset (world_of_commands [0; 255; 5]) 2).
Proof.
  exact (vm_truncated_operand_raises_TypeError (world_of_commands [0; 255; 5])
           [] (Py.bytes [255; 5]) eq_refl ltac:(vm_compute; reflexivity) eq_refl).
Defined.

(** *** NormalOpcodeTable.py: the name cache and the string opcodes *)

(** X14: [cache_name] never fails and never touches the buffers. For a
    name enclosed in the brackets, [get_name] at that offset then returns the
    name, [get_last_saved_name] returns the name and the offset, and the
    entries at other offsets are as before; for any other name the world is
    unchanged. *)
Theorem cache_name_then_get_name (offset : Z) (name : string) (w : World) :
  exists w',
    cache_name offset name w = (Ok tt, w')
    /\ GB w' = GB w
    /\ if _is_japanese_name_bracket name then
         get_name (name_cache (the_normal w')) offset = Some name
         /\ get_last_saved_name (name_cache (the_normal w')) = (name, Some offset)
         /\ (forall other, other <> offset ->
               get_name (name_cache (the_normal w')) other
               = get_name (name_cache (the_normal w)) other)
       else w' = w.
Proof.
  unfold cache_name, bind, get_world.
  destruct (_is_japanese_name_bracket name) eqn:E.
  - unfold set_name_cache, when, print, ret.
    destruct (NameCache_debug (name_cache (the_normal w))); eexists;
      (split; [reflexivity|]); (split; [reflexivity|]);
      unfold get_name, get_last_saved_name; cbn;
      (split; [apply lookup_insert_eq|]); (split; [reflexivity|]);
      intros other Hne; apply lookup_insert_ne; congruence.
  - eexists. split; [reflexivity|]. split; reflexivity.
Qed.

Section StringOpcode.

Variable decode_shift_jis : list byte -> option string.
Variable decode_cp932 : list byte -> option string.

(** X16: a string opcode whose word points at a non-empty string in the
    text data (at most 5000 bytes without a zero byte, then a terminator or
    the end of the data) which Shift-JIS decodes, consumes the word, prints
    the offset, the two flags of the opcode, the length read and the text,
    hands offset and text to [cache_name], and resolves to the text. *)
Theorem string_opcode_prints_the_text_at_its_offset
    (w : World) (pre rest : list byte) (op lo hi : byte)
    (tpre body tail : list byte) (k : Z) (s : string) :
  Normal_debug (the_normal w) = true ->
  command_data (GB w) = pre ++ op :: lo :: hi :: rest ->
  command_data_offset (GB w) = Py.len pre + 1 ->
  text_data (GB w) = tpre ++ body ++ tail ->
  Py.len tpre = Py.ord lo + 256 * Py.ord hi ->
  zero_free body ->
  1 <= Py.len body <= 5000 ->
  terminator_length tail = Some k ->
  decode_shift_jis body = Some s ->
  _handle_string_opcode decode_shift_jis decode_cp932 (Py.len pre) w
  = (cache_name (Py.len tpre) (strip_nul s) ;;; ret (Some (strip_nul s)))
      (with_stdout (with_offset w (Py.len pre + 3))
         (stdout w ++ [NormalText (Py.len tpre) (flag (Py.ord op =? 0))
                         (flag (flag (Py.ord op =? 0) =? 0))
                         (Py.len body + k) (strip_nul s)])).
Proof.
  intros Hdbg Hd Ho Ht Hoff Hz Hlen Hk Hdec.
  assert (Hk0 : 0 <= k).
  { destruct tail as [|z [|z2 tail]]; cbn in Hk;
      repeat match type of Hk with
             | (if ?c then _ else _) = _ => destruct c
             end; inversion Hk; lia. }
  pose proof (len_nonneg tail) as Htail.
  unfold _handle_string_opcode.
  unfold bind at 1. unfold get_GB at 1. cbv beta iota.
  rewrite Hd at 1. rewrite getitem_app_here.
  unfold bind at 1. unfold ret at 1. cbv beta iota.
  unfold bind at 1.
  rewrite (get_next_word_here w (pre ++ [op]) rest lo hi); cycle 1.
  { rewrite Hd, <- List.app_assoc. reflexivity. }
  { rewrite Ho, len_app. reflexivity. }
  rewrite <- Hoff.
  unfold bind at 1. unfold normal_debug at 1. cbv beta iota.
  change (the_normal (with_offset w (Py.len (pre ++ [op]) + 2))) with (the_normal w).
  rewrite Hdbg.
  destruct (Py.len tpre <? Py.len (text_data (GB w))) eqn:E;
    [|apply Z.ltb_ge in E; rewrite Ht, !len_app in E; lia].
  unfold bind at 1. rewrite Ht.
  rewrite (read_C_string_of_loop decode_shift_jis decode_cp932
             (tpre ++ body ++ tail) body (Py.len tpre) (Py.len tpre + Py.len body + k) _
             (read_C_string_loop_run tpre body tail k Hz ltac:(lia) Hk)).
  rewrite Hdec.
  replace (Py.len tpre + Py.len body + k - Py.len tpre) with (Py.len body + k) by lia.
  cbv beta iota.
  destruct (Py.len body + k =? 0) eqn:E0; [apply Z.eqb_eq in E0; lia|].
  cbn [andb]. unfold bind at 1. unfold when at 1, print at 1. cbv beta iota.
  rewrite len_app. change (Py.len [op]) with 1.
  replace (Py.len pre + 1 + 2) with (Py.len pre + 3) by lia.
  reflexivity.
Qed.

(** X17: a string opcode with fewer than two bytes left for its offset
    word prints the end-of-data line, whether or not the debug flag is set,
    consumes nothing and resolves to no string. *)
Theorem string_opcode_without_its_offset_word
    (w : World) (op : byte) (current_offset : Z) :
  Py.getitem (command_data (GB w)) current_offset = Some op ->
  Py.len (command_data (GB w)) <= command_data_offset (GB w) + 1 ->
  _handle_string_opcode decode_shift_jis decode_cp932 current_offset w
  = (Ok None,
     with_stdout w
       (stdout w ++ [NormalStringEOF current_offset (Py.len (command_data (GB w)))])).
Proof.
  intros Hop Hshort. unfold _handle_string_opcode.
  unfold bind at 1. unfold get_GB at 1. cbv beta iota. rewrite Hop.
  unfold bind at 1. unfold ret at 1. cbv beta iota.
  unfold bind at 1. rewrite (get_next_word_short w Hshort).
  reflexivity.
Qed.

(** X18: a string opcode whose word is not an offset inside the text
    data consumes the word, prints the invalid-offset line when the debug flag
    is set, reads no string and leaves the name cache alone. *)
Theorem string_opcode_with_an_offset_outside_the_text
    (w : World) (pre rest : list byte) (op lo hi : byte) :
  command_data (GB w) = pre ++ op :: lo :: hi :: rest ->
  command_data_offset (GB w) = Py.len pre + 1 ->
  Py.len (text_data (GB w)) <= Py.ord lo + 256 * Py.ord hi ->
  _handle_string_opcode decode_shift_jis decode_cp932 (Py.len pre) w
  = (Ok None,
     if Normal_debug (the_normal w)
     then with_stdout (with_offset w (Py.len pre + 3))
            (stdout w ++ [NormalInvalidTextOffset (Py.ord lo + 256 * Py.ord hi)
                            (Py.len (text_data (GB w)))])
     else with_offset w (Py.len pre + 3)).
Proof.
  intros Hd Ho Hout. unfold _handle_string_opcode.
  unfold bind at 1. unfold get_GB at 1. cbv beta iota.
  rewrite Hd at 1. rewrite getitem_app_here.
  unfold bind at 1. unfold ret at 1. cbv beta iota.
  unfold bind at 1.
  rewrite (get_next_word_here w (pre ++ [op]) rest lo hi); cycle 1.
  { rewrite Hd, <- List.app_assoc. reflexivity. }
  { rewrite Ho, len_app. reflexivity. }
  unfold bind at 1. unfold normal_debug at 1. cbv beta iota.
  change (the_normal (with_offset w (Py.len (pre ++ [op]) + 2))) with (the_normal w).
  destruct (_ <? _) eqn:E; [apply Z.ltb_lt in E; lia|].
  rewrite len_app. change (Py.len [op]) with 1.
  replace (Py.len pre + 1 + 2) with (Py.len pre + 3) by lia.
  unfold bind, when, print, ret.
  destruct (Normal_debug (the_normal w)); reflexivity.
Qed.

End StringOpcode.

Lemma string_opcode_prints_the_text_at_its_offset_example :
  _handle_string_opcode sample_decode sample_decode 0
    (with_offset world_before_name 1)
  = (Ok (Some "【Name】"%string),
     mkWorld (mkGlobalBuffer sample_string_commands sample_text_data 3 0)
       (mkSysCallOpcodeDisassembler
          (mkNormalOpcodeDisassembler true name_cache_after_name) true)
       [NormalText 100 0 1 10 "【Name】"; NameCached "【Name】" 100]).
Proof.
  refine (eq_trans
            (string_opcode_prints_the_text_at_its_offset sample_decode sample_decode
               (with_offset world_before_name 1) [] (Py.bytes [1; 109; 0])
               (Py.byte_of 1) (Py.byte_of 100) (Py.byte_of 0)
               (List.repeat x20 100) name_bytes (Py.bytes [0; 0; 0]) 2 "【Name】"%string
               eq_refl eq_refl eq_refl eq_refl eq_refl _ _ eq_refl _) _).
  - repeat constructor; vm_compute; discriminate.
  - vm_compute. split; discriminate.
  - vm_compute. reflexivity.
  - vm_compute. reflexivity.
Defined.

Lemma string_opcode_without_its_offset_word_example :
  _handle_string_opcode sample_decode sample_decode 0
    (with_offset (world_of_commands [1; 100]) 1)
  = (Ok None,
     with_stdout (with_offset (world_of_commands [1; 100]) 1) [NormalStringEOF 0 2]).
Proof.
  exact (string_opcode_without_its_offset_word sample_decode sample_decode
           (with_offset (world_of_commands [1; 100]) 1) (Py.byte_of 1) 0
           eq_refl ltac:(vm_compute; discriminate)).
Defined.

Lemma string_opcode_with_an_offset_outside_the_text_example :
  _handle_string_opcode sample_decode sample_decode 0
    (with_offset (world_of_commands [1; 100; 0]) 1)
  = (Ok None,
     with_stdout (with_offset (world_of_commands [1; 100; 0]) 3)
       [NormalInvalidTextOffset 100 0]).
Proof.
  exact (string_opcode_with_an_offset_outside_the_text sample_decode sample_decode
           (with_offset (world_of_commands [1; 100; 0]) 1) [] []
           (Py.byte_of 1) (Py.byte_of 100) (Py.byte_of 0)
           eq_refl eq_refl ltac:(vm_compute; discriminate)).
Defined.

(** *** The name cache holds only bracketed names *)

Section KeepsNames.
Context {A B : Type}.

Lemma keeps_ret (a : A) : keeps_names (ret a).
Proof. intros w H. exact H. Qed.

Lemma keeps_raise (e : exn) : keeps_names (@raise A e).
Proof. intros w H. exact H. Qed.

Lemma keeps_diverge : keeps_names (@diverge A).
Proof. intros w H. exact H. Qed.

Lemma keeps_lift (r : result A) : keeps_names (lift r).
Proof. intros w H. exact H. Qed.

Lemma keeps_bind (m : M A) (k : A -> M B) :
  keeps_names m -> (forall a, keeps_names (k a)) -> keeps_names (bind m k).
Proof.
  intros Hm Hk w H. unfold bind. specialize (Hm w H).
  destruct (m w) as [[a|e|] w1]; [apply Hk| |]; exact Hm.
Qed.

Lemma keeps_try_except (m : M A) (handler : exn -> M A) :
  keeps_names m -> (forall e, keeps_names (handler e)) ->
  keeps_names (try_except m handler).
Proof.
  intros Hm Hh w H. unfold try_except. specialize (Hm w H).
  destruct (m w) as [[a|e|] w1]; [|apply Hh|]; exact Hm.
Qed.

(** A loop that takes its budget from the world it starts in. *)
Lemma keeps_budget (budget : World -> nat) (loop : nat -> M A) :
  (forall fuel, keeps_names (loop fuel)) -> keeps_names (fun w => loop (budget w) w).
Proof. intros Hl w H. exact (Hl (budget w) w H). Qed.

End KeepsNames.

Lemma keeps_print (l : Line) : keeps_names (print l).
Proof. intros w H. exact H. Qed.

Lemma keeps_when (flag : bool) (m : M unit) : keeps_names m -> keeps_names (when flag m).
Proof. intros Hm. destruct flag; [exact Hm|apply keeps_ret]. Qed.

Lemma keeps_get_GB : keeps_names get_GB.
Proof. intros w H. exact H. Qed.

Lemma keeps_get_world : keeps_names get_world.
Proof. intros w H. exact H. Qed.

Lemma keeps_normal_debug : keeps_names normal_debug.
Proof. intros w H. exact H. Qed.

Lemma keeps_sys_debug : keeps_names sys_debug.
Proof. intros w H. exact H. Qed.

Lemma keeps_set_command_data_offset (off : Z) : keeps_names (set_command_data_offset off).
Proof. intros w H. exact H. Qed.

Create HintDb keeps.
#[local] Hint Resolve keeps_print keeps_get_GB keeps_get_world keeps_normal_debug
  keeps_sys_debug keeps_set_command_data_offset : keeps.

Ltac keeps_step :=
  match goal with
  | |- keeps_names (bind _ _) => apply keeps_bind; [|cbv beta; intros ?]
  | |- keeps_names (ret _) => apply keeps_ret
  | |- keeps_names (raise _) => apply keeps_raise
  | |- keeps_names diverge => apply keeps_diverge
  | |- keeps_names (lift _) => apply keeps_lift
  | |- keeps_names (when _ _) => apply keeps_when
  | |- keeps_names (try_except _ _) => apply keeps_try_except; [|intros ?]
  | |- keeps_names (if ?b then _ else _) => destruct b
  | |- keeps_names (match ?x with _ => _ end) => destruct x
  | |- keeps_names _ => solve [eauto with keeps]
  end.

Ltac keeps_tac := repeat keeps_step.

(** The one place where the cache is written. *)
Lemma keeps_cache_name (offset : Z) (name : string) : keeps_names (cache_name offset name).
Proof.
  intros w H. unfold cache_name, bind, get_world.
  destruct (_is_japanese_name_bracket name) eqn:E; [|exact H].
  unfold set_name_cache, when, print, ret.
  assert (Hnew : names_bracketed
                   (mkNameCache (<[offset := name]> (cache (name_cache (the_normal w))))
                                name (Some offset)
                                (NameCache_debug (name_cache (the_normal w))))).
  { intros o n. unfold get_name. cbn [cache].
    destruct (Z.eq_dec o offset) as [->|Hne].
    - rewrite lookup_insert_eq. intros [= <-]. exact E.
    - rewrite lookup_insert_ne by congruence. apply H. }
  destruct (NameCache_debug (name_cache (the_normal w))); exact Hnew.
Qed.
#[local] Hint Resolve keeps_cache_name : keeps.

Lemma keeps_get_next_byte : keeps_names get_next_byte.
Proof. unfold get_next_byte. keeps_tac. Qed.

Lemma keeps_get_next_word : keeps_names get_next_word.
Proof. unfold get_next_word. keeps_tac. Qed.
#[local] Hint Resolve keeps_get_next_byte keeps_get_next_word : keeps.

Lemma keeps_read_next_byte : keeps_names read_next_byte.
Proof. unfold read_next_byte. keeps_tac. Qed.
#[local] Hint Resolve keeps_read_next_byte : keeps.

Lemma keeps_read_processed_value : keeps_names read_processed_value.
Proof. unfold read_processed_value. keeps_tac. Qed.
#[local] Hint Resolve keeps_read_processed_value : keeps.

Lemma keeps_vm_loop (fuel : nat) :
  forall vs fs : list Z, keeps_names (vm_loop fuel vs fs).
Proof.
  induction fuel as [|fuel IH]; intros vs fs; cbn [vm_loop]; [apply keeps_diverge|].
  apply keeps_bind.
  - unfold vm_turn, vm_turn_on. keeps_tac.
  - intros [v|vs' fs']; [apply keeps_ret|apply IH].
Qed.

Lemma keeps_execute_vm_code : keeps_names execute_vm_code.
Proof.
  unfold execute_vm_code.
  apply (keeps_budget vm_budget (fun fuel => vm_loop fuel [] [])).
  intros fuel. apply keeps_vm_loop.
Qed.
#[local] Hint Resolve keeps_execute_vm_code : keeps.

Lemma keeps_execute_single : keeps_names execute_single.
Proof. exact keeps_execute_vm_code. Qed.

Lemma keeps_execute_multiple (count : nat) : keeps_names (execute_multiple count).
Proof. induction count as [|count IH]; cbn [execute_multiple]; keeps_tac. Qed.
#[local] Hint Resolve keeps_execute_single keeps_execute_multiple : keeps.

Section KeepsCodec.

Variable decode_shift_jis : list byte -> option string.
Variable decode_cp932 : list byte -> option string.

Lemma keeps_read_C_string (data : list byte) (txt_offset : option Z) :
  keeps_names (read_C_string decode_shift_jis decode_cp932 data txt_offset).
Proof. unfold read_C_string. keeps_tac. Qed.
#[local] Hint Resolve keeps_read_C_string : keeps.

Lemma keeps__handle_string_opcode (current_offset : Z) :
  keeps_names (_handle_string_opcode decode_shift_jis decode_cp932 current_offset).
Proof. unfold _handle_string_opcode. keeps_tac. Qed.
#[local] Hint Resolve keeps__handle_string_opcode : keeps.

Lemma keeps_call_handler (h : Handler) (current_offset : Z) :
  keeps_names (call_handler decode_shift_jis decode_cp932 h current_offset).
Proof.
  destruct h; unfold call_handler;
    unfold _handle_newline, _handle_simple_execution, _handle_simple_vm_execution,
      _handle_double_vm_execution, _handle_play_mpg_video, _handle_scenario_vm,
      _handle_get_choice_hints, _handle_unk_0x09, _handle_show_images,
      _handle_show_standstills, _handle_unk_0x46, _handle_unk_0xAC, _handle_unk_0xB4,
      _handle_unk_0xF1, _handle_vm_results, _handle_unk_0xA6, _handle_unk_0x6C;
    keeps_tac.
Qed.
#[local] Hint Resolve keeps_call_handler : keeps.

Lemma keeps_process_single_command :
  keeps_names (process_single_command decode_shift_jis decode_cp932).
Proof.
  unfold process_single_command, read_next_opcode, _handle_unknown_opcode. keeps_tac.
Qed.
#[local] Hint Resolve keeps_process_single_command : keeps.

Lemma keeps__get_next_byte : keeps_names _get_next_byte.
Proof. unfold _get_next_byte. keeps_tac. Qed.

Lemma keeps__get_next_word : keeps_names _get_next_word.
Proof. unfold _get_next_word. keeps_tac. Qed.
#[local] Hint Resolve keeps__get_next_byte keeps__get_next_word : keeps.

Lemma keeps__safe_get_next_byte : keeps_names _safe_get_next_byte.
Proof. unfold _safe_get_next_byte. keeps_tac. Qed.

Lemma keeps__safe_get_next_word : keeps_names _safe_get_next_word.
Proof. unfold _safe_get_next_word. keeps_tac. Qed.
#[local] Hint Resolve keeps__safe_get_next_byte keeps__safe_get_next_word : keeps.

Lemma keeps_switch_case_loop (remaining : nat) :
  forall (i x : Z) (found : bool), keeps_names (switch_case_loop remaining i x found).
Proof.
  induction remaining as [|remaining IH]; intros i x found; cbn [switch_case_loop];
    keeps_tac; apply IH.
Qed.
#[local] Hint Resolve keeps_switch_case_loop : keeps.

Lemma keeps_skip_zero_padding (fuel : nat) :
  forall next_byte : option Z, keeps_names (skip_zero_padding fuel next_byte).
Proof.
  induction fuel as [|fuel IH]; intros next_byte; cbn [skip_zero_padding];
    keeps_tac; apply IH.
Qed.
#[local] Hint Resolve keeps_skip_zero_padding : keeps.

Lemma keeps__handle_scenario_load_opcode (current_offset : Z) :
  keeps_names (_handle_scenario_load_opcode current_offset).
Proof.
  unfold _handle_scenario_load_opcode, _handle_scenario_load, _evaluate_expression.
  keeps_tac.
  apply (keeps_budget pass_budget (fun fuel => skip_zero_padding fuel _)).
  intros fuel. apply keeps_skip_zero_padding.
Qed.
#[local] Hint Resolve keeps__handle_scenario_load_opcode : keeps.

Lemma keeps_call_sys_handler (h : SysHandler) (current_offset : Z) :
  keeps_names (call_sys_handler decode_shift_jis decode_cp932 h current_offset).
Proof.
  destruct h; unfold call_sys_handler;
    unfold _handle_conditional_jump, _handle_return, _handle_scenario_call,
      _handle_end_processing, _handle_conditional_skip, _handle_basic_operation,
      _handle_play_wav_opcode, _handle_play_wav, _handle_audio_operation,
      _handle_audio_op, _handle_simple_jump, _handle_switch_case, switch_case_scan,
      _handle_call_operation_opcode, _handle_call_operation,
      _evaluate_expression, _main_interpreter;
    keeps_tac.
Qed.
#[local] Hint Resolve keeps_call_sys_handler : keeps.

Lemma keeps_process_sys_calls_loop (fuel : nat) :
  keeps_names (process_sys_calls_loop decode_shift_jis decode_cp932 fuel).
Proof.
  induction fuel as [|fuel IH]; cbn [process_sys_calls_loop]; [apply keeps_diverge|].
  unfold _process_opcode, _process_extended_opcode, _process_basic_opcode.
  keeps_tac; exact IH.
Qed.


End KeepsCodec.


(** *** The inner dispatcher never raises *)

Section InnerDispatcher.

Variable decode_shift_jis : list byte -> option string.
Variable decode_cp932 : list byte -> option string.

(** [process_single_command] answers 0 or -1, whatever its handler does. *)
Lemma process_single_command_answers (w : World) :
  0 <= cursor w ->
  exists r w',
    process_single_command decode_shift_jis decode_cp932 w = (Ok r, w')
    /\ (r = 0 \/ r = -1).
Proof.
  intros H0.
  pose proof (safe_process_single_command decode_shift_jis decode_cp932 w H0) as Hs.
  unfold process_single_command, try_except in *.
  match goal with
  | |- context [let (_, _) := ?m w in _] => destruct (m w) as [[r0|e|] w1] eqn:Hin
  end.
  - exists r0, w1. split; [reflexivity|].
    unfold bind at 1 in Hin. unfold get_GB at 1 in Hin. cbv beta iota in Hin.
    destruct (Py.len (command_data (GB w)) <=? command_data_offset (GB w)).
    { injection Hin as <- _. right. reflexivity. }
    unfold bind at 1 in Hin.
    destruct (read_next_opcode w) as [[opcode|e|] w2]; try discriminate.
    unfold bind at 1 in Hin. unfold normal_debug at 1 in Hin. cbv beta iota in Hin.
    destruct opcode as [opcode|].
    + unfold bind at 1 in Hin.
      destruct (when _ _ w2) as [[[]|e|] w3]; try discriminate.
      destruct (opcode_handlers !! opcode) as [handler|].
      * unfold bind at 1 in Hin.
        destruct (call_handler _ _ handler _ w3) as [[[]|e|] w4]; try discriminate.
        injection Hin as <- _. left. reflexivity.
      * unfold bind at 1 in Hin.
        destruct (_handle_unknown_opcode _ _ w3) as [[[]|e|] w4]; try discriminate.
        injection Hin as <- _. right. reflexivity.
    + unfold bind at 1 in Hin.
      destruct (when _ _ w2) as [[[]|e|] w3]; try discriminate.
      injection Hin as <- _. right. reflexivity.
  - unfold bind, normal_debug, when, print, ret.
    destruct (Normal_debug (the_normal w1)); eexists _, _; (split; [reflexivity|]);
      right; reflexivity.
  - contradiction.
Qed.

Lemma process_all_commands_loop_answers (fuel : nat) :
  forall w : World,
    0 <= cursor w ->
    (Z.to_nat (Py.len (command_data (GB w)) - cursor w) < fuel)%nat ->
    exists w', process_all_commands_loop decode_shift_jis decode_cp932 fuel w = (Ok tt, w').
Proof.
  induction fuel as [|fuel IH]; intros w H0 Hfuel; [lia|].
  cbn [process_all_commands_loop]. unfold bind at 1. unfold get_GB at 1.
  cbv beta iota.
  destruct (command_data_offset (GB w) <? Py.len (command_data (GB w))) eqn:E;
    [|eexists; reflexivity].
  unfold bind at 1.
  destruct (process_single_command_answers w H0) as (r & w1 & Hrun & Hr).
  rewrite Hrun.
  destruct Hr as [-> | ->]; [|eexists; reflexivity].
  change (0 =? -1) with false. cbv iota.
  pose proof (safe_process_single_command decode_shift_jis decode_cp932 w H0) as Hs.
  rewrite Hrun in Hs. destruct Hs as [_ Hw1].
  pose proof (process_single_command_strict decode_shift_jis decode_cp932 w w1 0 H0 Hrun
                ltac:(lia)) as Hc.
  assert (Hd : command_data (GB w1) = command_data (GB w)) by apply Hw1.
  apply Z.ltb_lt in E. unfold cursor in *.
  apply IH; [lia|rewrite Hd; lia].
Qed.

(** X19: from a non-negative cursor [process_single_command] always
    returns, with 0 or with -1 and never with an exception; it leaves the two
    segments as they were, and when it returns 0 it has consumed at least the
    opcode byte. *)
Theorem process_single_command_returns_0_or_minus_1 (w : World) :
  0 <= cursor w ->
  exists r w',
    process_single_command decode_shift_jis decode_cp932 w = (Ok r, w')
    /\ (r = 0 \/ r = -1)
    /\ preserved w w'
    /\ (r = 0 -> cursor w < cursor w').
Proof.
  intros H0.
  destruct (process_single_command_answers w H0) as (r & w' & Hrun & Hr).
  exists r, w'. split; [exact Hrun|]. split; [exact Hr|].
  pose proof (safe_process_single_command decode_shift_jis decode_cp932 w H0) as Hs.
  rewrite Hrun in Hs. split; [exact (proj2 Hs)|].
  intros ->.
  exact (process_single_command_strict decode_shift_jis decode_cp932 w w' 0 H0 Hrun
           ltac:(lia)).
Qed.

(** X20: from a non-negative cursor [process_all_commands] always
    returns normally: its [except] clause, which would raise
    [NormalOpcodeDisassemblerException], is never entered. *)
Theorem process_all_commands_never_raises (w : World) :
  0 <= cursor w ->
  exists w',
    process_all_commands decode_shift_jis decode_cp932 w = (Ok tt, w')
    /\ preserved w w'.
Proof.
  intros H0.
  pose proof (safe_process_all_commands decode_shift_jis decode_cp932 w H0) as Hs.
  unfold process_all_commands, try_except in *.
  destruct (process_all_commands_loop_answers (pass_budget w) w H0) as [w' Hrun].
  { unfold pass_budget, cursor. lia. }
  rewrite Hrun in *. exists w'. split; [reflexivity|exact (proj2 Hs)].
Qed.

End InnerDispatcher.

Lemma process_single_command_returns_0_or_minus_1_example :
  exists r w',
    process_single_command sample_decode sample_decode (world_of_commands [4; 3]) = (Ok r, w')
    /\ (r = 0 \/ r = -1)
    /\ preserved (world_of_commands [4; 3]) w'
    /\ (r = 0 -> cursor (world_of_commands [4; 3]) < cursor w').
Proof.
  exact (process_single_command_returns_0_or_minus_1 sample_decode sample_decode
           (world_of_commands [4; 3]) ltac:(vm_compute; discriminate)).
Defined.

Lemma process_all_commands_never_raises_example :
  exists w',
    process_all_commands sample_decode sample_decode (world_of_commands [4; 3; 4]) = (Ok tt, w')
    /\ preserved (world_of_commands [4; 3; 4]) w'.
Proof.
  exact (process_all_commands_never_raises sample_decode sample_decode
           (world_of_commands [4; 3; 4]) ltac:(vm_compute; discriminate)).
Defined.

(** X21: opcode 0x00 of the outer dispatcher, which runs one command
    of the inner dispatcher, always returns normally: no error of the inner
    command, an unknown normal opcode included, ends the outer loop. *)
Theorem basic_operation_never_fails
    (decode_shift_jis decode_cp932 : list byte -> option string)
    (w : World) (current_offset : Z) :
  0 <= cursor w ->
  exists w',
    _handle_basic_operation decode_shift_jis decode_cp932 current_offset w = (Ok tt, w')
    /\ _process_opcode decode_shift_jis decode_cp932 0 current_offset w = (Ok tt, w')
    /\ preserved w w'.
Proof.
  intros H0.
  assert (Hrun : exists w', _handle_basic_operation decode_shift_jis decode_cp932
                              current_offset w = (Ok tt, w')).
  { unfold _handle_basic_operation, _main_interpreter.
    unfold bind at 1. unfold sys_debug at 1. cbv beta iota. unfold bind at 1.
    set (w1 := if SysCall_debug (sys_call_executer w)
               then with_stdout w (stdout w ++ [SysMainInterpreter current_offset])
               else w).
    assert (Hwhen : when (SysCall_debug (sys_call_executer w))
                         (print (SysMainInterpreter current_offset)) w = (Ok tt, w1)).
    { unfold w1, when, print, ret.
      destruct (SysCall_debug (sys_call_executer w)); reflexivity. }
    rewrite Hwhen.
    assert (H1 : 0 <= cursor w1).
    { unfold w1. destruct (SysCall_debug (sys_call_executer w)); exact H0. }
    destruct (process_single_command_answers decode_shift_jis decode_cp932 w1 H1)
      as (r & w2 & Hsingle & _).
    unfold bind. rewrite Hsingle. exists w2. reflexivity. }
  destruct Hrun as [w' Hrun]. exists w'.
  assert (Hdispatch : _process_opcode decode_shift_jis decode_cp932 0 current_offset w
                      = (Ok tt, w')) by (rewrite <- Hrun; reflexivity).
  split; [exact Hrun|]. split; [exact Hdispatch|].
  pose proof (safe__process_opcode decode_shift_jis decode_cp932 0 current_offset w H0)
    as Hs.
  rewrite Hdispatch in Hs. exact (proj2 Hs).
Qed.

Lemma basic_operation_never_fails_example :
  exists w',
    _handle_basic_operation sample_decode sample_decode 0
      (with_offset (world_of_commands [0; 3; 13]) 1) = (Ok tt, w')
    /\ _process_opcode sample_decode sample_decode 0 0
         (with_offset (world_of_commands [0; 3; 13]) 1) = (Ok tt, w')
    /\ preserved (with_offset (world_of_commands [0; 3; 13]) 1) w'.
Proof.
  exact (basic_operation_never_fails sample_decode sample_decode
           (with_offset (world_of_commands [0; 3; 13]) 1) 0
           ltac:(vm_compute; discriminate)).
Defined.

(** *** SysCallTable.py: what the handlers of the outer dispatcher print and consume *)

(** X23: the lookup [sub_42164D] over its table of zeros returns 0 for
    every argument, so the conditional-jump handler reports target 0 whatever
    the condition evaluates to. *)
Theorem conditional_jump_target_is_always_zero
    (w w1 : World) (condition current_offset : Z) :
  execute_vm_code w = (Ok condition, w1) ->
  sub_42164D condition = 0
  /\ _handle_conditional_jump current_offset w
     = (Ok tt,
        if SysCall_debug (sys_call_executer w1)
        then with_stdout w1
               (stdout w1 ++ [SysConditionalJump current_offset condition 0])
        else w1).
Proof.
  intros Hrun. split; [apply sub_42164D_zero|].
  unfold _handle_conditional_jump, _evaluate_expression. unfold bind at 1.
  rewrite Hrun. rewrite sub_42164D_zero.
  unfold bind, sys_debug, when, print, ret.
  destruct (SysCall_debug (sys_call_executer w1)); reflexivity.
Qed.

Lemma conditional_jump_target_is_always_zero_example :
  sub_42164D 4660 = 0
  /\ _handle_conditional_jump 0 (with_offset (world_of_commands [12; 0; 255; 52; 18; 255]) 1)
     = (Ok tt,
        with_stdout (with_offset (world_of_commands [12; 0; 255; 52; 18; 255]) 6)
          [SysConditionalJump 0 4660 0]).
Proof.
  exact (conditional_jump_target_is_always_zero
           (with_offset (world_of_commands [12; 0; 255; 52; 18; 255]) 1)
           (with_offset (world_of_commands [12; 0; 255; 52; 18; 255]) 6)
           4660 0 eq_refl).
Defined.

Lemma _get_next_byte_here (w : World) (pre rest : list byte) (b : byte) :
  command_data (GB w) = pre ++ b :: rest ->
  command_data_offset (GB w) = Py.len pre ->
  _get_next_byte w = (Ok (Some (Py.ord b)), with_offset w (Py.len pre + 1)).
Proof.
  intros Hd Ho. rewrite (_get_next_byte_in_range w b).
  - rewrite Ho. reflexivity.
  - rewrite Ho. apply len_nonneg.
  - rewrite Hd, Ho. apply getitem_app_here.
Qed.

(** The loop that skips the zero padding reads on until it has read a byte
    that is not zero. *)
Lemma skip_zero_padding_run (n : nat) :
  forall (w : World) (pre rest : list byte) (b : byte) (fuel : nat),
    command_data (GB w) = pre ++ List.repeat x00 n ++ b :: rest ->
    command_data_offset (GB w) = Py.len pre ->
    Py.ord b <> 0 ->
    (n + 1 < fuel)%nat ->
    skip_zero_padding fuel (Some 0) w
    = (Ok tt, with_offset w (Py.len pre + Z.of_nat n + 1)).
Proof.
  induction n as [|n IH]; intros w pre rest b fuel Hd Ho Hb Hfuel.
  - destruct fuel as [|[|fuel]]; [lia|lia|].
    cbn [skip_zero_padding]. rewrite bool_decide_eq_true_2 by reflexivity.
    unfold bind. rewrite (_get_next_byte_here w pre rest b Hd Ho).
    rewrite bool_decide_eq_false_2 by congruence.
    unfold ret. rewrite Z.add_0_r. reflexivity.
  - destruct fuel as [|fuel]; [lia|].
    cbn [skip_zero_padding]. rewrite bool_decide_eq_true_2 by reflexivity.
    unfold bind. cbn [List.repeat List.app] in Hd.
    rewrite (_get_next_byte_here w pre _ x00 Hd Ho).
    change (Py.ord x00) with 0.
    rewrite (IH (with_offset w (Py.len pre + 1)) (pre ++ [x00]) rest b fuel).
    + rewrite with_offset_twice, len_app. change (Py.len [x00]) with 1.
      f_equal. f_equal. lia.
    + simpl. rewrite Hd, <- List.app_assoc. reflexivity.
    + simpl. rewrite len_app. reflexivity.
    + exact Hb.
    + lia.
Qed.

(** X25: after its expression the scenario-load handler always
    consumes one more byte; when that byte is 0 it goes on through the zero
    bytes that follow and consumes the first byte that is not 0 as well. *)
Theorem scenario_load_swallows_the_byte_after_the_padding
    (w w1 : World) (scenario_id current_offset : Z)
    (pre rest : list byte) (b first : byte) (n : nat) :
  execute_vm_code w = (Ok scenario_id, w1) ->
  command_data (GB w1) = pre ++ first :: List.repeat x00 n ++ b :: rest ->
  command_data_offset (GB w1) = Py.len pre ->
  Py.ord b <> 0 ->
  _handle_scenario_load_opcode current_offset w
  = (Ok tt,
     with_offset
       (if SysCall_debug (sys_call_executer w1)
        then with_stdout w1 (stdout w1 ++ [SysLoadScenario scenario_id])
        else w1)
       (if Py.ord first =? 0 then Py.len pre + 1 + Z.of_nat n + 1 else Py.len pre + 1)).
Proof.
  intros Hrun Hd Ho Hb.
  unfold _handle_scenario_load_opcode, _evaluate_expression. unfold bind at 1.
  rewrite Hrun. unfold bind at 1.
  set (w2 := if SysCall_debug (sys_call_executer w1)
             then with_stdout w1 (stdout w1 ++ [SysLoadScenario scenario_id])
             else w1).
  assert (Hload : _handle_scenario_load scenario_id w1 = (Ok tt, w2)).
  { unfold _handle_scenario_load, bind, sys_debug, when, print, ret, w2.
    destruct (SysCall_debug (sys_call_executer w1)); reflexivity. }
  rewrite Hload.
  assert (Hd2 : command_data (GB w2) = pre ++ first :: List.repeat x00 n ++ b :: rest).
  { unfold w2. destruct (SysCall_debug (sys_call_executer w1)); exact Hd. }
  assert (Ho2 : command_data_offset (GB w2) = Py.len pre).
  { unfold w2. destruct (SysCall_debug (sys_call_executer w1)); exact Ho. }
  unfold bind at 1. rewrite (_get_next_byte_here w2 pre _ first Hd2 Ho2).
  set (w3 := with_offset w2 (Py.len pre + 1)).
  assert (Hbudget : exists fuel, pass_budget w3 = S (S (n + fuel))).
  { unfold pass_budget. exists (List.length rest).
    change (command_data (GB w3)) with (command_data (GB w2)).
    change (command_data_offset (GB w3)) with (Py.len pre + 1).
    rewrite Hd2. unfold Py.len.
    rewrite List.length_app. cbn [List.length].
    rewrite List.length_app, List.repeat_length. cbn [List.length]. lia. }
  destruct Hbudget as [fuel ->].
  destruct (Py.ord first =? 0) eqn:E.
  - apply Z.eqb_eq in E. rewrite E.
    rewrite (skip_zero_padding_run n w3 (pre ++ [first]) rest b).
    + unfold w3. rewrite with_offset_twice, len_app. reflexivity.
    + unfold w3. simpl. rewrite Hd2, <- List.app_assoc. reflexivity.
    + unfold w3. simpl. rewrite len_app. reflexivity.
    + exact Hb.
    + lia.
  - apply Z.eqb_neq in E. cbn [skip_zero_padding].
    rewrite bool_decide_eq_false_2 by congruence. reflexivity.
Qed.

Lemma scenario_load_swallows_the_byte_after_the_padding_example :
  _handle_scenario_load_opcode 0
    (with_offset (world_of_commands [10; 255; 0; 0; 13; 13]) 1)
  = (Ok tt,
     with_stdout (with_offset (world_of_commands [10; 255; 0; 0; 13; 13]) 5)
       [SysLoadScenario 0]).
Proof.
  exact (scenario_load_swallows_the_byte_after_the_padding
           (with_offset (world_of_commands [10; 255; 0; 0; 13; 13]) 1)
           (with_offset (world_of_commands [10; 255; 0; 0; 13; 13]) 2)
           0 0 (Py.bytes [10; 255]) (Py.bytes [13]) (Py.byte_of 13) (Py.byte_of 0) 1
           eq_refl eq_refl eq_refl ltac:(vm_compute; discriminate)).
Defined.

(** X22: an opcode of the outer dispatcher other than 0, 4, 5, 8 to 13
    and 16 to 18 has no handler: [_process_opcode] prints one line for it (the
    unknown-adjusted line above 11, the unhandled line otherwise), consumes
    nothing and raises nothing. *)
Theorem sys_opcodes_without_a_handler_are_only_reported
    (decode_shift_jis decode_cp932 : list byte -> option string)
    (w : World) (opcode current_offset : Z) :
  ~ List.In opcode [0; 4; 5; 8; 9; 10; 11; 12; 13; 16; 17; 18] ->
  _process_opcode decode_shift_jis decode_cp932 opcode current_offset w
  = (Ok tt,
     with_stdout w
       (stdout w ++ [if 11 <? opcode
                     then SysUnknownAdjusted (opcode - 12) opcode
                     else SysUnhandledOpcode opcode current_offset])).
Proof.
  intros Hout. cbn [List.In] in Hout.
  unfold _process_opcode, _process_extended_opcode, _process_basic_opcode.
  destruct (11 <? opcode) eqn:E.
  - replace (extended_opcode_handlers !! (opcode - 12)) with (@None SysHandler);
      [reflexivity|].
    unfold extended_opcode_handlers, dict_of. cbn [List.fold_left fst snd].
    rewrite !lookup_insert_ne by (intros Heq; apply Hout; lia).
    symmetry. apply lookup_empty.
  - replace (basic_opcode_handlers !! opcode) with (@None SysHandler);
      [reflexivity|].
    unfold basic_opcode_handlers, dict_of. cbn [List.fold_left fst snd].
    rewrite !lookup_insert_ne by (intros Heq; apply Hout; lia).
    symmetry. apply lookup_empty.
Qed.

Lemma sys_opcodes_without_a_handler_are_only_reported_example :
  _process_opcode sample_decode sample_decode 14 3 (world_of_commands [1; 2; 3; 14])
  = (Ok tt, with_stdout (world_of_commands [1; 2; 3; 14]) [SysUnknownAdjusted 2 14])
  /\ _process_opcode sample_decode sample_decode 7 3 (world_of_commands [1; 2; 3; 7])
  = (Ok tt, with_stdout (world_of_commands [1; 2; 3; 7]) [SysUnhandledOpcode 7 3]).
Proof.
  split.
  - exact (sys_opcodes_without_a_handler_are_only_reported sample_decode sample_decode
             (world_of_commands [1; 2; 3; 14]) 14 3 ltac:(cbn; lia)).
  - exact (sys_opcodes_without_a_handler_are_only_reported sample_decode sample_decode
             (world_of_commands [1; 2; 3; 7]) 7 3 ltac:(cbn; lia)).
Defined.

(** X26: a simple-jump opcode (8) with fewer than two bytes left for
    its target ends [process_sys_calls]: after the line of the opcode (when
    the debug flag is set) the run prints the VM-error line for the missing
    word and returns, the cursor resting behind the opcode byte. *)
Theorem truncated_simple_jump_ends_the_run
    (decode_shift_jis decode_cp932 : list byte -> option string)
    (w : World) (pre tail : list byte) :
  command_data (GB w) = pre ++ x08 :: tail ->
  Py.len tail < 2 ->
  command_data_offset (GB w) = Py.len pre ->
  process_sys_calls decode_shift_jis decode_cp932 w
  = (Ok tt,
     with_stdout (with_offset w (Py.len pre + 1))
       (stdout w
        ++ (if SysCall_debug (sys_call_executer w)
            then [SysAtOffset (Py.len pre) 8] else [])
        ++ [SysVMError (SysCallOpcodeDisassemblerError UnexpectedEndReadingWord)])).
Proof.
  intros Hd Hshort Ho. pose proof (len_nonneg pre) as Hpre.
  pose proof (len_nonneg tail) as Htail.
  assert (Hlen : Py.len (command_data (GB w)) = Py.len pre + 1 + Py.len tail).
  { rewrite Hd, len_app. unfold Py.len. cbn [List.length]. lia. }
  unfold process_sys_calls, try_except, pass_budget.
  cbn [process_sys_calls_loop]. unfold bind at 1. unfold get_GB at 1. cbv beta iota.
  destruct (command_data_offset (GB w) <? Py.len (command_data (GB w))) eqn:E;
    [|apply Z.ltb_ge in E; lia].
  unfold bind at 1. rewrite (_get_next_byte_here w pre tail x08 Hd Ho).
  change (Py.ord x08) with 8. rewrite Ho.
  set (w1 := with_offset w (Py.len pre + 1)).
  unfold bind at 1. unfold sys_debug at 1. cbv beta iota.
  change (SysCall_debug (sys_call_executer w1)) with (SysCall_debug (sys_call_executer w)).
  unfold bind at 1.
  set (w2 := if SysCall_debug (sys_call_executer w)
             then with_stdout w1 (stdout w1 ++ [SysAtOffset (Py.len pre) 8]) else w1).
  assert (Hwhen : when (SysCall_debug (sys_call_executer w))
                       (print (SysAtOffset (Py.len pre) 8)) w1 = (Ok tt, w2)).
  { unfold w2, when, print, ret. destruct (SysCall_debug (sys_call_executer w)); reflexivity. }
  rewrite Hwhen. unfold bind at 1.
  assert (Hjump : _process_opcode decode_shift_jis decode_cp932 8 (Py.len pre) w2
                  = (Raise (SysCallOpcodeDisassemblerError UnexpectedEndReadingWord), w2)).
  { unfold _process_opcode. change (11 <? 8) with false. cbv iota.
    unfold _process_basic_opcode.
    replace (basic_opcode_handlers !! 8) with (Some S_simple_jump)
      by (vm_compute; reflexivity).
    cbn [call_sys_handler]. unfold _handle_simple_jump. unfold bind at 1.
    unfold _safe_get_next_word. unfold bind at 1.
    unfold _get_next_word. unfold bind at 1. unfold get_GB at 1. cbv beta iota.
    assert (Hd2 : command_data (GB w2) = command_data (GB w))
      by (unfold w2; destruct (SysCall_debug (sys_call_executer w)); reflexivity).
    assert (Ho2 : command_data_offset (GB w2) = Py.len pre + 1)
      by (unfold w2; destruct (SysCall_debug (sys_call_executer w)); reflexivity).
    rewrite Hd2, Ho2, Hlen.
    destruct (_ <=? _) eqn:E2; [|apply Z.leb_gt in E2; lia].
    reflexivity. }
  rewrite Hjump. unfold print, w2, w1.
  destruct (SysCall_debug (sys_call_executer w)); cbn; rewrite <- ?List.app_assoc;
    reflexivity.
Qed.

Lemma truncated_simple_jump_ends_the_run_example :
  process_sys_calls sample_decode sample_decode (world_of_commands [13; 8; 7])
  = (Ok tt,
     with_stdout (with_offset (world_of_commands [13; 8; 7]) 2)
       [SysAtOffset 0 13; SysReturn 0; SysAtOffset 1 8;
        SysVMError (SysCallOpcodeDisassemblerError UnexpectedEndReadingWord)])
  /\ process_sys_calls sample_decode sample_decode
       (with_offset (world_of_commands [13; 8; 7]) 1)
  = (Ok tt,
     with_stdout (with_offset (world_of_commands [13; 8; 7]) 2)
       [SysAtOffset 1 8;
        SysVMError (SysCallOpcodeDisassemblerError UnexpectedEndReadingWord)]).
Proof.
  split; [vm_compute; reflexivity|].
  exact (truncated_simple_jump_ends_the_run sample_decode sample_decode
           (with_offset (world_of_commands [13; 8; 7]) 1)
           (Py.bytes [13]) (Py.bytes [7]) eq_refl ltac:(vm_compute; reflexivity) eq_refl).
Defined.

(** *** The outer dispatcher stops only at the end of the data or on an error *)

Section OuterDispatcher.

Variable decode_shift_jis : list byte -> option string.
Variable decode_cp932 : list byte -> option string.

(** The loop of [process_sys_calls] ends normally only with the cursor at
    the end of the command data. *)
Lemma process_sys_calls_loop_ends (fuel : nat) :
  forall w w' : World,
    0 <= cursor w ->
    process_sys_calls_loop decode_shift_jis decode_cp932 fuel w = (Ok tt, w') ->
    Py.len (command_data (GB w')) <= cursor w'.
Proof.
  induction fuel as [|fuel IH]; intros w w' H0 Hrun; [discriminate|].
  cbn [process_sys_calls_loop] in Hrun. unfold bind at 1 in Hrun.
  unfold get_GB at 1 in Hrun. cbv beta iota in Hrun.
  destruct (command_data_offset (GB w) <? Py.len (command_data (GB w))) eqn:E.
  2:{ injection Hrun as <-. apply Z.ltb_ge in E. exact E. }
  apply Z.ltb_lt in E. unfold bind at 1 in Hrun.
  destruct (_get_next_byte_cases w H0) as [[Hge _] | (_ & v & Hbyte & _)];
    [unfold cursor in Hge; lia|].
  rewrite Hbyte in Hrun.
  set (w1 := with_offset w (cursor w + 1)) in *.
  assert (H1 : 0 <= cursor w1) by (unfold w1, cursor in *; simpl; lia).
  unfold bind at 1 in Hrun. unfold sys_debug at 1 in Hrun. cbv beta iota in Hrun.
  unfold bind at 1 in Hrun.
  match type of Hrun with
  | context [when ?d ?p w1] =>
      pose proof (safe_when d p (safe_print _) w1 H1) as Hp;
      destruct (when d p w1) as [[[]|e|] w2]; try discriminate
  end.
  unfold bind at 1 in Hrun.
  assert (H2 : 0 <= cursor w2) by (eapply preserved_nonneg; [exact H1|apply Hp]).
  pose proof (safe__process_opcode decode_shift_jis decode_cp932 v
                (command_data_offset (GB w)) w2 H2) as Ho.
  destruct (_process_opcode decode_shift_jis decode_cp932 v _ w2) as [[[]|e|] w3];
    try discriminate.
  apply (IH w3 w'); [|exact Hrun].
  eapply preserved_nonneg; [exact H2|apply Ho].
Qed.

(** X27: from a non-negative cursor [process_sys_calls] always returns
    normally, and it stops only with the cursor at the end of the command
    data, or with one of its two error lines as the last line printed. *)
Theorem process_sys_calls_stops_at_the_end_or_on_an_error (w : World) :
  0 <= cursor w ->
  exists w',
    process_sys_calls decode_shift_jis decode_cp932 w = (Ok tt, w')
    /\ (Py.len (command_data (GB w')) <= cursor w'
        \/ exists out e, stdout w' = out ++ [SysVMError e]
                         \/ stdout w' = out ++ [SysUnexpectedError e]).
Proof.
  intros H0. unfold process_sys_calls, try_except.
  pose proof (process_sys_calls_loop_safe decode_shift_jis decode_cp932
                (pass_budget w) w H0) as Hs.
  specialize (Hs ltac:(unfold pass_budget, cursor; lia)).
  destruct (process_sys_calls_loop decode_shift_jis decode_cp932 (pass_budget w) w)
    as [[[]|e|] w1] eqn:Hrun.
  - exists w1. split; [reflexivity|]. left.
    exact (process_sys_calls_loop_ends (pass_budget w) w w1 H0 Hrun).
  - destruct e; unfold print; eexists; (split; [reflexivity|]); right;
      eexists _, _; cbn [stdout with_stdout]; eauto.
  - contradiction.
Qed.

End OuterDispatcher.

Lemma process_sys_calls_stops_at_the_end_or_on_an_error_example :
  exists w',
    process_sys_calls sample_decode sample_decode (world_of_commands [13; 8; 7]) = (Ok tt, w')
    /\ (Py.len (command_data (GB w')) <= cursor w'
        \/ exists out e, stdout w' = out ++ [SysVMError e]
                         \/ stdout w' = out ++ [SysUnexpectedError e]).
Proof.
  exact (process_sys_calls_stops_at_the_end_or_on_an_error sample_decode sample_decode
           (world_of_commands [13; 8; 7]) ltac:(vm_compute; discriminate)).
Defined.

(** *** Disassemble.py: a run of the driver *)

(** X28: once the file is read, [disassemble] always returns and never
    prints the unexpected-error line. On fewer than 12 bytes it prints the
    header-too-small error and leaves the buffers alone; on a file shorter than
    its header requires it prints the size error and leaves the buffers alone;
    otherwise it prints no error of its own, and the world it ends in is the
    one in which [process_sys_calls] returns when started, with the cursor at
    0, on the two segments cut out as the header says. A header line is
    printed first exactly when the debug flag is set and the header was
    parsed. *)
Theorem disassemble_outcomes
    (decode_shift_jis decode_cp932 : list byte -> option string)
    (debug : bool) (data : list byte) (w : World) :
  exists run,
    disassemble decode_shift_jis decode_cp932 debug data w = Ok run
    /\ (forall e, ~ List.In (TopUnexpectedError e) (printed_last run))
    /\ (if Py.len data <? 12 then
          run = mkRun [] w [TopDisassemblyError FileTooSmallForHeader]
        else
          exists header,
            _parse_header data = Ok header
            /\ printed_first run = (if debug then [TopHeader header; TopBlank] else [])
            /\ let required := 12 + command_block_size header
                               + command_block_for_text_size header
                               + string_table_size header in
               if Py.len data <? required then
                 final run = w
                 /\ printed_last run
                    = [TopDisassemblyError
                         (FileSizeSmallerThanRequired (Py.len data) required)]
               else
                 printed_last run = []
                 /\ process_sys_calls decode_shift_jis decode_cp932
                      (with_GB w
                         (mkGlobalBuffer
                            (Py.slice data (12 + command_block_size header)
                               (12 + command_block_size header
                                + command_block_for_text_size header))
                            (Py.slice data
                               (12 + command_block_size header
                                + command_block_for_text_size header)
                               required)
                            0 (text_data_offset (GB w))))
                    = (Ok tt, final run)
                 /\ command_data (GB (final run))
                    = Py.slice data (12 + command_block_size header)
                        (12 + command_block_size header
                         + command_block_for_text_size header)
                 /\ text_data (GB (final run))
                    = Py.slice data
                        (12 + command_block_size header
                         + command_block_for_text_size header)
                        required).
Proof.
  unfold disassemble.
  destruct (Py.len data <? 12) eqn:E.
  - unfold _parse_header. rewrite E. eexists. split; [reflexivity|].
    split; [|reflexivity].
    intros e [H|[]]. discriminate.
  - apply Z.ltb_ge in E.
    destruct (_parse_header_total data E) as [header Hh]. rewrite Hh.
    unfold _setup_global_buffers.
    set (required := 12 + command_block_size header
                     + command_block_for_text_size header + string_table_size header).
    destruct (Py.len data <? required) eqn:E2.
    + eexists. split; [reflexivity|]. split.
      * intros e [H|[]]. discriminate.
      * exists header. split; [reflexivity|]. split; [reflexivity|].
        fold required. rewrite E2. split; reflexivity.
    + set (w1 := with_GB w _).
      destruct (process_sys_calls_returns decode_shift_jis decode_cp932 w1)
        as (w2 & Hrun & Hkeep); [unfold cursor; simpl; lia|].
      rewrite Hrun. eexists. split; [reflexivity|]. split.
      * intros e [].
      * exists header. split; [reflexivity|]. split; [reflexivity|].
        fold required. rewrite E2. split; [reflexivity|].
        split; [exact Hrun|].
        destruct Hkeep as (Hc & Ht & _). cbn [final]. rewrite Hc, Ht. split; reflexivity.
Qed.

(** On the sample file the decoder runs on the two command bytes and prints
    its two lines; on the truncated file, with the debug flag set, the header
    is printed and then the size error, and the buffers stay as they were. *)
Lemma disassemble_sample_files :
  disassemble sample_decode sample_decode false sample_file
    (World_init (mkGlobalBuffer [] [] 7 0))
  = Ok (mkRun []
          (with_stdout
             (World_init (mkGlobalBuffer (Py.bytes [11; 12]) (Py.bytes [21; 22; 23]) 2 0))
             [SysAtOffset 0 11; SysCallTo 0 0])
          [])
  /\ disassemble sample_decode sample_decode true truncated_file
       (World_init (mkGlobalBuffer [] [] 7 0))
     = Ok (mkRun [TopHeader (mkFileHeader 0 1 2 3 0); TopBlank]
             (World_init (mkGlobalBuffer [] [] 7 0))
             [TopDisassemblyError (FileSizeSmallerThanRequired 16 18)]).
Proof. split; vm_compute; reflexivity. Qed.
